(** * check_etcd_v3_cluster: the Nagios check of an etcd v3 cluster

    A shallow embedding of
    [files/target/usr/lib/nagios/plugins/check_etcd_v3_cluster.py]:
    the member listing ([get_v3_members_list]), the health probe with its two
    output formats and the join of observations to members
    ([get_v3_members_health]), the threshold evaluation
    ([check_cluster_members]) and the exception handlers of the script's
    entry point ([main]).

    Conventions of the embedding.
    - A Python [str] is a [string]; each character stands for one code point
      below 256.
    - The script is embedded at two levels.  The section [Script] is the
      script on commands whose streams decode as UTF-8: a stream is the
      decoded text, and [json.loads] fails only with [JSONDecodeError].
      The module [Raw] is the script on the bytes that [subprocess]
      captures, with the [UnicodeDecodeError] of [json.loads] and of
      [str(b, "utf-8")]; [raw_run_on_decoded_output] shows that both run
      alike on output that decodes.
    - A value built by [json.loads] is a [pyval].  JSON numbers with a
      fraction or an exponent (Python floats) are outside the model.
    - A Python computation that may raise is a [result]; [Raise e] carries
      the exception, and the handlers of the entry point turn it into an
      exit code.  [assert] statements are executed: the script is run by
      [/usr/bin/python3] without [-O].
    - The libraries the script calls are the variables of the section
      [Script]: [json.loads], [subprocess], [shutil.which], and the wording
      the interpreter gives to its own exceptions.

    The module [Leader] embeds the second script,
    [files/target/usr/local/bin/etcd_leader_to_etcd_keys.py]. *)

From Stdlib Require Import ZArith List String Ascii Bool Lia DecimalString.
Import ListNotations.
Local Open Scope string_scope.
Local Open Scope Z_scope.

(** ** Python strings *)

Module PyStr.

Definition code (c : ascii) : N := N_of_ascii c.

(** Line boundaries of [str.splitlines]: LF, VT, FF, CR, FS, GS, RS, NEL. *)
Definition is_linebreak (c : ascii) : bool :=
  existsb (N.eqb (code c)) [10; 11; 12; 13; 28; 29; 30; 133]%N.

(** White space of [str.strip] and [str.isspace]. *)
Definition is_space (c : ascii) : bool :=
  existsb (N.eqb (code c)) [9; 10; 11; 12; 13; 28; 29; 30; 31; 32; 133; 160]%N.

Definition LF : ascii := ascii_of_N 10.
Definition CR : ascii := ascii_of_N 13.
Definition SP : ascii := ascii_of_N 32.

Definition is_empty (s : string) : bool :=
  match s with EmptyString => true | String _ _ => false end.

Fixpoint rev_onto (s acc : string) : string :=
  match s with
  | EmptyString => acc
  | String c r => rev_onto r (String c acc)
  end.

Definition rev (s : string) : string := rev_onto s EmptyString.

(** [splitlines_from cur s]: [cur] is the line read so far, reversed.
    A CR LF pair is one boundary; the text after the last boundary is a
    line only when it is not empty. *)
Fixpoint splitlines_from (cur s : string) : list string :=
  match s with
  | EmptyString => if is_empty cur then [] else [rev cur]
  | String c r =>
      if is_linebreak c then
        match r with
        | String c2 r2 =>
            if (Ascii.eqb c CR && Ascii.eqb c2 LF)%bool
            then rev cur :: splitlines_from EmptyString r2
            else rev cur :: splitlines_from EmptyString r
        | EmptyString => [rev cur]
        end
      else splitlines_from (String c cur) r
  end.

Definition splitlines (s : string) : list string :=
  splitlines_from EmptyString s.

Fixpoint lstrip (s : string) : string :=
  match s with
  | String c r => if is_space c then lstrip r else s
  | EmptyString => EmptyString
  end.

Definition strip (s : string) : string := rev (lstrip (rev (lstrip s))).

(** [sep.join(l)] on a list of [str]. *)
Fixpoint join (sep : string) (l : list string) : string :=
  match l with
  | [] => ""
  | [x] => x
  | x :: r => x ++ sep ++ join sep r
  end.

(** [needle in hay] on two [str]. *)
Fixpoint contains (needle hay : string) : bool :=
  if prefix needle hay then true
  else match hay with
       | EmptyString => false
       | String _ r => contains needle r
       end.

(** [str(n)], also what [%s] and [%d] print for an [int]. *)
Definition of_Z (z : Z) : string := NilZero.string_of_int (Z.to_int z).

(** [[x.strip() for x in s.splitlines() if x.strip()]] *)
Definition stripped_lines (s : string) : list string :=
  map strip (filter (fun x => negb (is_empty (strip x))) (splitlines s)).

(** [s] without its prefix [p], when it starts with [p] *)
Fixpoint strip_prefix (p s : string) : option string :=
match p with
| EmptyString => Some s
| String c p' =>
    match s with
    | String d s' => if Ascii.eqb c d then strip_prefix p' s' else None
    | EmptyString => None
    end
end.

End PyStr.

(** ** Python values and exceptions *)

(** What [json.loads] builds, and what the script stores in its tuples. A
    [dict] keeps its keys in insertion order; its keys are [str]. *)
#[warnings="-register-all"]
Inductive pyval : Type :=
| PNone
| PBool (b : bool)
| PInt (z : Z)
| PStr (s : string)
| PList (l : list pyval)
| PDict (d : list (string * pyval)).

(** The exceptions the script raises or lets escape. *)
Inductive exn : Type :=
| NagiosCritical (message : string) (multiline : option string)
| NagiosWarning (message : string) (multiline : option string)
| NagiosOk (message : string) (multiline : option string)
| AssertionError (message : string)
| ValueError (message : string)
| NameError (name : string)
| KeyError (key : pyval)
| IndexError
| TypeError
| AttributeError
| JSONDecodeError
| UnicodeDecodeError.

Inductive result (A : Type) : Type :=
| Ok (a : A)
| Raise (e : exn).

Arguments Ok {A} a.
Arguments Raise {A} e.

Definition bind {A B : Type} (c : result A) (k : A -> result B) : result B :=
  match c with
  | Ok a => k a
  | Raise e => Raise e
  end.

Declare Scope py_scope.
Delimit Scope py_scope with py.
Notation "x <- c ;; k" := (bind c (fun x => k))
  (at level 61, c at next level, right associativity) : py_scope.
Notation "c ;;; k" := (bind c (fun _ => k))
  (at level 61, right associativity) : py_scope.
Local Open Scope py_scope.

(** A comprehension [[f(x) for x in l]]: items in order, the first exception
    ends it. *)
Fixpoint mapM {A B : Type} (f : A -> result B) (l : list A) : result (list B) :=
  match l with
  | [] => Ok []
  | x :: r => y <- f x ;; ys <- mapM f r ;; Ok (y :: ys)
  end.

(** A comprehension [[x for x in l if p(x)]]. *)
Fixpoint filterM {A : Type} (p : A -> result bool) (l : list A) : result (list A) :=
  match l with
  | [] => Ok []
  | x :: r => b <- p x ;; xs <- filterM p r ;; Ok (if b then x :: xs else xs)
  end.

(** [assert cond, message]; the message is evaluated only on failure. *)
Definition py_assert (cond : bool) (message : result string) : result unit :=
  if cond then Ok tt else m <- message ;; Raise (AssertionError m).

Module Py.

Definition DQ : ascii := ascii_of_N 34.
Definition SQ : ascii := ascii_of_N 39.
Definition BS : ascii := ascii_of_N 92.

Definition lookup (k : string) (d : list (string * pyval)) : option pyval :=
  match find (fun kv => String.eqb (fst kv) k) d with
  | Some kv => Some (snd kv)
  | None => None
  end.

Definition has_key (k : string) (d : list (string * pyval)) : bool :=
  match lookup k d with Some _ => true | None => false end.

(** [v[k]] for a [str] key [k]. *)
Definition getitem_key (v : pyval) (k : string) : result pyval :=
  match v with
  | PDict d => match lookup k d with
               | Some x => Ok x
               | None => Raise (KeyError (PStr k))
               end
  | _ => Raise TypeError
  end.

(** [v[0]]. *)
Definition getitem_first (v : pyval) : result pyval :=
  match v with
  | PList (x :: _) => Ok x
  | PList [] => Raise IndexError
  | PStr (String c _) => Ok (PStr (String c EmptyString))
  | PStr EmptyString => Raise IndexError
  | PDict _ => Raise (KeyError (PInt 0))
  | _ => Raise TypeError
  end.

(** [d.get(k, None)]. *)
Definition dict_get (v : pyval) (k : string) : result pyval :=
  match v with
  | PDict d => Ok (match lookup k d with Some x => x | None => PNone end)
  | _ => Raise AttributeError
  end.

Definition chars (s : string) : list pyval :=
  map (fun c => PStr (String c EmptyString)) (list_ascii_of_string s).

(** The items a [for] loop or a comprehension sees. *)
Definition iter (v : pyval) : result (list pyval) :=
  match v with
  | PList l => Ok l
  | PDict d => Ok (map (fun kv => PStr (fst kv)) d)
  | PStr s => Ok (chars s)
  | _ => Raise TypeError
  end.

(** [a == b]. A [bool] is the integer 0 or 1; two dicts are equal when they
    hold the same keys with equal values. *)
Fixpoint eq (a b : pyval) {struct a} : bool :=
  match a, b with
  | PNone, PNone => true
  | PBool x, PBool y => Bool.eqb x y
  | PBool x, PInt y => (if x then 1 else 0) =? y
  | PInt x, PBool y => x =? (if y then 1 else 0)
  | PInt x, PInt y => x =? y
  | PStr x, PStr y => String.eqb x y
  | PList la, PList lb =>
      (fix go (la lb : list pyval) : bool :=
         match la, lb with
         | [], [] => true
         | x :: xs, y :: ys => eq x y && go xs ys
         | _, _ => false
         end) la lb
  | PDict da, PDict db =>
      (Nat.eqb (List.length da) (List.length db)) &&
      (fix go (da : list (string * pyval)) : bool :=
         match da with
         | [] => true
         | (k, v) :: r =>
             match lookup k db with
             | Some w => eq v w
             | None => false
             end && go r
         end) da
  | _, _ => false
  end%bool.

(** [x in c]. *)
Definition contains (x c : pyval) : result bool :=
  match c with
  | PList l => Ok (existsb (eq x) l)
  | PStr hay => match x with
                | PStr needle => Ok (PyStr.contains needle hay)
                | _ => Raise TypeError
                end
  | PDict d => match x with
               | PStr k => Ok (has_key k d)
               | PList _ | PDict _ => Raise TypeError
               | _ => Ok false
               end
  | _ => Raise TypeError
  end.

(** [sep.join(l)]: every item has to be a [str]. *)
Fixpoint join (sep : string) (l : list pyval) : result string :=
  match l with
  | [] => Ok ""
  | [PStr x] => Ok x
  | PStr x :: r => rest <- join sep r ;; Ok (x ++ sep ++ rest)
  | _ => Raise TypeError
  end.

Definition is_True (v : pyval) : bool :=
  match v with PBool true => true | _ => false end.

Definition is_False (v : pyval) : bool :=
  match v with PBool false => true | _ => false end.

Definition hex_digit (n : N) : ascii :=
  if (n <? 10)%N then ascii_of_N (48 + n) else ascii_of_N (87 + n).

Definition hex2 (n : N) : string :=
  String (hex_digit (n / 16)) (String (hex_digit (n mod 16)) EmptyString).

Definition has_char (c : ascii) (s : string) : bool :=
  existsb (Ascii.eqb c) (list_ascii_of_string s).

Definition printable (n : N) : bool :=
  ((32 <=? n) && (n <? 127) || (161 <=? n) && negb (n =? 173))%N%bool.

Definition repr_char (quote c : ascii) : string :=
  let n := N_of_ascii c in
  if Ascii.eqb c BS then String BS (String BS EmptyString)
  else if Ascii.eqb c quote then String BS (String quote EmptyString)
  else if (n =? 9)%N then String BS "t"
  else if (n =? 10)%N then String BS "n"
  else if (n =? 13)%N then String BS "r"
  else if printable n then String c EmptyString
  else String BS (String "x" (hex2 n)).

(** [repr(s)] of a [str]. *)
Definition repr_str (s : string) : string :=
  let quote := if (has_char SQ s && negb (has_char DQ s))%bool then DQ else SQ in
  String quote (concat "" (map (repr_char quote) (list_ascii_of_string s)))
    ++ String quote EmptyString.

Fixpoint repr (v : pyval) : string :=
  match v with
  | PNone => "None"
  | PBool true => "True"
  | PBool false => "False"
  | PInt z => PyStr.of_Z z
  | PStr s => repr_str s
  | PList l =>
      "[" ++ PyStr.join ", " ((fix go (l : list pyval) : list string :=
                                 match l with
                                 | [] => []
                                 | x :: r => repr x :: go r
                                 end) l) ++ "]"
  | PDict d =>
      "{" ++ PyStr.join ", " ((fix go (d : list (string * pyval)) : list string :=
                                 match d with
                                 | [] => []
                                 | (k, x) :: r => (repr_str k ++ ": " ++ repr x) :: go r
                                 end) d) ++ "}"
  end.

(** [str(v)], what [%s] prints. *)
Definition str (v : pyval) : string :=
  match v with
  | PStr s => s
  | _ => repr v
  end.

End Py.

(** ** The two patterns of the legacy health output

    [re.match] of the two patterns of lines 166 and 167, written out.  In
    both the endpoint is the text before the first space, since [[^ ]+] is
    followed by a space.  In the healthy pattern [took] runs to the end of
    the line and holds no space, so it is the text after the last space; the
    text before that space ends in [took =], and what [.+] matched lies
    between the colon and that.  [.] matches anything but a line feed, and
    [$] also matches before a line feed that ends the text. *)

Module Re.

(** The longest prefix of [s] without the character [stop], and the rest *)
Fixpoint span_until (stop : ascii) (s : string) : string * string :=
match s with
| EmptyString => (EmptyString, EmptyString)
| String c r =>
    if Ascii.eqb c stop then (EmptyString, s)
    else let (a, b) := span_until stop r in (String c a, b)
end.

Definition span_nonspace (s : string) : string * string := span_until PyStr.SP s.

Definition span_line (s : string) : string * string := span_until PyStr.LF s.

(** [rsplit_space s = Some (a, b)] when [s] is [a], a space, and [b]
    without a space. *)
Definition rsplit_space (s : string) : option (string * string) :=
  let (b, a) := span_nonspace (PyStr.rev s) in
  match a with
  | String _ a' => Some (PyStr.rev a', PyStr.rev b)
  | EmptyString => None
  end.

Definition strip_suffix (suf s : string) : option string :=
  match PyStr.strip_prefix (PyStr.rev suf) (PyStr.rev s) with
  | Some r => Some (PyStr.rev r)
  | None => None
  end.

(** [^(?P<endpoint>[^ ]+) is (?P<health>healthy):.+took = (?P<took>[^ ]+)$];
    the answer is the match's [groupdict()]. *)
Definition matcher_healthy (entry : string) : option (list (string * pyval)) :=
  let (endpoint, rest) := span_nonspace entry in
  if PyStr.is_empty endpoint then None else
  match PyStr.strip_prefix " is healthy:" rest with
  | None => None
  | Some r =>
      match rsplit_space r with
      | None => None
      | Some (before, took) =>
          if PyStr.is_empty took then None else
          match strip_suffix "took =" before with
          | None => None
          | Some dots =>
              if (PyStr.is_empty dots || Py.has_char PyStr.LF dots)%bool then None
              else Some [("endpoint", PStr endpoint);
                         ("health", PStr "healthy");
                         ("took", PStr took)]
          end
      end
  end.

(** [^(?P<endpoint>[^ ]+) is (?P<health>unhealthy): (?P<error>.+)$] *)
Definition matcher_unhealthy (entry : string) : option (list (string * pyval)) :=
  let (endpoint, rest) := span_nonspace entry in
  if PyStr.is_empty endpoint then None else
  match PyStr.strip_prefix " is unhealthy: " rest with
  | None => None
  | Some r =>
      let (error, tail) := span_line r in
      if PyStr.is_empty error then None
      else if (PyStr.is_empty tail || String.eqb tail (String PyStr.LF EmptyString))%bool
      then Some [("endpoint", PStr endpoint);
                 ("health", PStr "unhealthy");
                 ("error", PStr error)]
      else None
  end.

End Re.

(** ** The script *)

Module V3ClusterMember.
Record t : Type := make {
  id : pyval;
  name : pyval;
  peer_urls : pyval;
  client_urls : pyval
}.
End V3ClusterMember.

Module V3ClusterMemberHealth.
Record t : Type := make {
  id : pyval;
  name : pyval;
  peer_urls : pyval;
  client_urls : pyval;
  health : pyval;
  took : pyval;
  error : pyval
}.
End V3ClusterMemberHealth.

(** What [subprocess] knows of a finished command. *)
Record CompletedProcess : Type := {
  returncode : Z;
  stdout : string;
  stderr : string
}.

Record CheckEtcdCluster : Type := { etcdctl_path : string }.

(** The parsed command line. *)
Record Namespace : Type := {
  action : string;
  warning : option Z;
  critical : option Z
}.

(** What the process leaves behind: its exit code and the calls of [print]. *)
Record report : Type := {
  exit_code : Z;
  printed : list string
}.

Inductive severity : Type := OK | WARNING | CRITICAL | UNKNOWN.

Definition env : list (string * string) := [("ETCDCTL_API", "3")].

(** [" ".join("%s=%s" % x for x in env.items()) + " " + " ".join(cmd)] *)
Definition cmd_str (cmd : list string) : string :=
  PyStr.join " " (map (fun x => fst x ++ "=" ++ snd x) env) ++ " " ++ PyStr.join " " cmd.

Definition failed_with (cmd : list string) (code : Z) (main_line : string) : string :=
  "Command " ++ cmd_str cmd ++ " failed with code " ++ PyStr.of_Z code ++ ": " ++ main_line.

Definition unparsable_line (entry : string) : string :=
  "Old etcd without JSON support but unparsable line " ++ entry.

(** Line 185 reads the name [error], which is bound neither in the method,
    nor in the module, nor among the builtins. *)
Definition load_name_error : result string := Raise (NameError "error").

Section Script.

(** [json.loads] on text; [None] stands for [json.decoder.JSONDecodeError]. *)
Variable json_loads : string -> option pyval.

(** The outcome of running a command under [env], its streams decoded as
    UTF-8; the module [Raw] below has the bytes and the decoding.  For a
    command run with [stderr=subprocess.STDOUT], [stdout] is the merged
    stream. *)
Variable subprocess_run : list string -> CompletedProcess.

Variable shutil_which : string -> option string.

(** [str(exc)] for the exceptions the interpreter and [json] word. *)
Variable interp_text : exn -> string.

(** [__init__], lines 113 to 115 *)
Definition CheckEtcdCluster_init : result CheckEtcdCluster :=
  match shutil_which "etcdctl" with
  | Some p => Ok {| etcdctl_path := p |}
  | None => Raise (AssertionError "Unable to find etcdctl command in path")
  end.

Definition members_list_cmd (self : CheckEtcdCluster) : list string :=
  [etcdctl_path self; "member"; "list"; "-w"; "json"].

(** One item of the comprehension of line 138 *)
Definition member_of (x : pyval) : result V3ClusterMember.t :=
  i <- Py.getitem_key x "ID" ;;
  n <- Py.getitem_key x "name" ;;
  p <- Py.getitem_key x "peerURLs" ;;
  c <- Py.getitem_key x "clientURLs" ;;
  Ok (V3ClusterMember.make i n p c).

(** Lines 117 to 139 *)
Definition get_v3_members_list (self : CheckEtcdCluster) : result (list V3ClusterMember.t) :=
  let cmd := members_list_cmd self in
  let proc := subprocess_run cmd in
  if returncode proc =? 0 then
    match json_loads (stdout proc) with
    | None => Raise JSONDecodeError
    | Some parsed =>
        ms <- Py.getitem_key parsed "members" ;;
        items <- Py.iter ms ;;
        mapM member_of items
    end
  else
    let stdout_l := PyStr.stripped_lines (stdout proc) in
    match stdout_l with
    | first :: _ =>
        Raise (NagiosCritical (failed_with cmd (returncode proc) first)
                              (Some (PyStr.join (String PyStr.LF "") stdout_l)))
    | [] =>
        Raise (NagiosCritical (failed_with cmd (returncode proc) "No output") None)
    end.

(** Line 153 *)
Definition endpoint_all_members (members : list V3ClusterMember.t) : result (list pyval) :=
  mapM (fun x => Py.getitem_first (V3ClusterMember.peer_urls x)) members.

(** Line 157 *)
Definition health_cmd (self : CheckEtcdCluster) (members : list V3ClusterMember.t)
  : result (list string) :=
  endpoints <- endpoint_all_members members ;;
  joined <- Py.join "," endpoints ;;
  Ok [etcdctl_path self; "--endpoints=" ++ joined; "endpoint"; "health"; "-w"; "json"].

(** The body of the loop of lines 165 to 187 for one line of output *)
Definition legacy_entry (entry : string) : result pyval :=
  md <- match Re.matcher_healthy entry, Re.matcher_unhealthy entry with
        | Some d, _ => Ok (d, true)
        | None, Some d => Ok (d, false)
        | None, None => Raise (AssertionError (unparsable_line entry))
        end ;;
  let matched_dict := PDict (fst md) in
  let health := snd md in
  py_assert (Py.has_key "endpoint" (fst md)) (Ok (unparsable_line entry)) ;;;
  py_assert (Py.has_key "health" (fst md)) (Ok (unparsable_line entry)) ;;;
  py_assert (Py.has_key "took" (fst md)) (Ok (unparsable_line entry)) ;;;
  e1 <- Py.getitem_key matched_dict "endpoint" ;;
  t <- Py.getitem_key matched_dict "took" ;;
  e2 <- Py.getitem_key matched_dict "endpoint" ;;
  key <- load_name_error ;;
  err <- Py.dict_get matched_dict key ;;
  Ok (PDict [("endpoint", e1);
             ("health", PBool health);
             ("took", t);
             ("peer_urls", PList [e2]);
             ("client_urls", PList []);
             ("error", err)]).

(** Lines 164 to 187: [parsed] grows by one entry per line. *)
Fixpoint legacy_loop (entries : list string) (parsed : list pyval) : result (list pyval) :=
  match entries with
  | [] => Ok parsed
  | entry :: rest =>
      parsed_entry <- legacy_entry entry ;;
      legacy_loop rest (parsed ++ [parsed_entry])%list
  end.

Definition legacy_parse (output : string) : result pyval :=
  parsed <- legacy_loop (PyStr.splitlines output) [] ;;
  Ok (PList parsed).

(** The handler of [subprocess.CalledProcessError], lines 190 to 207; the
    exception carries the return code and both streams of [res]. *)
Definition on_called_process_error (cmd : list string) (exc : CompletedProcess) : result pyval :=
  let stdout_l := PyStr.stripped_lines (stdout exc) in
  let stderr_l := PyStr.stripped_lines (stderr exc) in
  match json_loads (stdout exc) with
  | Some parsed => Ok parsed
  | None =>
      let main_line :=
        match stdout_l, stderr_l with
        | first :: _, _ => first
        | [], first :: _ => first
        | [], [] => "No output"
        end in
      match (stdout_l ++ stderr_l)%list with
      | _ :: _ =>
          Raise (NagiosCritical (failed_with cmd (returncode exc) main_line)
                                (Some (PyStr.join (String PyStr.LF "") (stdout_l ++ stderr_l)%list)))
      | [] =>
          Raise (NagiosCritical (failed_with cmd (returncode exc) main_line) None)
      end
  end.

(** Lines 158 to 207: run the probe and normalise its output. *)
Definition probe_output (cmd : list string) (res : CompletedProcess) : result pyval :=
  let output := stdout res in
  match json_loads output with
  | None => legacy_parse output
  | Some parsed =>
      (* [res.check_returncode()] *)
      if returncode res =? 0 then Ok parsed
      else on_called_process_error cmd res
  end.

(** Lines 153 to 207 *)
Definition probe (self : CheckEtcdCluster) (members : list V3ClusterMember.t) : result pyval :=
  cmd <- health_cmd self members ;;
  probe_output cmd (subprocess_run cmd).

(** Line 210 *)
Definition matchings (members : list V3ClusterMember.t) (parsed_member : pyval)
  : result (list V3ClusterMember.t) :=
  filterM (fun x => endpoint <- Py.getitem_key parsed_member "endpoint" ;;
                    Py.contains endpoint (V3ClusterMember.peer_urls x)) members.

(** The body of the loop of lines 209 to 223 *)
Definition member_health (members : list V3ClusterMember.t) (parsed_member : pyval)
  : result V3ClusterMemberHealth.t :=
  ms <- matchings members parsed_member ;;
  py_assert (Nat.eqb (List.length ms) 1)
            (endpoint <- Py.getitem_key parsed_member "endpoint" ;;
             Ok ("Unable to find node definition matching endpoint " ++ Py.str endpoint)) ;;;
  match ms with
  | matching :: _ =>
      h <- Py.getitem_key parsed_member "health" ;;
      t <- Py.getitem_key parsed_member "took" ;;
      e <- Py.dict_get parsed_member "error" ;;
      Ok (V3ClusterMemberHealth.make
            (V3ClusterMember.id matching) (V3ClusterMember.name matching)
            (V3ClusterMember.peer_urls matching) (V3ClusterMember.client_urls matching)
            h t e)
  | [] => Raise IndexError
  end.

Fixpoint reconcile_loop (members : list V3ClusterMember.t) (items : list pyval)
         (members_health : list V3ClusterMemberHealth.t) : result (list V3ClusterMemberHealth.t) :=
  match items with
  | [] => Ok members_health
  | parsed_member :: rest =>
      mh <- member_health members parsed_member ;;
      reconcile_loop members rest (members_health ++ [mh])%list
  end.

(** Lines 209 to 224 *)
Definition reconcile (members : list V3ClusterMember.t) (parsed : pyval)
  : result (list V3ClusterMemberHealth.t) :=
  items <- Py.iter parsed ;;
  reconcile_loop members items [].

(** Lines 141 to 224 *)
Definition get_v3_members_health (self : CheckEtcdCluster) : result (list V3ClusterMemberHealth.t) :=
  members <- get_v3_members_list self ;;
  parsed <- probe self members ;;
  reconcile members parsed.

Definition line_healthy (x : V3ClusterMemberHealth.t) : string :=
  Py.str (V3ClusterMemberHealth.name x) ++ ": healthy: took "
    ++ Py.str (V3ClusterMemberHealth.took x).

Definition line_dead (x : V3ClusterMemberHealth.t) : string :=
  Py.str (V3ClusterMemberHealth.name x) ++ ": dead: took "
    ++ Py.str (V3ClusterMemberHealth.took x) ++ ": "
    ++ Py.str (V3ClusterMemberHealth.error x).

(** ["%s: %s" % (x.name, x.error)] *)
Definition name_error_pair (x : V3ClusterMemberHealth.t) : string :=
  Py.str (V3ClusterMemberHealth.name x) ++ ": " ++ Py.str (V3ClusterMemberHealth.error x).

(** ["%d/%d healthy nodes: %s"] *)
Definition healthy_nodes (healthy total : nat) (what : string) : string :=
  PyStr.of_Z (Z.of_nat healthy) ++ "/" ++ PyStr.of_Z (Z.of_nat total)
    ++ " healthy nodes: " ++ what.

Definition healthy_members (members : list V3ClusterMemberHealth.t) :=
  filter (fun x => Py.is_True (V3ClusterMemberHealth.health x)) members.

Definition dead_members (members : list V3ClusterMemberHealth.t) :=
  filter (fun x => Py.is_False (V3ClusterMemberHealth.health x)) members.

Definition at_least (threshold : option Z) (n : nat) : bool :=
  match threshold with
  | Some t => Z.of_nat n >=? t
  | None => false
  end.

(** Lines 237 to 258: what [check_cluster_members] does with the records
    it was given.  It always raises. *)
Definition check_members (members : list V3ClusterMemberHealth.t)
           (warning critical : option Z) : result unit :=
  let healthy := healthy_members members in
  let dead := dead_members members in
  let lines_healthy := map line_healthy healthy in
  let lines_dead := map line_dead dead in
  let multiline := PyStr.join (String PyStr.LF "") (lines_healthy ++ lines_dead)%list in
  let dead_summary := PyStr.join ", " (map name_error_pair dead) in
  if at_least critical (List.length dead) then
    Raise (NagiosCritical
             (healthy_nodes (List.length healthy) (List.length members) dead_summary)
             (Some multiline))
  else if at_least warning (List.length dead) then
    Raise (NagiosWarning
             (healthy_nodes (List.length healthy) (List.length members) dead_summary)
             (Some multiline))
  else
    match dead with
    | [] =>
        names <- Py.join ", " (map V3ClusterMemberHealth.name healthy) ;;
        Raise (NagiosOk
                 (healthy_nodes (List.length healthy) (List.length members) names)
                 (Some multiline))
    | _ :: _ =>
        Raise (NagiosOk
                 (healthy_nodes (List.length healthy) (List.length members) dead_summary)
                 (Some multiline))
    end.

(** Lines 226 to 258 *)
Definition check_cluster_members (self : CheckEtcdCluster)
           (warning critical : option Z) : result unit :=
  members <- get_v3_members_health self ;;
  check_members members warning critical.

(** Lines 281 to 287: the value -1 unsets a threshold, and a warning
    threshold above the critical one is refused by [parser.error]. *)
Definition unset_sentinel (t : option Z) : option Z :=
  match t with
  | Some v => if v =? -1 then None else Some v
  | None => None
  end.

Definition parse_args_thresholds (args : Namespace) : Namespace + report :=
  let w := unset_sentinel (warning args) in
  let c := unset_sentinel (critical args) in
  match w, c with
  | Some wv, Some cv =>
      if wv >? cv then
        inr {| exit_code := 3;
               printed := ["UNKNOWN: Bad arguments (see --help): "
                             ++ "Warning threshold cannot be greater than critical one"] |}
      else inl {| action := action args; warning := w; critical := c |}
  | _, _ => inl {| action := action args; warning := w; critical := c |}
  end.

Definition class_name (e : exn) : string :=
  match e with
  | NagiosCritical _ _ => "NagiosCritical"
  | NagiosWarning _ _ => "NagiosWarning"
  | NagiosOk _ _ => "NagiosOk"
  | AssertionError _ => "AssertionError"
  | ValueError _ => "ValueError"
  | NameError _ => "NameError"
  | KeyError _ => "KeyError"
  | IndexError => "IndexError"
  | TypeError => "TypeError"
  | AttributeError => "AttributeError"
  | JSONDecodeError => "JSONDecodeError"
  | UnicodeDecodeError => "UnicodeDecodeError"
  end.

(** [str(exc)] *)
Definition exn_str (e : exn) : string :=
  match e with
  | NagiosCritical m _ | NagiosWarning m _ | NagiosOk m _ => m
  | AssertionError m | ValueError m => m
  | NameError n => "name '" ++ n ++ "' is not defined"
  | KeyError k => Py.repr k
  | _ => interp_text e
  end.

(** [if exc.multiline: print(exc.multiline)] *)
Definition print_multiline (multiline : option string) : list string :=
  match multiline with
  | Some m => if PyStr.is_empty m then [] else [m]
  | None => []
  end.

(** The handlers of lines 302 to 319 *)
Definition handle (run : result unit) : report :=
  match run with
  | Ok _ => {| exit_code := 0; printed := [] |}
  | Raise (NagiosOk m ml) =>
      {| exit_code := 0; printed := ("OK: " ++ m) :: print_multiline ml |}
  | Raise (NagiosWarning m ml) =>
      {| exit_code := 1; printed := ("WARNING: " ++ m) :: print_multiline ml |}
  | Raise (NagiosCritical m ml) =>
      {| exit_code := 2; printed := ("CRITICAL: " ++ m) :: print_multiline ml |}
  | Raise e =>
      {| exit_code := 3; printed := ["UNKNOWN: " ++ class_name e ++ ". " ++ exn_str e] |}
  end.

(** Lines 296 to 319, for the parsed command line [config] *)
Definition main (config : Namespace) : report :=
  handle (etcd <- CheckEtcdCluster_init ;;
          if String.eqb (action config) "cluster_members"
          then check_cluster_members etcd (warning config) (critical config)
          else Raise (ValueError ("Unsupported action " ++ action config))).

End Script.

(** The level a raised exception is reported at. *)
Definition level (e : exn) : severity :=
  match e with
  | NagiosOk _ _ => OK
  | NagiosWarning _ _ => WARNING
  | NagiosCritical _ _ => CRITICAL
  | _ => UNKNOWN
  end.

Definition level_code (l : severity) : Z :=
  match l with OK => 0 | WARNING => 1 | CRITICAL => 2 | UNKNOWN => 3 end.

Definition level_word (l : severity) : string :=
  match l with
  | OK => "OK" | WARNING => "WARNING" | CRITICAL => "CRITICAL" | UNKNOWN => "UNKNOWN"
  end.

(** The scale on which verdicts are compared. *)
Definition rank (l : severity) : nat :=
  match l with OK => 0 | WARNING => 1 | CRITICAL => 2 | UNKNOWN => 3 end.

(** ** A decoder for the concrete documents

    The theorems below hold for every [json_loads].  Closed examples need
    one decoder: this one reads JSON whose numbers are integers and whose
    strings use no [\u] escape, and answers [None] on anything else, as
    [json.loads] raises on text that is not JSON. *)

Module Json.

Definition is_ws (c : ascii) : bool :=
  existsb (N.eqb (N_of_ascii c)) [32; 9; 10; 13]%N.

Fixpoint skip_ws (s : string) : string :=
  match s with
  | String c r => if is_ws c then skip_ws r else s
  | EmptyString => EmptyString
  end.

Definition is_digit (c : ascii) : bool :=
  let n := N_of_ascii c in ((48 <=? n) && (n <=? 57))%N%bool.

Fixpoint span_digits (s : string) : string * string :=
  match s with
  | String c r =>
      if is_digit c then let (a, b) := span_digits r in (String c a, b)
      else (EmptyString, s)
  | EmptyString => (EmptyString, EmptyString)
  end.

Definition digits_value (ds : string) : Z :=
  fold_left (fun acc c => 10 * acc + (Z.of_N (N_of_ascii c) - 48))
            (list_ascii_of_string ds) 0.

Definition is_char (c : ascii) (x : string) : bool :=
  match x with
  | String d EmptyString => Ascii.eqb c d
  | _ => false
  end.

(** An optional minus sign, then 0 or digits that do not start with 0, not
    followed by a fraction or an exponent *)
Definition number (s : string) : option (pyval * string) :=
  let (neg, s1) := match s with
                   | String c r => if is_char c "-" then (true, r) else (false, s)
                   | EmptyString => (false, s)
                   end in
  let (ds, rest) := match s1 with
                    | String c r => if is_char c "0" then ("0", r) else span_digits s1
                    | EmptyString => (EmptyString, EmptyString)
                    end in
  if PyStr.is_empty ds then None
  else match rest with
       | String c _ =>
           if (is_char c "." || is_char c "e" || is_char c "E")%bool then None
           else Some (PInt (if neg then - digits_value ds else digits_value ds), rest)
       | EmptyString =>
           Some (PInt (if neg then - digits_value ds else digits_value ds), rest)
       end.

Definition escape (c : ascii) : option ascii :=
  if is_char c "b" then Some (ascii_of_N 8)
  else if is_char c "f" then Some (ascii_of_N 12)
  else if is_char c "n" then Some (ascii_of_N 10)
  else if is_char c "r" then Some (ascii_of_N 13)
  else if is_char c "t" then Some (ascii_of_N 9)
  else if is_char c "/" then Some c
  else if Ascii.eqb c Py.BS then Some c
  else if Ascii.eqb c Py.DQ then Some c
  else None.

(** The text after an opening quote, up to the closing one *)
Fixpoint string_body (s : string) : option (string * string) :=
  match s with
  | EmptyString => None
  | String c r =>
      if Ascii.eqb c Py.DQ then Some (EmptyString, r)
      else if Ascii.eqb c Py.BS then
        match r with
        | String e r' =>
            match escape e, string_body r' with
            | Some x, Some (body, rest) => Some (String x body, rest)
            | _, _ => None
            end
        | EmptyString => None
        end
      else if (N_of_ascii c <? 32)%N then None
      else match string_body r with
           | Some (body, rest) => Some (String c body, rest)
           | None => None
           end
  end.

(** [dict(pairs)]: a repeated key keeps its place and takes the last value *)
Fixpoint dict_set (k : string) (v : pyval) (d : list (string * pyval)) :=
  match d with
  | [] => [(k, v)]
  | (k', v') :: r => if String.eqb k' k then (k, v) :: r else (k', v') :: dict_set k v r
  end.

Fixpoint value (fuel : nat) (s : string) : option (pyval * string) :=
  match fuel with
  | O => None
  | S f =>
      match s with
      | EmptyString => None
      | String c r =>
          if is_char c "[" then
            match skip_ws r with
            | String c' r' => if is_char c' "]" then Some (PList [], r')
                              else items f (skip_ws r) []
            | EmptyString => None
            end
          else if is_char c "{" then
            match skip_ws r with
            | String c' r' => if is_char c' "}" then Some (PDict [], r')
                              else pairs f (skip_ws r) []
            | EmptyString => None
            end
          else if Ascii.eqb c Py.DQ then
            match string_body r with
            | Some (body, rest) => Some (PStr body, rest)
            | None => None
            end
          else match PyStr.strip_prefix "null" s, PyStr.strip_prefix "true" s,
                     PyStr.strip_prefix "false" s with
               | Some rest, _, _ => Some (PNone, rest)
               | _, Some rest, _ => Some (PBool true, rest)
               | _, _, Some rest => Some (PBool false, rest)
               | None, None, None => number s
               end
      end
  end
with items (fuel : nat) (s : string) (acc : list pyval) : option (pyval * string) :=
  match fuel with
  | O => None
  | S f =>
      match value f s with
      | None => None
      | Some (v, r) =>
          match skip_ws r with
          | String c r' =>
              if is_char c "," then items f (skip_ws r') (acc ++ [v])
              else if is_char c "]" then Some (PList (acc ++ [v]), r')
              else None
          | EmptyString => None
          end
      end
  end
with pairs (fuel : nat) (s : string) (acc : list (string * pyval)) : option (pyval * string) :=
  match fuel with
  | O => None
  | S f =>
      match s with
      | String q r =>
          if Ascii.eqb q Py.DQ then
            match string_body r with
            | None => None
            | Some (k, r1) =>
                match skip_ws r1 with
                | String c r2 =>
                    if is_char c ":" then
                      match value f (skip_ws r2) with
                      | None => None
                      | Some (v, r3) =>
                          match skip_ws r3 with
                          | String c' r4 =>
                              if is_char c' "," then pairs f (skip_ws r4) (dict_set k v acc)
                              else if is_char c' "}" then Some (PDict (dict_set k v acc), r4)
                              else None
                          | EmptyString => None
                          end
                      end
                    else None
                | EmptyString => None
                end
            end
          else None
      | EmptyString => None
      end
  end.

Definition loads (s : string) : option pyval :=
  match value (2 * String.length s + 2) (skip_ws s) with
  | Some (v, rest) => if PyStr.is_empty (skip_ws rest) then Some v else None
  | None => None
  end.

(** A document is written with [q] in place of the double quote. *)
Fixpoint quoted (q : ascii) (s : string) : string :=
  match s with
  | String c r => String (if Ascii.eqb c q then Py.DQ else c) (quoted q r)
  | EmptyString => EmptyString
  end.

Definition doc (s : string) : string := quoted Py.SQ s.

End Json.

(** ** Notions used in the statements *)

(** The level at which a raised exception is reported *)
Definition raised_level {A : Type} (r : result A) : option severity :=
  match r with
  | Raise e => Some (level e)
  | Ok _ => None
  end.

Definition dead_count (members : list V3ClusterMemberHealth.t) : nat :=
  List.length (dead_members members).

(** A threshold that does not fire: unset, or above the count. *)
Definition below (threshold : option Z) (n : nat) : Prop :=
  match threshold with
  | Some t => Z.of_nat n < t
  | None => True
  end.

Definition is_str (v : pyval) : bool :=
  match v with PStr _ => true | _ => false end.

(** The [name] of every record is a [str], as [V3ClusterMemberHealth]
    declares it. *)
Definition names_are_str (members : list V3ClusterMemberHealth.t) : bool :=
  forallb (fun x => is_str (V3ClusterMemberHealth.name x)) members.

Definition node (n : string) (h : bool) (t : string) (e : pyval) : V3ClusterMemberHealth.t :=
  V3ClusterMemberHealth.make (PInt 1) (PStr n) (PList [PStr n]) (PList []) (PBool h) (PStr t) e.

Definition three_dead : list V3ClusterMemberHealth.t :=
  [node "n1" false "5s" (PStr "context deadline exceeded");
   node "n2" false "5s" (PStr "context deadline exceeded");
   node "n3" false "5s" (PStr "context deadline exceeded")].

Definition two_of_three : list V3ClusterMemberHealth.t :=
  [node "n1" true "3ms" PNone;
   node "n2" true "4ms" PNone;
   node "n3" false "5s" (PStr "context deadline exceeded")].

(** The level raised is decided by the dead count alone, once the names
    are strings. *)
Definition policy (warning critical : option Z) (dead : nat) : severity :=
  if at_least critical dead then CRITICAL
  else if at_least warning dead then WARNING
  else OK.

(** [unknown_only r]: whatever [r] raises is none of the three Nagios
    exceptions, so the handler of line 317 reports it as UNKNOWN. *)
Definition unknown_only {A : Type} (r : result A) : Prop :=
  forall e, r = Raise e -> level e = UNKNOWN.

(** A record of the listing and the member built from it *)
Definition member_record (x : pyval) (m : V3ClusterMember.t) : Prop :=
  Py.getitem_key x "ID" = Ok (V3ClusterMember.id m) /\
  Py.getitem_key x "name" = Ok (V3ClusterMember.name m) /\
  Py.getitem_key x "peerURLs" = Ok (V3ClusterMember.peer_urls m) /\
  Py.getitem_key x "clientURLs" = Ok (V3ClusterMember.client_urls m).

(** The first entry of [peer_urls] is the string [a]. *)
Definition canonical_address (m : V3ClusterMember.t) (a : string) : Prop :=
  exists rest, V3ClusterMember.peer_urls m = PList (PStr a :: rest).

Definition healthy_groups (endpoint took : string) : list (string * pyval) :=
  [("endpoint", PStr endpoint); ("health", PStr "healthy"); ("took", PStr took)].

Definition unhealthy_groups (endpoint error : string) : list (string * pyval) :=
  [("endpoint", PStr endpoint); ("health", PStr "unhealthy"); ("error", PStr error)].

(** The healthy pattern, read as a pattern: an endpoint without a space,
    [ is healthy:], at least one character and no line feed, [took = ], and
    a [took] without a space that ends the line. *)
Definition healthy_line (entry endpoint took : string) : Prop :=
  exists dots,
    entry = endpoint ++ " is healthy:" ++ dots ++ "took = " ++ took /\
    endpoint <> "" /\ Py.has_char PyStr.SP endpoint = false /\
    dots <> "" /\ Py.has_char PyStr.LF dots = false /\
    took <> "" /\ Py.has_char PyStr.SP took = false.

(** The unhealthy pattern: an endpoint without a space, [ is unhealthy: ],
    and an error of at least one character and no line feed that ends the
    line, or stands before its final line feed. *)
Definition unhealthy_line (entry endpoint error : string) : Prop :=
  exists tail,
    entry = endpoint ++ " is unhealthy: " ++ error ++ tail /\
    (tail = "" \/ tail = String PyStr.LF "") /\
    endpoint <> "" /\ Py.has_char PyStr.SP endpoint = false /\
    error <> "" /\ Py.has_char PyStr.LF error = false.

(** What the legacy parser raises *)
Definition legacy_failure (e : exn) : Prop :=
  e = NameError "error" \/ exists entry, e = AssertionError (unparsable_line entry).

(** The document of Scenario D *)
Definition scenario_D : string :=
  "10.0.0.1:2380 is healthy: took = 3ms"
    ++ String PyStr.LF "10.0.0.2:2380 is unhealthy: context deadline exceeded".

(** ** Concrete runs

    A host where [etcdctl] is installed, and the outputs of its two
    commands. *)

Definition etcdctl : string := "/usr/bin/etcdctl".

Definition which_etcdctl (name : string) : option string :=
  if String.eqb name "etcdctl" then Some etcdctl else None.

(** The outcome of the listing command and of any other command *)
Definition world (listing health : CompletedProcess) (cmd : list string) : CompletedProcess :=
  match cmd with
  | _ :: second :: _ => if String.eqb second "member" then listing else health
  | _ => health
  end.

(** The examples leave out the wording of the interpreter's exceptions. *)
Definition no_text (e : exn) : string := "".

Definition exited (code : Z) (out : string) : CompletedProcess :=
  {| returncode := code; stdout := out; stderr := "" |}.

Definition cluster_members (w c : option Z) : Namespace :=
  {| action := "cluster_members"; warning := w; critical := c |}.

Definition self_etcdctl : CheckEtcdCluster := {| etcdctl_path := etcdctl |}.

Definition listing_two : string :=
  Json.doc ("{'header': {'cluster_id': 7, 'member_id': 11, 'raft_term': 2}, 'members': ["
    ++ "{'ID': 11, 'name': 'n1', 'peerURLs': ['http://10.0.0.1:2380'], 'clientURLs': ['http://10.0.0.1:2379']}, "
    ++ "{'ID': 12, 'name': 'n2', 'peerURLs': ['http://10.0.0.2:2380'], 'clientURLs': ['http://10.0.0.2:2379']}]}").

Definition members_two : list V3ClusterMember.t :=
  [V3ClusterMember.make (PInt 11) (PStr "n1") (PList [PStr "http://10.0.0.1:2380"])
                        (PList [PStr "http://10.0.0.1:2379"]);
   V3ClusterMember.make (PInt 12) (PStr "n2") (PList [PStr "http://10.0.0.2:2380"])
                        (PList [PStr "http://10.0.0.2:2379"])].

Definition records_two : list pyval :=
  [PDict [("ID", PInt 11); ("name", PStr "n1");
          ("peerURLs", PList [PStr "http://10.0.0.1:2380"]);
          ("clientURLs", PList [PStr "http://10.0.0.1:2379"])];
   PDict [("ID", PInt 12); ("name", PStr "n2");
          ("peerURLs", PList [PStr "http://10.0.0.2:2380"]);
          ("clientURLs", PList [PStr "http://10.0.0.2:2379"])]].

Definition health_cmd_two : list string :=
  [etcdctl; "--endpoints=http://10.0.0.1:2380,http://10.0.0.2:2380";
   "endpoint"; "health"; "-w"; "json"].

(** One member answers, the other does not: the probe prints JSON and exits
    with status 1. *)
Definition health_one_dead : string :=
  Json.doc ("[{'endpoint': 'http://10.0.0.1:2380', 'health': true, 'took': '3ms'}, "
    ++ "{'endpoint': 'http://10.0.0.2:2380', 'health': false, 'took': '5s', "
    ++ "'error': 'context deadline exceeded'}]").

Definition parsed_one_dead : pyval :=
  PList [PDict [("endpoint", PStr "http://10.0.0.1:2380"); ("health", PBool true);
                ("took", PStr "3ms")];
         PDict [("endpoint", PStr "http://10.0.0.2:2380"); ("health", PBool false);
                ("took", PStr "5s"); ("error", PStr "context deadline exceeded")]].

(** An observation for an address no member advertises *)
Definition health_stranger : string :=
  Json.doc "[{'endpoint': 'http://10.0.0.9:2380', 'health': true, 'took': '3ms'}]".

Definition stranger : pyval :=
  PDict [("endpoint", PStr "http://10.0.0.9:2380"); ("health", PBool true); ("took", PStr "3ms")].

(** A cluster of three members *)
Definition listing_three : string :=
  Json.doc ("{'members': ["
    ++ "{'ID': 11, 'name': 'n1', 'peerURLs': ['http://10.0.0.1:2380'], 'clientURLs': []}, "
    ++ "{'ID': 12, 'name': 'n2', 'peerURLs': ['http://10.0.0.2:2380'], 'clientURLs': []}, "
    ++ "{'ID': 13, 'name': 'n3', 'peerURLs': ['http://10.0.0.3:2380'], 'clientURLs': []}]}").

Definition observed (address : string) (healthy : bool) : string :=
  if healthy
  then "{'endpoint': 'http://" ++ address ++ ":2380', 'health': true, 'took': '3ms'}"
  else "{'endpoint': 'http://" ++ address ++ ":2380', 'health': false, 'took': '5s', "
         ++ "'error': 'context deadline exceeded'}".

Definition health_three (h1 h2 h3 : bool) : string :=
  Json.doc ("[" ++ observed "10.0.0.1" h1 ++ ", " ++ observed "10.0.0.2" h2 ++ ", "
                ++ observed "10.0.0.3" h3 ++ "]").

Definition run_three (h1 h2 h3 : bool) (w c : option Z) : report :=
  main Json.loads (world (exited 0 listing_three) (exited 0 (health_three h1 h2 h3)))
       which_etcdctl no_text (cluster_members w c).

Definition first_line (r : report) : string := hd "" (printed r).

(** Two members advertise the same peer address: the observation of that
    address has two matches, and the run ends UNKNOWN. *)
Definition listing_twins : string :=
  Json.doc ("{'members': ["
    ++ "{'ID': 11, 'name': 'n1', 'peerURLs': ['http://10.0.0.1:2380'], 'clientURLs': []}, "
    ++ "{'ID': 12, 'name': 'n2', 'peerURLs': ['http://10.0.0.1:2380'], 'clientURLs': []}]}").

(** ** More notions used in the statements *)

(** The record [r] is the join of the observation [o] with its one matching
    member. *)
Definition joined (members : list V3ClusterMember.t) (o : pyval)
           (r : V3ClusterMemberHealth.t) : Prop :=
  exists m,
    matchings members o = Ok [m] /\
    V3ClusterMemberHealth.id r = V3ClusterMember.id m /\
    V3ClusterMemberHealth.name r = V3ClusterMember.name m /\
    V3ClusterMemberHealth.peer_urls r = V3ClusterMember.peer_urls m /\
    V3ClusterMemberHealth.client_urls r = V3ClusterMember.client_urls m /\
    Py.getitem_key o "health" = Ok (V3ClusterMemberHealth.health r) /\
    Py.getitem_key o "took" = Ok (V3ClusterMemberHealth.took r) /\
    Py.dict_get o "error" = Ok (V3ClusterMemberHealth.error r).

(** The keys line 138 reads, in the order it reads them *)
Definition member_keys : list string := ["ID"; "name"; "peerURLs"; "clientURLs"].

Definition first_missing (d : list (string * pyval)) : option string :=
  find (fun k => negb (Py.has_key k d)) member_keys.

(** A member whose URLs are lists of strings *)
Definition typed_member (i n : pyval) (peers clients : list string) : V3ClusterMember.t :=
  V3ClusterMember.make i n (PList (map PStr peers)) (PList (map PStr clients)).

Definition member_of_row (t : pyval * pyval * list string * list string) : V3ClusterMember.t :=
  let '(i, n, peers, clients) := t in typed_member i n peers clients.

Definition advertises (endpoint : string) (t : pyval * pyval * list string * list string) : bool :=
  let '(_, _, peers, _) := t in existsb (String.eqb endpoint) peers.

(** The detail body of every verdict *)
Definition detail_body (members : list V3ClusterMemberHealth.t) : string :=
  PyStr.join (String PyStr.LF "")
             (map line_healthy (healthy_members members) ++ map line_dead (dead_members members))%list.

(** What a Nagios exception carries *)
Definition nagios_payload (e : exn) : option (string * option string) :=
  match e with
  | NagiosCritical m ml | NagiosWarning m ml | NagiosOk m ml => Some (m, ml)
  | _ => None
  end.

Definition listing_unstarted : string :=
  Json.doc ("{'members': ["
    ++ "{'ID': 11, 'name': 'n1', 'peerURLs': ['http://10.0.0.1:2380'], 'clientURLs': []}, "
    ++ "{'ID': 12, 'peerURLs': ['http://10.0.0.2:2380']}]}").

Definition listing_no_peer : string :=
  Json.doc ("{'members': ["
    ++ "{'ID': 11, 'name': 'n1', 'peerURLs': ['http://10.0.0.1:2380'], 'clientURLs': []}, "
    ++ "{'ID': 12, 'name': 'n2', 'peerURLs': [], 'clientURLs': []}]}").

Definition members_no_peer : list V3ClusterMember.t :=
  [V3ClusterMember.make (PInt 11) (PStr "n1") (PList [PStr "http://10.0.0.1:2380"]) (PList []);
   V3ClusterMember.make (PInt 12) (PStr "n2") (PList []) (PList [])].

Definition verdict_two_of_three : exn :=
  NagiosWarning "2/3 healthy nodes: n3: context deadline exceeded"
    (Some ("n1: healthy: took 3ms" ++ String PyStr.LF "n2: healthy: took 4ms"
             ++ String PyStr.LF "n3: dead: took 5s: context deadline exceeded")).

(** ** The leader announcer

    [files/target/usr/local/bin/etcd_leader_to_etcd_keys.py]: the peers of
    the command line, and the loop that copies the identity of the leader
    into two keys.  The etcd client is outside the script: one pass of the
    loop is given the outcome of each call it makes, and yields the calls
    and log records it produces, in order. *)

Module Leader.

Definition COLON : ascii := ascii_of_N 58.

(** [s.split(sep)] for a separator of one character: the fields between
    the separators, at least one. *)
Fixpoint split_from (sep : ascii) (cur s : string) : list string :=
match s with
| EmptyString => [PyStr.rev cur]
| String c r =>
    if Ascii.eqb c sep then PyStr.rev cur :: split_from sep EmptyString r
    else split_from sep (String c cur) r
end.

Definition split (sep : ascii) (s : string) : list string :=
split_from sep EmptyString s.

Section Peers.

(** [int(s)]; [None] stands for [ValueError]. *)
Variable py_int : string -> option Z.

(** One item of the generator of line 58:
    [(x.split(":")[0], int(x.split(":")[1]))] *)
Definition host_of_peer (x : string) : result (string * Z) :=
match split COLON x with
| host :: _ =>
    match split COLON x with
    | _ :: port :: _ =>
        match py_int port with
        | Some p => Ok (host, p)
        | None => Raise (ValueError ("invalid literal for int() with base 10: "
                                       ++ Py.repr_str port))
        end
    | _ => Raise IndexError
    end
| [] => Raise IndexError
end.

(** Line 58 *)
Definition hosts (peers : list string) : result (list (string * Z)) :=
mapM host_of_peer peers.

End Peers.

(** Line 59 *)
Definition protocol (ssl : bool) : string := if ssl then "https" else "http".

Definition KEY_ID : string := "/services/etcd/leader/id".
Definition KEY_NAME : string := "/services/etcd/leader/name".

(** What a call of the client, or [time.sleep], may raise *)
Inductive failure : Type :=
| EtcdKeyNotFound (text : string)
| Failed (cls text : string)
| KeyboardInterrupt.

Inductive outcome (A : Type) : Type :=
| Returned (a : A)
| Thrown (f : failure).

Arguments Returned {A} a.
Arguments Thrown {A} f.

(** The condition of a write: [prevExist=False] or [prevValue=v] *)
Inductive guard : Type :=
| PrevExistFalse
| PrevValue (v : pyval).

Inductive event : Type :=
| Info (message : string)
| Warning (message : string)
| Error (message : string)
| Write (key : string) (value : pyval) (g : guard)
| Sleep (seconds : Z).

(** The outcomes of the calls of one pass: [client.read(key).value],
    [client.leader] and [client.write(key, value, guard)]. *)
Record client : Type := {
  read_value : string -> outcome pyval;
  leader : outcome pyval;
  write : string -> pyval -> guard -> outcome unit
}.

(** A computation of the loop body: the events so far and how it ended *)
Definition prog (A : Type) : Type := (list event * outcome A)%type.

Definition ret {A : Type} (a : A) : prog A := ([], Returned a).

Definition seq {A B : Type} (p : prog A) (k : A -> prog B) : prog B :=
match p with
| (ev, Returned a) => let (ev', r) := k a in ((ev ++ ev')%list, r)
| (ev, Thrown f) => (ev, Thrown f)
end.

Definition log (e : event) : prog unit := ([e], Returned tt).

Definition failure_class (f : failure) : string :=
match f with
| EtcdKeyNotFound _ => "EtcdKeyNotFound"
| Failed cls _ => cls
| KeyboardInterrupt => "KeyboardInterrupt"
end.

Definition failure_text (f : failure) : string :=
match f with
| EtcdKeyNotFound text => text
| Failed _ text => text
| KeyboardInterrupt => ""
end.

Definition exiting : string := "Exiting on SIGINT/SIGTERM".

Section Poll.

Variable interp_text : exn -> string.

(** An exception of the interpreter, as the handler of line 92 sees it *)
Definition builtin {A : Type} (r : result A) : prog A :=
match r with
| Ok a => ret a
| Raise e => ([], Thrown (Failed (class_name e) (exn_str interp_text e)))
end.

(** Lines 67 to 70, and 71 to 74 *)
Definition read_or_none (c : client) (key : string) : prog pyval :=
match read_value c key with
| Returned v => ret v
| Thrown (EtcdKeyNotFound _) => ret PNone
| Thrown f => ([], Thrown f)
end.

Definition guard_of (current : pyval) : guard :=
match current with
| PNone => PrevExistFalse
| _ => PrevValue current
end.

(** Lines 78 to 84, and 85 to 91 *)
Definition update (c : client) (key : string) (current new : pyval) : prog unit :=
if negb (Py.eq current new) then
  seq (log (Info ("Updating " ++ key ++ " from " ++ Py.str current ++ " to " ++ Py.str new)))
      (fun _ =>
  seq ([Write key new (guard_of current)], write c key new (guard_of current))
      (fun _ =>
  log (Info ("Updated " ++ key ++ " from " ++ Py.str current ++ " to " ++ Py.str new))))
else ret tt.

(** Lines 67 to 91, the body of the outer [try] *)
Definition poll_body (c : client) : prog unit :=
seq (read_or_none c KEY_ID) (fun current_id =>
seq (read_or_none c KEY_NAME) (fun current_name =>
seq ([], leader c) (fun l =>
seq (builtin (Py.getitem_key l "id")) (fun leader_id =>
seq (builtin (Py.getitem_key l "name")) (fun leader_name =>
seq (update c KEY_ID current_id leader_id) (fun _ =>
update c KEY_NAME current_name leader_name)))))).

(** How a pass of the loop ends *)
Inductive next : Type :=
| Continue
| Break
| Crash (cls text : string).

(** Lines 66 to 102, one pass: the body, its handlers and the [finally]
    clause.  [time.sleep] refuses a negative length, and [interrupted]
    tells whether it is interrupted. *)
Definition poll_once (c : client) (delay : Z) (interrupted : bool) : list event * next :=
let (ev, out) := poll_body c in
let handled :=
  match out with
  | Returned _ => (ev, false)
  | Thrown KeyboardInterrupt => ((ev ++ [Warning exiting])%list, true)
  | Thrown f =>
      ((ev ++ [Error ("Unable to refresh current etcd leader: "
                        ++ failure_class f ++ ": " ++ failure_text f)])%list, false)
  end in
if delay <? 0 then
  ((fst handled ++ [Sleep delay])%list, Crash "ValueError" "sleep length must be non-negative")
else if interrupted then
  ((fst handled ++ [Sleep delay; Warning exiting])%list, Break)
else
  ((fst handled ++ [Sleep delay])%list, if snd handled then Break else Continue).

(** Lines 65 to 102: the loop, for at most [fuel] passes; pass [n] meets
    the client [fst (world n)] and its sleep is interrupted when
    [snd (world n)].  [None] tells that the loop is still running. *)
Fixpoint poll_loop (fuel : nat) (world : nat -> client * bool) (delay : Z) (n : nat)
  : list event * option next :=
match fuel with
| O => ([], None)
| S fuel' =>
    match poll_once (fst (world n)) delay (snd (world n)) with
    | (ev, Continue) =>
        let (ev', r) := poll_loop fuel' world delay (S n) in ((ev ++ ev')%list, r)
    | (ev, stop) => (ev, Some stop)
    end
end.

End Poll.

Definition is_write (e : event) : bool :=
match e with Write _ _ _ => true | _ => false end.

Definition is_sleep (e : event) : bool :=
match e with Sleep _ => true | _ => false end.

Definition is_interrupt {A : Type} (o : outcome A) : bool :=
match o with Thrown KeyboardInterrupt => true | _ => false end.

(** No call of the client is interrupted. *)
Definition quiet (c : client) : Prop :=
(forall key, read_value c key <> Thrown KeyboardInterrupt) /\
leader c <> Thrown KeyboardInterrupt /\
(forall key value g, write c key value g <> Thrown KeyboardInterrupt).

End Leader.

(** ** Notions for the leader announcer *)

(** What a pass takes as the current value of a key: the value read, or
    None when the key is not found *)
Definition current_value (c : Leader.client) (key : string) (v : pyval) : Prop :=
  Leader.read_value c key = Leader.Returned v \/
  (v = PNone /\ exists text, Leader.read_value c key = Leader.Thrown (Leader.EtcdKeyNotFound text)).

(** The field of the leader that a key announces *)
Definition announced (key : string) : string :=
  if String.eqb key Leader.KEY_ID then "id" else "name".

(** A reading of decimal digits, for the examples: it agrees with [int] on
    the texts made of digits only. *)
Definition int_of_digits (s : string) : option Z :=
  match Json.span_digits s with
  | (String c ds, EmptyString) => Some (Json.digits_value (String c ds))
  | _ => None
  end.

(** A client over a store that holds the two keys or not, with a leader
    and one outcome for every write *)
Definition store_client (id name : option string) (leader_id leader_name : string)
           (written : Leader.outcome unit) : Leader.client :=
  {| Leader.read_value := fun key =>
       match (if String.eqb key Leader.KEY_ID then id else name) with
       | Some v => Leader.Returned (PStr v)
       | None => Leader.Thrown (Leader.EtcdKeyNotFound "Key not found")
       end;
     Leader.leader := Leader.Returned (PDict [("id", PStr leader_id); ("name", PStr leader_name)]);
     Leader.write := fun _ _ _ => written |}.

(** A client whose [leader] call is interrupted *)
Definition interrupted_client : Leader.client :=
  {| Leader.read_value := fun _ => Leader.Returned (PStr "a");
     Leader.leader := Leader.Thrown Leader.KeyboardInterrupt;
     Leader.write := fun _ _ _ => Leader.Returned tt |}.

(** ** The script on the bytes of the commands

    [subprocess] captures [bytes].  The section [Script] above is the script
    on output that decodes, given as text; the module [Raw] is the script on
    the bytes themselves, where [json.loads] and [str(b, "utf-8")] can also
    raise [UnicodeDecodeError].  A stream of bytes is a [string], one
    character per byte. *)

Module Raw.

Record CompletedProcess : Type := {
  returncode : Z;
  stdout : string;
  stderr : string
}.

(** How [json.loads] ends on [bytes]: with a value, with
    [json.decoder.JSONDecodeError], or with [UnicodeDecodeError].  The
    limits of the interpreter (recursion depth, size of an integer literal)
    are outside the model. *)
Inductive loaded : Type :=
| Loaded (value : pyval)
| NotJSON
| NotText.

Section Script.

(** [json.loads] on bytes.  It detects the encoding by itself (UTF-8, UTF-16
    or UTF-32) and decodes with [surrogatepass], so that what it reads is
    not tied to what [utf8] below decodes. *)
Variable json_loads : string -> loaded.

(** [str(b, "utf-8")]; [None] stands for [UnicodeDecodeError]. *)
Variable utf8 : string -> option string.

(** The outcome of running a command under [env].  For a command run with
    [stderr=subprocess.STDOUT], [stdout] is the merged stream. *)
Variable subprocess_run : list string -> CompletedProcess.

Variable shutil_which : string -> option string.

Variable interp_text : exn -> string.

Definition decode (b : string) : result string :=
  match utf8 b with
  | Some text => Ok text
  | None => Raise UnicodeDecodeError
  end.

(** Lines 117 to 139 *)
Definition get_v3_members_list (self : CheckEtcdCluster) : result (list V3ClusterMember.t) :=
  let cmd := members_list_cmd self in
  let proc := subprocess_run cmd in
  if returncode proc =? 0 then
    match json_loads (stdout proc) with
    | NotText => Raise UnicodeDecodeError
    | NotJSON => Raise JSONDecodeError
    | Loaded parsed =>
        ms <- Py.getitem_key parsed "members" ;;
        items <- Py.iter ms ;;
        mapM member_of items
    end
  else
    (* line 132 decodes the output before anything is raised *)
    text <- decode (stdout proc) ;;
    let stdout_l := PyStr.stripped_lines text in
    match stdout_l with
    | first :: _ =>
        Raise (NagiosCritical (failed_with cmd (returncode proc) first)
                              (Some (PyStr.join (String PyStr.LF "") stdout_l)))
    | [] =>
        Raise (NagiosCritical (failed_with cmd (returncode proc) "No output") None)
    end.

(** Lines 164 to 187: line 165 decodes the output, then splits it. *)
Definition legacy_parse (output : string) : result pyval :=
  text <- decode output ;;
  legacy_parse text.

(** The handler of [subprocess.CalledProcessError], lines 190 to 207: both
    streams are decoded, lines 192 and 193, before the output is parsed
    again; the bare [except] of line 196 takes every failure of
    [json.loads]. *)
Definition on_called_process_error (cmd : list string) (exc : CompletedProcess) : result pyval :=
  out <- decode (stdout exc) ;;
  err <- decode (stderr exc) ;;
  let stdout_l := PyStr.stripped_lines out in
  let stderr_l := PyStr.stripped_lines err in
  match json_loads (stdout exc) with
  | Loaded parsed => Ok parsed
  | NotJSON | NotText =>
      let main_line :=
        match stdout_l, stderr_l with
        | first :: _, _ => first
        | [], first :: _ => first
        | [], [] => "No output"
        end in
      match (stdout_l ++ stderr_l)%list with
      | _ :: _ =>
          Raise (NagiosCritical (failed_with cmd (returncode exc) main_line)
                                (Some (PyStr.join (String PyStr.LF "") (stdout_l ++ stderr_l)%list)))
      | [] =>
          Raise (NagiosCritical (failed_with cmd (returncode exc) main_line) None)
      end
  end.

(** Lines 158 to 207: only [JSONDecodeError] leads to the legacy format;
    a [UnicodeDecodeError] of [json.loads] is caught by no handler. *)
Definition probe_output (cmd : list string) (res : CompletedProcess) : result pyval :=
  let output := stdout res in
  match json_loads output with
  | NotText => Raise UnicodeDecodeError
  | NotJSON => legacy_parse output
  | Loaded parsed =>
      (* [res.check_returncode()] *)
      if returncode res =? 0 then Ok parsed
      else on_called_process_error cmd res
  end.

(** Lines 153 to 207 *)
Definition probe (self : CheckEtcdCluster) (members : list V3ClusterMember.t) : result pyval :=
  cmd <- health_cmd self members ;;
  probe_output cmd (subprocess_run cmd).

(** Lines 141 to 224 *)
Definition get_v3_members_health (self : CheckEtcdCluster) : result (list V3ClusterMemberHealth.t) :=
  members <- get_v3_members_list self ;;
  parsed <- probe self members ;;
  reconcile members parsed.

(** Lines 226 to 258 *)
Definition check_cluster_members (self : CheckEtcdCluster)
           (warning critical : option Z) : result unit :=
  members <- get_v3_members_health self ;;
  check_members members warning critical.

(** Lines 296 to 319, for the parsed command line [config] *)
Definition main (config : Namespace) : report :=
  handle interp_text
         (etcd <- CheckEtcdCluster_init shutil_which ;;
          if String.eqb (action config) "cluster_members"
          then check_cluster_members etcd (warning config) (critical config)
          else Raise (ValueError ("Unsupported action " ++ action config))).

End Script.

(** The handler of [CalledProcessError], when it runs, can decode both
    streams. *)
Definition handler_decodes (utf8 : string -> option string) (res : CompletedProcess) : Prop :=
  returncode res = 0 \/ (utf8 (stdout res) <> None /\ utf8 (stderr res) <> None).

End Raw.

(** Every command prints bytes that decode to the text that
    [subprocess_text] gives, and [json.loads] reads them as [json_text]
    reads that text. *)
Definition decoded_as (json_loads : string -> Raw.loaded) (utf8 : string -> option string)
           (subprocess_run : list string -> Raw.CompletedProcess)
           (json_text : string -> option pyval)
           (subprocess_text : list string -> CompletedProcess) : Prop :=
  forall cmd,
    Raw.returncode (subprocess_run cmd) = returncode (subprocess_text cmd) /\
    utf8 (Raw.stdout (subprocess_run cmd)) = Some (stdout (subprocess_text cmd)) /\
    utf8 (Raw.stderr (subprocess_run cmd)) = Some (stderr (subprocess_text cmd)) /\
    json_loads (Raw.stdout (subprocess_run cmd))
    = match json_text (stdout (subprocess_text cmd)) with
      | Some value => Raw.Loaded value
      | None => Raw.NotJSON
      end.

(** Text taken as the bytes of itself *)
Definition loaded_of (r : option pyval) : Raw.loaded :=
  match r with
  | Some value => Raw.Loaded value
  | None => Raw.NotJSON
  end.

Definition bytes_of (p : CompletedProcess) : Raw.CompletedProcess :=
  {| Raw.returncode := returncode p; Raw.stdout := stdout p; Raw.stderr := stderr p |}.

(** ** A decoder of bytes for the concrete runs

    UTF-8 whose code points are below 256: a byte below 128 is itself, and
    the lead bytes 194 and 195 take one continuation byte.  It answers
    [None] on anything else, as [str(b, "utf-8")] raises on bytes that are
    not UTF-8; longer sequences are outside the model, and the closed
    examples use none. *)

Module Utf8.

Fixpoint decode (b : string) : option string :=
  match b with
  | EmptyString => Some EmptyString
  | String c r =>
      let n := N_of_ascii c in
      if (n <? 128)%N then
        match decode r with
        | Some text => Some (String c text)
        | None => None
        end
      else if ((n =? 194) || (n =? 195))%N%bool then
        match r with
        | String d r' =>
            let m := N_of_ascii d in
            if ((128 <=? m) && (m <? 192))%N%bool then
              match decode r' with
              | Some text => Some (String (ascii_of_N ((n - 192) * 64 + (m - 128))) text)
              | None => None
              end
            else None
        | EmptyString => None
        end
      else None
  end.

(** [json.loads] on bytes that carry no byte order mark and no zero byte:
    they are read as UTF-8, through [decode] and [Json.loads]. *)
Definition loads (b : string) : Raw.loaded :=
  match decode b with
  | None => Raw.NotText
  | Some text =>
      match Json.loads text with
      | Some value => Raw.Loaded value
      | None => Raw.NotJSON
      end
  end.

End Utf8.

(** The outcome of the listing command and of any other command *)
Definition raw_world (listing health : Raw.CompletedProcess) (cmd : list string)
  : Raw.CompletedProcess :=
  match cmd with
  | _ :: second :: _ => if String.eqb second "member" then listing else health
  | _ => health
  end.

Definition raw_exited (code : Z) (out err : string) : Raw.CompletedProcess :=
  {| Raw.returncode := code; Raw.stdout := out; Raw.stderr := err |}.

(** One byte that starts no UTF-8 sequence *)
Definition not_utf8 : string := String (ascii_of_N 255) EmptyString.

(** [str(exc)] as the interpreter words it on the inputs of the concrete
    runs on bytes: [json.loads] on [boom], and the decoding of
    [not_utf8]. *)
Definition interp_wording (e : exn) : string :=
  match e with
  | JSONDecodeError => "Expecting value: line 1 column 1 (char 0)"
  | UnicodeDecodeError =>
      "'utf-8' codec can't decode byte 0xff in position 0: invalid start byte"
  | _ => ""
  end.

(** * Properties *)

(** ** The helpers on small inputs *)

Example splitlines_ex :
  PyStr.splitlines ("a" ++ String PyStr.LF (String PyStr.LF "b" ++ String PyStr.CR (String PyStr.LF "c" ++ String PyStr.LF "")))
  = ["a"; ""; "b"; "c"].
Proof. reflexivity. Qed.

Example strip_ex : PyStr.strip "  a b  " = "a b" /\ PyStr.of_Z (-12) = "-12" /\ PyStr.of_Z 0 = "0".
Proof. repeat split; reflexivity. Qed.

Example repr_ex :
  Py.str (PList [PStr "a'b"; PInt 3; PNone; PDict [("k", PBool true)]])
  = "[" ++ String Py.DQ "a'b" ++ String Py.DQ ", 3, None, {'k': True}]".
Proof. reflexivity. Qed.

Example contains_ex :
  Py.contains (PStr "b") (PList [PStr "a"; PStr "b"]) = Ok true /\
  Py.contains (PBool true) (PList [PInt 1]) = Ok true /\
  Py.contains (PStr "bc") (PStr "abcd") = Ok true /\
  Py.contains (PInt 1) (PStr "abcd") = Raise TypeError.
Proof. repeat split; reflexivity. Qed.

Example matcher_healthy_ex :
  Re.matcher_healthy "10.0.0.1:2380 is healthy: took = 3ms"
  = Some [("endpoint", PStr "10.0.0.1:2380"); ("health", PStr "healthy"); ("took", PStr "3ms")]
  /\ Re.matcher_healthy "http://a:2380 is healthy: successfully committed proposal: took = 1.5ms"
     = Some [("endpoint", PStr "http://a:2380"); ("health", PStr "healthy"); ("took", PStr "1.5ms")]
  /\ Re.matcher_healthy "a is healthy:took = 3ms" = None
  /\ Re.matcher_healthy "a is healthy: took = 3 ms" = None
  /\ Re.matcher_healthy "" = None
  /\ Re.matcher_healthy "10.0.0.2:2380 is unhealthy: context deadline exceeded" = None.
Proof. repeat split; reflexivity. Qed.

Example matcher_unhealthy_ex :
  Re.matcher_unhealthy "10.0.0.2:2380 is unhealthy: context deadline exceeded"
  = Some [("endpoint", PStr "10.0.0.2:2380"); ("health", PStr "unhealthy");
          ("error", PStr "context deadline exceeded")]
  /\ Re.matcher_unhealthy "10.0.0.1:2380 is healthy: took = 3ms" = None
  /\ Re.matcher_unhealthy "a is unhealthy: " = None
  /\ Re.matcher_unhealthy "" = None.
Proof. repeat split; reflexivity. Qed.

Example json_loads_ex :
  Json.loads (Json.doc "{'members': [{'ID': 12, 'name': 'n1', 'peerURLs': ['http://10.0.0.1:2380'], 'clientURLs': []}], 'x': [true, null, -3]}")
  = Some (PDict [("members", PList [PDict [("ID", PInt 12); ("name", PStr "n1");
                                           ("peerURLs", PList [PStr "http://10.0.0.1:2380"]);
                                           ("clientURLs", PList [])]]);
                 ("x", PList [PBool true; PNone; PInt (-3)])])
  /\ Json.loads "10.0.0.1:2380 is healthy: took = 3ms" = None
  /\ Json.loads "" = None
  /\ Json.loads "[1,]" = None
  /\ Json.loads "[] x" = None
  /\ Json.loads " [ ] " = Some (PList []).
Proof. repeat split; reflexivity. Qed.

(** ** Threshold evaluation *)

Lemma at_least_true (t : option Z) (n : nat) :
  at_least t n = true <-> exists v, t = Some v /\ v <= Z.of_nat n.
Proof.
  destruct t as [v|]; simpl.
  - rewrite Z.geb_le. split.
    + intros H. exists v. split; [reflexivity | exact H].
    + intros [v' [E H]]. injection E as ->. exact H.
  - split; [discriminate | intros [v [E _]]; discriminate].
Qed.

Lemma at_least_false (t : option Z) (n : nat) :
  at_least t n = false <-> below t n.
Proof.
  destruct t as [v|]; simpl.
  - rewrite Z.geb_leb, Z.leb_gt. reflexivity.
  - split; auto.
Qed.

Lemma at_least_mono (t : option Z) (n m : nat) :
  (n <= m)%nat -> at_least t n = true -> at_least t m = true.
Proof.
  intros Hnm. rewrite !at_least_true. intros [v [E H]].
  exists v. split; [exact E | lia].
Qed.

Lemma join_of_strs (sep : string) (l : list pyval) :
  forallb is_str l = true -> exists s, Py.join sep l = Ok s.
Proof.
  induction l as [|x r IH]; simpl.
  - intros _. exists "". reflexivity.
  - intros H. apply andb_true_iff in H as [Hx Hr].
    destruct x; try discriminate.
    destruct (IH Hr) as [rest E].
    destruct r as [|y r'].
    + eexists. reflexivity.
    + rewrite E. eexists. reflexivity.
Qed.

Lemma names_of_healthy (members : list V3ClusterMemberHealth.t) :
  names_are_str members = true ->
  forallb is_str (map V3ClusterMemberHealth.name (healthy_members members)) = true.
Proof.
  unfold names_are_str, healthy_members.
  induction members as [|x r IH]; simpl; [reflexivity|].
  intros H. apply andb_true_iff in H as [Hx Hr].
  destruct (Py.is_True (V3ClusterMemberHealth.health x)); simpl; auto.
  rewrite Hx. simpl. auto.
Qed.

Lemma check_members_level (members : list V3ClusterMemberHealth.t) (w c : option Z) :
  names_are_str members = true \/ dead_members members <> [] \/
  at_least c (dead_count members) = true \/ at_least w (dead_count members) = true ->
  raised_level (check_members members w c) = Some (policy w c (dead_count members)).
Proof.
  intros H. unfold check_members, policy, dead_count in *.
  destruct (at_least c (List.length (dead_members members))) eqn:Ec; [reflexivity|].
  destruct (at_least w (List.length (dead_members members))) eqn:Ew; [reflexivity|].
  destruct (dead_members members) as [|d ds] eqn:Ed; [|reflexivity].
  destruct H as [H | [H | [H | H]]]; try discriminate; try congruence.
  destruct (join_of_strs ", " _ (names_of_healthy members H)) as [s Es].
  rewrite Es. reflexivity.
Qed.

Lemma policy_mono (w c : option Z) (n m : nat) :
  (n <= m)%nat -> (rank (policy w c n) <= rank (policy w c m))%nat.
Proof.
  intros Hnm. unfold policy.
  destruct (at_least c n) eqn:Ecn.
  - rewrite (at_least_mono c n m Hnm Ecn). simpl. lia.
  - destruct (at_least w n) eqn:Ewn.
    + rewrite (at_least_mono w n m Hnm Ewn).
      destruct (at_least c m); simpl; lia.
    + simpl. lia.
Qed.

(** [check_cluster_members] never returns: every path raises. *)
Lemma check_members_raises (members : list V3ClusterMemberHealth.t) (w c : option Z) :
  exists e, check_members members w c = Raise e.
Proof.
  unfold check_members.
  destruct (at_least c _); [eexists; reflexivity|].
  destruct (at_least w _); [eexists; reflexivity|].
  destruct (dead_members members); [|eexists; reflexivity].
  destruct (Py.join ", " _); simpl; eexists; reflexivity.
Qed.

(** C3: with both thresholds set, a dead count that reaches the critical
    threshold gives CRITICAL, whatever the warning threshold is: the
    critical test of line 243 comes before the warning test of line 248. *)
Theorem C3_critical_before_warning
  (members : list V3ClusterMemberHealth.t) (w c : Z) :
  c <= Z.of_nat (dead_count members) ->
  raised_level (check_members members (Some w) (Some c)) = Some CRITICAL.
Proof.
  intros H.
  assert (A : at_least (Some c) (dead_count members) = true).
  { apply at_least_true. exists c. split; [reflexivity | exact H]. }
  rewrite check_members_level by (right; right; left; exact A).
  unfold policy. rewrite A. reflexivity.
Qed.

(** The case of the specification: dead = 3, warning = 1, critical = 2. *)
Lemma C3_witness :
  dead_count three_dead = 3%nat /\
  raised_level (check_members three_dead (Some 1) (Some 2)) = Some CRITICAL.
Proof.
  split; [reflexivity|].
  apply (C3_critical_before_warning three_dead 1 2).
  vm_compute. discriminate.
Defined.

(** C4: for fixed thresholds, set or not, a record set with at least as many
    dead members as another is reported at a level at least as severe on the
    scale OK, WARNING, CRITICAL.  The names of the records are strings, as
    the tuple declares them. *)
Theorem C4_monotonic_in_dead_count
  (m1 m2 : list V3ClusterMemberHealth.t) (w c : option Z) :
  names_are_str m1 = true -> names_are_str m2 = true ->
  (dead_count m1 <= dead_count m2)%nat ->
  exists l1 l2,
    raised_level (check_members m1 w c) = Some l1 /\
    raised_level (check_members m2 w c) = Some l2 /\
    l1 <> UNKNOWN /\ l2 <> UNKNOWN /\
    (rank l1 <= rank l2)%nat.
Proof.
  intros T1 T2 Hle.
  exists (policy w c (dead_count m1)), (policy w c (dead_count m2)).
  rewrite !check_members_level by (left; assumption).
  repeat split.
  - unfold policy.
    destruct (at_least c (dead_count m1)), (at_least w (dead_count m1)); discriminate.
  - unfold policy.
    destruct (at_least c (dead_count m2)), (at_least w (dead_count m2)); discriminate.
  - apply policy_mono. exact Hle.
Qed.

Lemma C4_witness :
  exists l1 l2,
    raised_level (check_members two_of_three (Some 2) (Some 3)) = Some l1 /\
    raised_level (check_members three_dead (Some 2) (Some 3)) = Some l2 /\
    l1 <> UNKNOWN /\ l2 <> UNKNOWN /\ (rank l1 <= rank l2)%nat.
Proof.
  apply (C4_monotonic_in_dead_count two_of_three three_dead (Some 2) (Some 3)).
  - reflexivity.
  - reflexivity.
  - vm_compute. lia.
Defined.

(** C5: when neither threshold fires, each being unset or above the dead
    count, the level is OK, dead members or not; in particular a record set
    with dead members and no thresholds is reported OK.  The names of the
    records are strings, as the tuple declares them, or some member is
    dead. *)
Theorem C5_ok_when_no_rule_fires
  (members : list V3ClusterMemberHealth.t) (w c : option Z) :
  names_are_str members = true \/ dead_members members <> [] ->
  below c (dead_count members) -> below w (dead_count members) ->
  raised_level (check_members members w c) = Some OK.
Proof.
  intros T Hc Hw.
  apply at_least_false in Hc. apply at_least_false in Hw.
  rewrite check_members_level by (destruct T; [left | right; left]; assumption).
  unfold policy. rewrite Hc, Hw. reflexivity.
Qed.

Lemma C5_witness :
  dead_count three_dead = 3%nat /\
  raised_level (check_members three_dead None None) = Some OK.
Proof.
  split; [reflexivity|].
  apply (C5_ok_when_no_rule_fires three_dead None None).
  - right. discriminate.
  - exact I.
  - exact I.
Defined.

(** C10: a threshold of zero always fires.  A critical threshold of 0 gives
    CRITICAL for every record set and every warning threshold; a warning
    threshold of 0 with no critical threshold gives WARNING. *)
Theorem C10_zero_threshold_always_fires :
  (forall (members : list V3ClusterMemberHealth.t) (w : option Z),
      raised_level (check_members members w (Some 0)) = Some CRITICAL) /\
  (forall members : list V3ClusterMemberHealth.t,
      raised_level (check_members members (Some 0) None) = Some WARNING).
Proof.
  split.
  - intros members w.
    assert (A : at_least (Some 0) (dead_count members) = true).
    { apply at_least_true. exists 0. split; [reflexivity | lia]. }
    rewrite check_members_level by (right; right; left; exact A).
    unfold policy. rewrite A. reflexivity.
  - intros members.
    assert (A : at_least (Some 0) (dead_count members) = true).
    { apply at_least_true. exists 0. split; [reflexivity | lia]. }
    rewrite check_members_level by (right; right; right; exact A).
    unfold policy. rewrite A. reflexivity.
Qed.

(** ** Exceptions that end in the generic handler *)

Create HintDb unknown.

Lemma unknown_only_Ok {A : Type} (a : A) : unknown_only (Ok a).
Proof. intros e H. discriminate. Qed.

Lemma unknown_only_bind {A B : Type} (c : result A) (k : A -> result B) :
  unknown_only c -> (forall a, unknown_only (k a)) -> unknown_only (bind c k).
Proof.
  intros Hc Hk e. destruct c as [a|e']; simpl.
  - apply Hk.
  - intros H. injection H as <-. apply Hc. reflexivity.
Qed.

Lemma unknown_only_mapM {A B : Type} (f : A -> result B) (l : list A) :
  (forall x, unknown_only (f x)) -> unknown_only (mapM f l).
Proof.
  intros Hf. induction l as [|x r IH]; simpl.
  - apply unknown_only_Ok.
  - apply unknown_only_bind; [apply Hf|]. intros y.
    apply unknown_only_bind; [exact IH|]. intros ys. apply unknown_only_Ok.
Qed.

Lemma unknown_only_filterM {A : Type} (p : A -> result bool) (l : list A) :
  (forall x, unknown_only (p x)) -> unknown_only (filterM p l).
Proof.
  intros Hp. induction l as [|x r IH]; simpl.
  - apply unknown_only_Ok.
  - apply unknown_only_bind; [apply Hp|]. intros b.
    apply unknown_only_bind; [exact IH|]. intros xs. apply unknown_only_Ok.
Qed.

Ltac by_cases_unknown :=
  intros e H;
  repeat match type of H with
         | context [match ?x with _ => _ end] => destruct x; simpl in H
         end;
  try discriminate; injection H as <-; reflexivity.

Lemma unknown_only_getitem_key (v : pyval) (k : string) :
  unknown_only (Py.getitem_key v k).
Proof. unfold Py.getitem_key. by_cases_unknown. Qed.

Lemma unknown_only_getitem_first (v : pyval) : unknown_only (Py.getitem_first v).
Proof. unfold Py.getitem_first. by_cases_unknown. Qed.

Lemma unknown_only_dict_get (v : pyval) (k : string) : unknown_only (Py.dict_get v k).
Proof. unfold Py.dict_get. by_cases_unknown. Qed.

Lemma unknown_only_iter (v : pyval) : unknown_only (Py.iter v).
Proof. unfold Py.iter. by_cases_unknown. Qed.

Lemma unknown_only_contains (x c : pyval) : unknown_only (Py.contains x c).
Proof. unfold Py.contains. by_cases_unknown. Qed.

Lemma unknown_only_join (sep : string) (l : list pyval) : unknown_only (Py.join sep l).
Proof.
  induction l as [|x r IH]; simpl.
  - apply unknown_only_Ok.
  - destruct x; try (intros e H; injection H as <-; reflexivity).
    destruct r as [|y r'].
    + apply unknown_only_Ok.
    + apply unknown_only_bind; [exact IH|]. intros rest. apply unknown_only_Ok.
Qed.

Lemma unknown_only_assert (cond : bool) (message : result string) :
  unknown_only message -> unknown_only (py_assert cond message).
Proof.
  intros Hm. unfold py_assert. destruct cond.
  - apply unknown_only_Ok.
  - apply unknown_only_bind; [exact Hm|].
    intros m e H. injection H as <-. reflexivity.
Qed.

#[local] Hint Resolve unknown_only_Ok unknown_only_bind unknown_only_mapM
  unknown_only_filterM unknown_only_getitem_key unknown_only_getitem_first
  unknown_only_dict_get unknown_only_iter unknown_only_contains
  unknown_only_join unknown_only_assert : unknown.

Lemma unknown_only_Raise {A : Type} (e : exn) :
  level e = UNKNOWN -> unknown_only (@Raise A e).
Proof. intros L e' H. injection H as <-. exact L. Qed.

Lemma raised_unknown {A : Type} (r : result A) :
  unknown_only r -> (forall a, r <> Ok a) -> exists e, r = Raise e /\ level e = UNKNOWN.
Proof.
  intros U N. destruct r as [a|e].
  - exfalso. apply (N a). reflexivity.
  - exists e. split; [reflexivity | apply U; reflexivity].
Qed.

(** ** Facts on the text helpers *)

Lemma stripped_lines_nonempty (s x : string) :
  In x (PyStr.stripped_lines s) -> PyStr.is_empty x = false.
Proof.
  unfold PyStr.stripped_lines. intros H.
  apply in_map_iff in H as [y [<- Hy]].
  apply filter_In in Hy as [_ Hy].
  apply negb_true_iff in Hy. exact Hy.
Qed.

Lemma join_nonempty (sep first : string) (rest : list string) :
  PyStr.is_empty first = false -> PyStr.is_empty (PyStr.join sep (first :: rest)) = false.
Proof.
  intros H. destruct first as [|c f]; [discriminate|].
  destruct rest; reflexivity.
Qed.

(** ** The run as a whole *)

Section Run.

Variable json_loads : string -> option pyval.
Variable subprocess_run : list string -> CompletedProcess.
Variable shutil_which : string -> option string.
Variable interp_text : exn -> string.

Local Notation "'list_members'" := (get_v3_members_list json_loads subprocess_run).
Local Notation "'members_health'" := (get_v3_members_health json_loads subprocess_run).
Local Notation "'check'" := (check_cluster_members json_loads subprocess_run).
Local Notation "'run'" := (main json_loads subprocess_run shutil_which interp_text).
Local Notation "'handler'" := (handle interp_text).

Lemma handle_unknown (e : exn) :
  level e = UNKNOWN ->
  handler (Raise e)
  = {| exit_code := 3;
       printed := ["UNKNOWN: " ++ class_name e ++ ". " ++ exn_str interp_text e] |}.
Proof. destruct e; simpl; intros H; try discriminate; reflexivity. Qed.

Lemma main_runs_check (self : CheckEtcdCluster) (config : Namespace) :
  shutil_which "etcdctl" = Some (etcdctl_path self) ->
  action config = "cluster_members" ->
  run config = handler (check self (warning config) (critical config)).
Proof.
  intros W A. unfold main, CheckEtcdCluster_init. rewrite W, A. simpl.
  destruct self. reflexivity.
Qed.

Lemma check_stops_at_list (self : CheckEtcdCluster) (w c : option Z) (e : exn) :
  list_members self = Raise e -> check self w c = Raise e.
Proof.
  intros H. unfold check_cluster_members, get_v3_members_health. rewrite H. reflexivity.
Qed.

Lemma check_stops_at_health (self : CheckEtcdCluster) (w c : option Z) (e : exn) :
  members_health self = Raise e -> check self w c = Raise e.
Proof. intros H. unfold check_cluster_members. rewrite H. reflexivity. Qed.

Lemma unknown_only_member_of (x : pyval) : unknown_only (member_of x).
Proof. unfold member_of. auto 12 with unknown. Qed.

Lemma mapM_member_of (recs : list pyval) (members : list V3ClusterMember.t) :
  Forall2 member_record recs members -> mapM member_of recs = Ok members.
Proof.
  induction 1 as [|x m recs members [Hi [Hn [Hp Hc]]] _ IH]; simpl.
  - reflexivity.
  - unfold member_of at 1. rewrite Hi, Hn, Hp, Hc. simpl. rewrite IH. simpl.
    destruct m. reflexivity.
Qed.

Lemma endpoints_of_canonical (members : list V3ClusterMember.t) (addrs : list string) :
  Forall2 canonical_address members addrs ->
  endpoint_all_members members = Ok (map PStr addrs).
Proof.
  unfold endpoint_all_members.
  induction 1 as [|m a members addrs [rest Hm] _ IH]; simpl.
  - reflexivity.
  - rewrite Hm. simpl. rewrite IH. reflexivity.
Qed.

Lemma join_map_PStr (sep : string) (l : list string) :
  Py.join sep (map PStr l) = Ok (PyStr.join sep l).
Proof.
  induction l as [|x r IH]; simpl; [reflexivity|].
  destruct r as [|y r']; [reflexivity|].
  simpl in IH |- *. rewrite IH. reflexivity.
Qed.

(** C9: for a listing that exits with status 0 and decodes to a dict whose
    [members] is a list of records holding the four keys,
    [get_v3_members_list] returns one member per record, in the order of
    the records, with [id] the value of the record's [ID]; and the probe
    is run on the first [peer_urls] entry of each of these members. *)
Theorem C9_list_members_order_and_ids
  (self : CheckEtcdCluster) (doc : pyval) (recs : list pyval)
  (members : list V3ClusterMember.t) (addrs : list string) :
  returncode (subprocess_run (members_list_cmd self)) = 0 ->
  json_loads (stdout (subprocess_run (members_list_cmd self))) = Some doc ->
  Py.getitem_key doc "members" = Ok (PList recs) ->
  Forall2 member_record recs members ->
  Forall2 canonical_address members addrs ->
  list_members self = Ok members /\
  List.length members = List.length recs /\
  map (fun x => Py.getitem_key x "ID") recs = map (fun m => Ok (V3ClusterMember.id m)) members /\
  health_cmd self members
  = Ok [etcdctl_path self; "--endpoints=" ++ PyStr.join "," addrs;
        "endpoint"; "health"; "-w"; "json"].
Proof.
  intros R J M Hrecs Haddrs. repeat split.
  - unfold get_v3_members_list. rewrite R, J. simpl. rewrite M. simpl.
    apply mapM_member_of. exact Hrecs.
  - symmetry. apply (Forall2_length Hrecs).
  - clear -Hrecs. induction Hrecs as [|x m recs members [Hi _] _ IH]; simpl.
    + reflexivity.
    + rewrite Hi, IH. reflexivity.
  - unfold health_cmd. rewrite (endpoints_of_canonical members addrs Haddrs). simpl.
    rewrite join_map_PStr. reflexivity.
Qed.

End Run.

(** ** The patterns, declaratively *)

Lemma append_assoc (a b c : string) : (a ++ b) ++ c = a ++ (b ++ c).
Proof. induction a as [|x a IH]; simpl; [reflexivity | rewrite IH; reflexivity]. Qed.

Lemma append_nil_r (a : string) : a ++ "" = a.
Proof. induction a as [|x a IH]; simpl; [reflexivity | rewrite IH; reflexivity]. Qed.

Lemma rev_onto_append (s acc : string) : PyStr.rev_onto s acc = PyStr.rev s ++ acc.
Proof.
  unfold PyStr.rev. revert acc.
  induction s as [|c s IH]; intros acc; simpl; [reflexivity|].
  rewrite (IH (String c acc)), (IH (String c "")), append_assoc. reflexivity.
Qed.

Lemma rev_cons (c : ascii) (s : string) : PyStr.rev (String c s) = PyStr.rev s ++ String c "".
Proof. unfold PyStr.rev at 1. simpl. apply rev_onto_append. Qed.

Lemma rev_append (a b : string) : PyStr.rev (a ++ b) = PyStr.rev b ++ PyStr.rev a.
Proof.
  induction a as [|c a IH]; simpl.
  - rewrite append_nil_r. reflexivity.
  - rewrite !rev_cons, IH, append_assoc. reflexivity.
Qed.

Lemma rev_involutive (s : string) : PyStr.rev (PyStr.rev s) = s.
Proof.
  induction s as [|c s IH]; [reflexivity|].
  rewrite rev_cons, rev_append, IH. reflexivity.
Qed.

Lemma has_char_append (c : ascii) (a b : string) :
  Py.has_char c (a ++ b) = (Py.has_char c a || Py.has_char c b)%bool.
Proof.
  unfold Py.has_char. induction a as [|x a IH]; simpl; [reflexivity|].
  rewrite IH. apply orb_assoc.
Qed.

Lemma has_char_rev (c : ascii) (s : string) : Py.has_char c (PyStr.rev s) = Py.has_char c s.
Proof.
  induction s as [|x s IH]; [reflexivity|].
  rewrite rev_cons, has_char_append, IH. unfold Py.has_char. simpl.
  rewrite orb_false_r. apply orb_comm.
Qed.

Lemma is_empty_false (s : string) : PyStr.is_empty s = false <-> s <> "".
Proof. destruct s; simpl; split; congruence. Qed.

(** [span_until] cuts at the first [stop]. *)
Lemma span_until_spec (stop : ascii) (s a b : string) :
  Re.span_until stop s = (a, b) <->
  s = a ++ b /\ Py.has_char stop a = false /\ (b = "" \/ exists b', b = String stop b').
Proof.
  revert a b. induction s as [|c s IH]; intros a b; simpl.
  - split.
    + intros H. injection H as <- <-. repeat split. left. reflexivity.
    + intros [E _]. destruct a; [|discriminate]. simpl in E. subst b. reflexivity.
  - destruct (Ascii.eqb_spec c stop) as [->|Hc].
    + split.
      * intros H. injection H as <- <-. repeat split. right. eexists. reflexivity.
      * intros [E [Ha _]]. destruct a as [|x a].
        -- simpl in E. subst b. reflexivity.
        -- simpl in E. injection E as <- _. unfold Py.has_char in Ha. simpl in Ha.
           rewrite Ascii.eqb_refl in Ha. discriminate.
    + destruct (Re.span_until stop s) as [a0 b0] eqn:E0.
      pose proof (IH a0 b0) as IH0. split.
      * intros H. injection H as <- <-.
        destruct (proj1 IH0 eq_refl) as [E [Ha Hb]].
        repeat split; [simpl; rewrite E; reflexivity | | exact Hb].
        unfold Py.has_char in *. simpl. rewrite Ha.
        destruct (Ascii.eqb_spec stop c); [congruence | reflexivity].
      * intros [E [Ha Hb]]. destruct a as [|x a].
        -- simpl in E. subst b. destruct Hb as [Hb | [b' Hb]]; [discriminate|].
           injection Hb as -> _. congruence.
        -- simpl in E. injection E as <- E.
           unfold Py.has_char in Ha. simpl in Ha. apply orb_false_iff in Ha as [_ Ha].
           assert (X : (a0, b0) = (a, b)).
           { apply IH. repeat split; assumption. }
           injection X as -> ->. reflexivity.
Qed.

Lemma strip_prefix_spec (p s r : string) : PyStr.strip_prefix p s = Some r <-> s = p ++ r.
Proof.
  revert s. induction p as [|c p IH]; intros s; simpl.
  - split; [intros H; injection H as ->; reflexivity | intros ->; reflexivity].
  - destruct s as [|d s]; [split; discriminate|].
    destruct (Ascii.eqb_spec c d) as [->|Hc].
    + rewrite IH. split; [intros ->; reflexivity | intros H; injection H as ->; reflexivity].
    + split; [discriminate | intros H; injection H as -> _; congruence].
Qed.

Lemma strip_suffix_spec (suf s r : string) : Re.strip_suffix suf s = Some r <-> s = r ++ suf.
Proof.
  unfold Re.strip_suffix. split.
  - destruct (PyStr.strip_prefix (PyStr.rev suf) (PyStr.rev s)) as [x|] eqn:E; [|discriminate].
    intros H. injection H as <-. apply strip_prefix_spec in E.
    rewrite <- (rev_involutive s), E, rev_append, rev_involutive. reflexivity.
  - intros ->.
    assert (E : PyStr.strip_prefix (PyStr.rev suf) (PyStr.rev (r ++ suf)) = Some (PyStr.rev r)).
    { apply strip_prefix_spec. apply rev_append. }
    rewrite E, rev_involutive. reflexivity.
Qed.

Lemma rsplit_space_spec (s a b : string) :
  Re.rsplit_space s = Some (a, b) <-> s = a ++ String PyStr.SP b /\ Py.has_char PyStr.SP b = false.
Proof.
  unfold Re.rsplit_space, Re.span_nonspace.
  destruct (Re.span_until PyStr.SP (PyStr.rev s)) as [x y] eqn:E.
  apply span_until_spec in E as [E [Hx Hy]]. split.
  - destruct y as [|c y]; [discriminate|].
    intros H. injection H as <- <-.
    destruct Hy as [Hy | [y' Hy]]; [discriminate|]. injection Hy as -> ->.
    split.
    + rewrite <- (rev_involutive s), E, rev_append, rev_cons, append_assoc. reflexivity.
    + rewrite has_char_rev. exact Hx.
  - intros [-> Hb].
    assert (X : Re.span_until PyStr.SP (PyStr.rev (a ++ String PyStr.SP b))
                = (PyStr.rev b, String PyStr.SP (PyStr.rev a))).
    { apply span_until_spec. repeat split.
      - rewrite rev_append, rev_cons, append_assoc. reflexivity.
      - rewrite has_char_rev. exact Hb.
      - right. eexists. reflexivity. }
    assert (Y : Re.span_until PyStr.SP (PyStr.rev (a ++ String PyStr.SP b)) = (x, y)).
    { apply span_until_spec. repeat split; assumption. }
    rewrite X in Y. injection Y as <- <-.
    rewrite !rev_involutive. reflexivity.
Qed.

Theorem matcher_healthy_spec (entry endpoint took : string) :
  Re.matcher_healthy entry = Some (healthy_groups endpoint took) <->
  healthy_line entry endpoint took.
Proof.
  unfold Re.matcher_healthy, Re.span_nonspace. split.
  - destruct (Re.span_until PyStr.SP entry) as [ep rest] eqn:E1.
    apply span_until_spec in E1 as [E1 [Hep _]].
    destruct (PyStr.is_empty ep) eqn:N1; [discriminate|].
    destruct (PyStr.strip_prefix " is healthy:" rest) as [r|] eqn:E2; [|discriminate].
    apply strip_prefix_spec in E2.
    destruct (Re.rsplit_space r) as [[before tk]|] eqn:E3; [|discriminate].
    apply rsplit_space_spec in E3 as [E3 Htk].
    destruct (PyStr.is_empty tk) eqn:N2; [discriminate|].
    destruct (Re.strip_suffix "took =" before) as [dots|] eqn:E4; [|discriminate].
    apply strip_suffix_spec in E4.
    destruct (PyStr.is_empty dots || Py.has_char PyStr.LF dots)%bool eqn:N3; [discriminate|].
    apply orb_false_iff in N3 as [N3 N4].
    intros H. injection H as <- <-.
    exists dots. repeat split; try assumption; try (apply is_empty_false; assumption).
    rewrite E1, E2, E3, E4, append_assoc. reflexivity.
  - intros [dots [E [Nep [Hep [Nd [Hd [Ntk Htk]]]]]]].
    assert (E1 : Re.span_until PyStr.SP entry
                 = (endpoint, " is healthy:" ++ dots ++ "took = " ++ took)).
    { apply span_until_spec. repeat split; [exact E | exact Hep |].
      right. eexists. reflexivity. }
    rewrite E1.
    apply is_empty_false in Nep, Nd, Ntk. rewrite Nep.
    assert (E2 : PyStr.strip_prefix " is healthy:" (" is healthy:" ++ dots ++ "took = " ++ took)
                 = Some (dots ++ "took = " ++ took))
      by (apply strip_prefix_spec; reflexivity).
    rewrite E2.
    assert (E3 : Re.rsplit_space (dots ++ "took = " ++ took) = Some (dots ++ "took =", took)).
    { apply rsplit_space_spec. split; [|exact Htk].
      rewrite append_assoc. reflexivity. }
    rewrite E3, Ntk.
    assert (E4 : Re.strip_suffix "took =" (dots ++ "took =") = Some dots)
      by (apply strip_suffix_spec; reflexivity).
    rewrite E4, Nd, Hd. reflexivity.
Qed.

Theorem matcher_unhealthy_spec (entry endpoint error : string) :
  Re.matcher_unhealthy entry = Some (unhealthy_groups endpoint error) <->
  unhealthy_line entry endpoint error.
Proof.
  unfold Re.matcher_unhealthy, Re.span_nonspace, Re.span_line. split.
  - destruct (Re.span_until PyStr.SP entry) as [ep rest] eqn:E1.
    apply span_until_spec in E1 as [E1 [Hep _]].
    destruct (PyStr.is_empty ep) eqn:N1; [discriminate|].
    destruct (PyStr.strip_prefix " is unhealthy: " rest) as [r|] eqn:E2; [|discriminate].
    apply strip_prefix_spec in E2.
    destruct (Re.span_until PyStr.LF r) as [err tail] eqn:E3.
    apply span_until_spec in E3 as [E3 [Herr _]].
    destruct (PyStr.is_empty err) eqn:N2; [discriminate|].
    destruct (PyStr.is_empty tail || String.eqb tail (String PyStr.LF ""))%bool eqn:T;
      [|discriminate].
    intros H. injection H as <- <-.
    exists tail. repeat split; try assumption; try (apply is_empty_false; assumption).
    + rewrite E1, E2, E3. reflexivity.
    + apply orb_true_iff in T as [T | T].
      * left. destruct tail; [reflexivity | discriminate].
      * right. apply String.eqb_eq. exact T.
  - intros [tail [E [T [Nep [Hep [Nerr Herr]]]]]].
    assert (E1 : Re.span_until PyStr.SP entry
                 = (endpoint, " is unhealthy: " ++ error ++ tail)).
    { apply span_until_spec. repeat split; [exact E | exact Hep |].
      right. eexists. reflexivity. }
    rewrite E1.
    apply is_empty_false in Nep, Nerr. rewrite Nep.
    assert (E2 : PyStr.strip_prefix " is unhealthy: " (" is unhealthy: " ++ error ++ tail)
                 = Some (error ++ tail))
      by (apply strip_prefix_spec; reflexivity).
    rewrite E2.
    assert (E3 : Re.span_until PyStr.LF (error ++ tail) = (error, tail)).
    { apply span_until_spec. repeat split; [exact Herr|].
      destruct T as [-> | ->]; [left; reflexivity | right; eexists; reflexivity]. }
    rewrite E3, Nerr.
    destruct T as [-> | ->]; reflexivity.
Qed.

(** ** The legacy line format *)

Lemma matcher_healthy_groups (entry : string) (d : list (string * pyval)) :
  Re.matcher_healthy entry = Some d ->
  exists endpoint took,
    d = [("endpoint", PStr endpoint); ("health", PStr "healthy"); ("took", PStr took)].
Proof.
  unfold Re.matcher_healthy.
  destruct (Re.span_nonspace entry) as [endpoint rest].
  destruct (PyStr.is_empty endpoint); [discriminate|].
  destruct (PyStr.strip_prefix " is healthy:" rest) as [r|]; [|discriminate].
  destruct (Re.rsplit_space r) as [[before took]|]; [|discriminate].
  destruct (PyStr.is_empty took); [discriminate|].
  destruct (Re.strip_suffix "took =" before) as [dots|]; [|discriminate].
  destruct (PyStr.is_empty dots || Py.has_char PyStr.LF dots)%bool; [discriminate|].
  intros H. injection H as <-. exists endpoint, took. reflexivity.
Qed.

Lemma matcher_unhealthy_groups (entry : string) (d : list (string * pyval)) :
  Re.matcher_unhealthy entry = Some d ->
  exists endpoint error,
    d = [("endpoint", PStr endpoint); ("health", PStr "unhealthy"); ("error", PStr error)].
Proof.
  unfold Re.matcher_unhealthy.
  destruct (Re.span_nonspace entry) as [endpoint rest].
  destruct (PyStr.is_empty endpoint); [discriminate|].
  destruct (PyStr.strip_prefix " is unhealthy: " rest) as [r|]; [|discriminate].
  destruct (Re.span_line r) as [error tail].
  destruct (PyStr.is_empty error); [discriminate|].
  destruct (PyStr.is_empty tail || String.eqb tail (String PyStr.LF ""))%bool; [|discriminate].
  intros H. injection H as <-. exists endpoint, error. reflexivity.
Qed.

Lemma matcher_healthy_none (entry : string) :
  Re.matcher_healthy entry = None <-> forall endpoint took, ~ healthy_line entry endpoint took.
Proof.
  split.
  - intros N endpoint took H. apply matcher_healthy_spec in H. congruence.
  - intros H. destruct (Re.matcher_healthy entry) as [d|] eqn:E; [|reflexivity].
    destruct (matcher_healthy_groups entry d E) as [endpoint [took ->]].
    exfalso. apply (H endpoint took). apply matcher_healthy_spec. exact E.
Qed.

Lemma matcher_unhealthy_none (entry : string) :
  Re.matcher_unhealthy entry = None <-> forall endpoint error, ~ unhealthy_line entry endpoint error.
Proof.
  split.
  - intros N endpoint error H. apply matcher_unhealthy_spec in H. congruence.
  - intros H. destruct (Re.matcher_unhealthy entry) as [d|] eqn:E; [|reflexivity].
    destruct (matcher_unhealthy_groups entry d E) as [endpoint [error ->]].
    exfalso. apply (H endpoint error). apply matcher_unhealthy_spec. exact E.
Qed.

(** A line of the healthy form stops at the unbound name of line 185. *)
Lemma legacy_entry_healthy (entry : string) (d : list (string * pyval)) :
  Re.matcher_healthy entry = Some d ->
  legacy_entry entry = Raise (NameError "error").
Proof.
  intros H. unfold legacy_entry. rewrite H.
  destruct (matcher_healthy_groups entry d H) as [endpoint [took ->]].
  reflexivity.
Qed.

(** A line of the unhealthy form has no group [took] and stops at the
    assertion of line 178. *)
Lemma legacy_entry_unhealthy (entry : string) (d : list (string * pyval)) :
  Re.matcher_healthy entry = None ->
  Re.matcher_unhealthy entry = Some d ->
  legacy_entry entry = Raise (AssertionError (unparsable_line entry)).
Proof.
  intros Hh Hu. unfold legacy_entry. rewrite Hh, Hu.
  destruct (matcher_unhealthy_groups entry d Hu) as [endpoint [error ->]].
  reflexivity.
Qed.

Lemma legacy_entry_unmatched (entry : string) :
  Re.matcher_healthy entry = None ->
  Re.matcher_unhealthy entry = None ->
  legacy_entry entry = Raise (AssertionError (unparsable_line entry)).
Proof. intros Hh Hu. unfold legacy_entry. rewrite Hh, Hu. reflexivity. Qed.

Lemma legacy_failure_unknown (e : exn) : legacy_failure e -> level e = UNKNOWN.
Proof. intros [-> | [entry ->]]; reflexivity. Qed.

Lemma legacy_entry_raises (entry : string) :
  exists e, legacy_entry entry = Raise e /\ legacy_failure e.
Proof.
  destruct (Re.matcher_healthy entry) as [d|] eqn:Hh.
  - exists (NameError "error"). split.
    + apply (legacy_entry_healthy entry d Hh).
    + left. reflexivity.
  - exists (AssertionError (unparsable_line entry)). split.
    + destruct (Re.matcher_unhealthy entry) as [d|] eqn:Hu.
      * apply (legacy_entry_unhealthy entry d Hh Hu).
      * apply (legacy_entry_unmatched entry Hh Hu).
    + right. exists entry. reflexivity.
Qed.

(** The loop stops at its first line, whatever the line is. *)
Lemma legacy_loop_raises (entry : string) (rest : list string) (parsed : list pyval) :
  exists e, legacy_loop (entry :: rest) parsed = Raise e /\ legacy_failure e.
Proof.
  destruct (legacy_entry_raises entry) as [e [E F]].
  exists e. simpl. rewrite E. split; [reflexivity | exact F].
Qed.

Lemma legacy_parse_raises (output entry : string) :
  In entry (PyStr.splitlines output) ->
  exists e, legacy_parse output = Raise e /\ legacy_failure e.
Proof.
  intros H. unfold legacy_parse.
  destruct (PyStr.splitlines output) as [|first rest]; [contradiction|].
  destruct (legacy_loop_raises first rest []) as [e [E F]].
  exists e. rewrite E. split; [reflexivity | exact F].
Qed.

(** The legacy parser yields no observation at all: it succeeds only on an
    output without lines. *)
Lemma legacy_parse_ok (output : string) (parsed : pyval) :
  legacy_parse output = Ok parsed ->
  PyStr.splitlines output = [] /\ parsed = PList [].
Proof.
  unfold legacy_parse.
  destruct (PyStr.splitlines output) as [|first rest]; simpl.
  - intros H. injection H as <-. split; reflexivity.
  - destruct (legacy_loop_raises first rest []) as [e [E _]].
    simpl in E. rewrite E. discriminate.
Qed.

(** C1, on the code: the two lines of Scenario D are of the healthy and of
    the unhealthy form, yet parsing the document raises [NameError] at its
    first line instead of giving two observations; the unhealthy line alone
    fails the assertion on [took]. *)
Theorem C1_scenario_D_raises :
  PyStr.splitlines scenario_D
  = ["10.0.0.1:2380 is healthy: took = 3ms";
     "10.0.0.2:2380 is unhealthy: context deadline exceeded"] /\
  Re.matcher_healthy "10.0.0.1:2380 is healthy: took = 3ms"
  = Some [("endpoint", PStr "10.0.0.1:2380"); ("health", PStr "healthy"); ("took", PStr "3ms")] /\
  Re.matcher_unhealthy "10.0.0.2:2380 is unhealthy: context deadline exceeded"
  = Some [("endpoint", PStr "10.0.0.2:2380"); ("health", PStr "unhealthy");
          ("error", PStr "context deadline exceeded")] /\
  legacy_parse scenario_D = Raise (NameError "error") /\
  legacy_parse "10.0.0.2:2380 is unhealthy: context deadline exceeded"
  = Raise (AssertionError
             (unparsable_line "10.0.0.2:2380 is unhealthy: context deadline exceeded")).
Proof. repeat split; reflexivity. Qed.

(** ** Reconciliation *)

Lemma unknown_only_matchings (members : list V3ClusterMember.t) (o : pyval) :
  unknown_only (matchings members o).
Proof. unfold matchings. auto 8 with unknown. Qed.

Lemma unknown_only_member_health (members : list V3ClusterMember.t) (o : pyval) :
  unknown_only (member_health members o).
Proof.
  unfold member_health.
  apply unknown_only_bind; [apply unknown_only_matchings|]. intros ms.
  apply unknown_only_bind; [auto 8 with unknown|]. intros _.
  destruct ms as [|matching rest].
  - apply unknown_only_Raise. reflexivity.
  - auto 12 with unknown.
Qed.

(** A record is built only for an observation with exactly one match, and
    it is built from that match. *)
Lemma member_health_ok (members : list V3ClusterMember.t) (o : pyval)
      (mh : V3ClusterMemberHealth.t) :
  member_health members o = Ok mh ->
  exists m, matchings members o = Ok [m] /\
            V3ClusterMemberHealth.id mh = V3ClusterMember.id m /\
            V3ClusterMemberHealth.name mh = V3ClusterMember.name m /\
            Py.getitem_key o "health" = Ok (V3ClusterMemberHealth.health mh) /\
            Py.getitem_key o "took" = Ok (V3ClusterMemberHealth.took mh).
Proof.
  unfold member_health.
  destruct (matchings members o) as [ms|e]; simpl; [|discriminate].
  destruct ms as [|m [|m' rest]]; simpl.
  - destruct (Py.getitem_key o "endpoint"); simpl; discriminate.
  - destruct (Py.getitem_key o "health") as [h|]; simpl; [|discriminate].
    destruct (Py.getitem_key o "took") as [t|]; simpl; [|discriminate].
    destruct (Py.dict_get o "error") as [e|]; simpl; [|discriminate].
    intros H. injection H as <-. exists m. repeat split; reflexivity.
  - destruct (Py.getitem_key o "endpoint"); simpl; discriminate.
Qed.

Lemma reconcile_loop_unknown_only (members : list V3ClusterMember.t) (items : list pyval) :
  forall acc, unknown_only (reconcile_loop members items acc).
Proof.
  induction items as [|x rest IH]; intros acc; simpl.
  - apply unknown_only_Ok.
  - apply unknown_only_bind; [apply unknown_only_member_health|].
    intros mh. apply IH.
Qed.

Lemma reconcile_loop_bad_item (members : list V3ClusterMember.t) (o : pyval) (items : list pyval) :
  In o items ->
  (forall ms, matchings members o = Ok ms -> List.length ms <> 1%nat) ->
  forall acc records, reconcile_loop members items acc <> Ok records.
Proof.
  intros Hin Hbad. induction items as [|x rest IH]; [contradiction|].
  intros acc records. simpl.
  destruct (member_health members x) as [mh|e] eqn:E; simpl; [|discriminate].
  destruct Hin as [-> | Hin].
  - destruct (member_health_ok members o mh E) as [m [M _]].
    exfalso. apply (Hbad [m] M). reflexivity.
  - apply IH. exact Hin.
Qed.

Section Health.

Variable json_loads : string -> option pyval.
Variable subprocess_run : list string -> CompletedProcess.
Variable shutil_which : string -> option string.
Variable interp_text : exn -> string.

Local Notation "'list_members'" := (get_v3_members_list json_loads subprocess_run).
Local Notation "'members_health'" := (get_v3_members_health json_loads subprocess_run).
Local Notation "'check'" := (check_cluster_members json_loads subprocess_run).
Local Notation "'run'" := (main json_loads subprocess_run shutil_which interp_text).

(** C6: an observation whose endpoint is not in the [peer_urls] of exactly
    one member makes the run fail: no record list is returned, the
    exception goes to the generic handler, and the run ends UNKNOWN with
    exit code 3. *)
Theorem C6_reconciliation_needs_one_match
  (self : CheckEtcdCluster) (config : Namespace) (members : list V3ClusterMember.t)
  (parsed : pyval) (items : list pyval) (o : pyval) :
  shutil_which "etcdctl" = Some (etcdctl_path self) ->
  action config = "cluster_members" ->
  list_members self = Ok members ->
  probe json_loads subprocess_run self members = Ok parsed ->
  Py.iter parsed = Ok items ->
  In o items ->
  (forall ms, matchings members o = Ok ms -> List.length ms <> 1%nat) ->
  exists e,
    members_health self = Raise e /\
    level e = UNKNOWN /\
    run config =
      {| exit_code := 3;
         printed := ["UNKNOWN: " ++ class_name e ++ ". " ++ exn_str interp_text e] |}.
Proof.
  intros W A L P I Hin Hbad.
  assert (H : members_health self = reconcile_loop members items []).
  { unfold get_v3_members_health. rewrite L. simpl. rewrite P. simpl.
    unfold reconcile. rewrite I. reflexivity. }
  destruct (raised_unknown (reconcile_loop members items [])
              (reconcile_loop_unknown_only members items [])
              (reconcile_loop_bad_item members o items Hin Hbad [])) as [e [E U]].
  exists e. rewrite H. repeat split; [exact E | exact U |].
  rewrite (main_runs_check json_loads subprocess_run shutil_which interp_text self config W A).
  rewrite (check_stops_at_health json_loads subprocess_run self _ _ e) by (rewrite H; exact E).
  apply handle_unknown. exact U.
Qed.

(** C7: when the probe output is not JSON and one of its lines matches
    neither pattern, the run fails as a whole: no observation is returned
    for any line, and the run ends UNKNOWN with exit code 3. *)
Theorem C7_unparsable_line_rejects_batch
  (self : CheckEtcdCluster) (config : Namespace) (members : list V3ClusterMember.t)
  (cmd : list string) (entry : string) :
  shutil_which "etcdctl" = Some (etcdctl_path self) ->
  action config = "cluster_members" ->
  list_members self = Ok members ->
  health_cmd self members = Ok cmd ->
  json_loads (stdout (subprocess_run cmd)) = None ->
  In entry (PyStr.splitlines (stdout (subprocess_run cmd))) ->
  Re.matcher_healthy entry = None ->
  Re.matcher_unhealthy entry = None ->
  exists e,
    probe json_loads subprocess_run self members = Raise e /\
    members_health self = Raise e /\
    legacy_failure e /\
    level e = UNKNOWN /\
    (forall rest, PyStr.splitlines (stdout (subprocess_run cmd)) = entry :: rest ->
                  e = AssertionError (unparsable_line entry)) /\
    run config =
      {| exit_code := 3;
         printed := ["UNKNOWN: " ++ class_name e ++ ". " ++ exn_str interp_text e] |}.
Proof.
  intros W A L C J Hin Hh Hu.
  destruct (legacy_parse_raises _ entry Hin) as [e [E F]].
  assert (First : forall rest, PyStr.splitlines (stdout (subprocess_run cmd)) = entry :: rest ->
                               e = AssertionError (unparsable_line entry)).
  { intros rest S. unfold legacy_parse in E. rewrite S in E. simpl in E.
    rewrite (legacy_entry_unmatched entry Hh Hu) in E. simpl in E.
    injection E as <-. reflexivity. }
  assert (P : probe json_loads subprocess_run self members = Raise e).
  { unfold probe. rewrite C. simpl. unfold probe_output. rewrite J. exact E. }
  assert (H : members_health self = Raise e).
  { unfold get_v3_members_health. rewrite L. simpl. rewrite P. reflexivity. }
  exists e.
  repeat split; [exact P | exact H | exact F | exact (legacy_failure_unknown e F) | exact First |].
  rewrite (main_runs_check json_loads subprocess_run shutil_which interp_text self config W A).
  rewrite (check_stops_at_health json_loads subprocess_run self _ _ e H).
  apply handle_unknown. exact (legacy_failure_unknown e F).
Qed.

End Health.

(** ** Concrete runs *)

Example decode_examples :
  Json.loads listing_two
  = Some (PDict [("header", PDict [("cluster_id", PInt 7); ("member_id", PInt 11);
                                   ("raft_term", PInt 2)]);
                 ("members", PList records_two)]) /\
  Json.loads health_one_dead = Some parsed_one_dead /\
  Json.loads health_stranger = Some (PList [stranger]) /\
  Json.loads scenario_D = None /\
  Json.loads "boom" = None.
Proof. repeat split; vm_compute; reflexivity. Qed.

(** Scenario D as the output of the probe: the run ends UNKNOWN. *)
Example scenario_D_run :
  main Json.loads (world (exited 0 listing_two) (exited 0 scenario_D)) which_etcdctl no_text
       (cluster_members None None)
  = {| exit_code := 3; printed := ["UNKNOWN: NameError. name 'error' is not defined"] |}.
Proof. vm_compute. reflexivity. Qed.

Lemma C6_witness :
  exists e,
    get_v3_members_health Json.loads (world (exited 0 listing_two) (exited 0 health_stranger))
                          self_etcdctl = Raise e /\
    level e = UNKNOWN /\
    main Json.loads (world (exited 0 listing_two) (exited 0 health_stranger)) which_etcdctl
         no_text (cluster_members None None)
    = {| exit_code := 3;
         printed := ["UNKNOWN: " ++ class_name e ++ ". " ++ exn_str no_text e] |}.
Proof.
  apply (C6_reconciliation_needs_one_match
           Json.loads (world (exited 0 listing_two) (exited 0 health_stranger)) which_etcdctl
           no_text self_etcdctl (cluster_members None None) members_two
           (PList [stranger]) [stranger] stranger).
  - reflexivity.
  - reflexivity.
  - vm_compute. reflexivity.
  - vm_compute. reflexivity.
  - reflexivity.
  - left. reflexivity.
  - intros ms H. vm_compute in H. injection H as <-. discriminate.
Defined.

(** The same run, computed: the assertion of line 211 fails. *)
Example stranger_run :
  main Json.loads (world (exited 0 listing_two) (exited 0 health_stranger)) which_etcdctl
       no_text (cluster_members None None)
  = {| exit_code := 3;
       printed := ["UNKNOWN: AssertionError. Unable to find node definition matching endpoint "
                     ++ "http://10.0.0.9:2380"] |}.
Proof. vm_compute. reflexivity. Qed.

Lemma C7_witness :
  exists e,
    probe Json.loads (world (exited 0 listing_two) (exited 0 "no such flag")) self_etcdctl
          members_two = Raise e /\
    get_v3_members_health Json.loads (world (exited 0 listing_two) (exited 0 "no such flag"))
                          self_etcdctl = Raise e /\
    legacy_failure e /\
    level e = UNKNOWN /\
    (forall rest,
        PyStr.splitlines
          (stdout (world (exited 0 listing_two) (exited 0 "no such flag") health_cmd_two))
        = "no such flag" :: rest ->
        e = AssertionError (unparsable_line "no such flag")) /\
    main Json.loads (world (exited 0 listing_two) (exited 0 "no such flag")) which_etcdctl
         no_text (cluster_members None None)
    = {| exit_code := 3;
         printed := ["UNKNOWN: " ++ class_name e ++ ". " ++ exn_str no_text e] |}.
Proof.
  apply (C7_unparsable_line_rejects_batch
           Json.loads (world (exited 0 listing_two) (exited 0 "no such flag")) which_etcdctl
           no_text self_etcdctl (cluster_members None None) members_two health_cmd_two
           "no such flag").
  - reflexivity.
  - reflexivity.
  - vm_compute. reflexivity.
  - vm_compute. reflexivity.
  - vm_compute. reflexivity.
  - left. reflexivity.
  - reflexivity.
  - reflexivity.
Defined.

Lemma C9_witness :
  get_v3_members_list Json.loads (world (exited 0 listing_two) (exited 0 "")) self_etcdctl
  = Ok members_two /\
  List.length members_two = List.length records_two /\
  map (fun x => Py.getitem_key x "ID") records_two
  = map (fun m => Ok (V3ClusterMember.id m)) members_two /\
  health_cmd self_etcdctl members_two
  = Ok [etcdctl; "--endpoints=" ++ PyStr.join "," ["http://10.0.0.1:2380"; "http://10.0.0.2:2380"];
        "endpoint"; "health"; "-w"; "json"].
Proof.
  apply (C9_list_members_order_and_ids
           Json.loads (world (exited 0 listing_two) (exited 0 "")) self_etcdctl
           (PDict [("header", PDict [("cluster_id", PInt 7); ("member_id", PInt 11);
                                     ("raft_term", PInt 2)]);
                   ("members", PList records_two)])
           records_two members_two ["http://10.0.0.1:2380"; "http://10.0.0.2:2380"]).
  - reflexivity.
  - vm_compute. reflexivity.
  - reflexivity.
  - repeat constructor.
  - repeat constructor; eexists; reflexivity.
Defined.

(** ** The scenarios of the specification *)

Example scenario_A :
  exit_code (run_three true true true None None) = 0 /\
  first_line (run_three true true true None None) = "OK: 3/3 healthy nodes: n1, n2, n3".
Proof. split; vm_compute; reflexivity. Qed.

Example scenario_B :
  exit_code (run_three true true false (Some 1) (Some 2)) = 1 /\
  first_line (run_three true true false (Some 1) (Some 2))
  = "WARNING: 2/3 healthy nodes: n3: context deadline exceeded".
Proof. split; vm_compute; reflexivity. Qed.

Example scenario_C :
  exit_code (run_three true false false None (Some 2)) = 2 /\
  first_line (run_three true false false None (Some 2))
  = "CRITICAL: 1/3 healthy nodes: n2: context deadline exceeded, n3: context deadline exceeded".
Proof. split; vm_compute; reflexivity. Qed.

(** Scenario F, and the thresholds [parse_args] lets through *)
Example scenario_F :
  parse_args_thresholds (cluster_members (Some 3) (Some 2))
  = inr {| exit_code := 3;
           printed := ["UNKNOWN: Bad arguments (see --help): "
                         ++ "Warning threshold cannot be greater than critical one"] |}.
Proof. reflexivity. Qed.

Lemma parse_args_thresholds_ordered (args config : Namespace) (w c : Z) :
  parse_args_thresholds args = inl config ->
  warning config = Some w -> critical config = Some c ->
  w <= c /\ w <> -1 /\ c <> -1.
Proof.
  unfold parse_args_thresholds, unset_sentinel.
  destruct (warning args) as [wv|], (critical args) as [cv|]; simpl;
    repeat match goal with
           | |- context [if ?b then _ else _] => destruct b eqn:?
           end;
    intros H; try discriminate; injection H as <-; simpl;
    intros Hw Hc; try discriminate.
  injection Hw as <-. injection Hc as <-. lia.
Qed.

Example twins_run :
  main Json.loads
       (world (exited 0 listing_twins)
              (exited 0 (Json.doc ("[" ++ observed "10.0.0.1" true ++ "]"))))
       which_etcdctl no_text (cluster_members None None)
  = {| exit_code := 3;
       printed := ["UNKNOWN: AssertionError. Unable to find node definition matching endpoint "
                     ++ "http://10.0.0.1:2380"] |}.
Proof. vm_compute. reflexivity. Qed.

(** ** More on the cluster check *)

Section MoreRun.

Variable json_loads : string -> option pyval.
Variable subprocess_run : list string -> CompletedProcess.
Variable shutil_which : string -> option string.
Variable interp_text : exn -> string.

Local Notation "'list_members'" := (get_v3_members_list json_loads subprocess_run).
Local Notation "'members_health'" := (get_v3_members_health json_loads subprocess_run).
Local Notation "'check'" := (check_cluster_members json_loads subprocess_run).
Local Notation "'run'" := (main json_loads subprocess_run shutil_which interp_text).

Lemma check_never_returns (self : CheckEtcdCluster) (w c : option Z) :
  exists e, check self w c = Raise e.
Proof.
  unfold check_cluster_members.
  destruct (members_health self) as [ms|e]; simpl.
  - apply check_members_raises.
  - exists e. reflexivity.
Qed.

Lemma handle_status (e : exn) :
  exists text detail,
    printed (handle interp_text (Raise e)) = (level_word (level e) ++ ": " ++ text) :: detail /\
    exit_code (handle interp_text (Raise e)) = level_code (level e) /\
    (List.length detail <= 1)%nat.
Proof.
  destruct e; simpl;
    try (eexists; exists []; repeat split; simpl; lia);
    eexists; eexists; (split; [reflexivity|]); (split; [reflexivity|]);
    unfold print_multiline; destruct multiline as [m|]; try (destruct (PyStr.is_empty m));
    simpl; lia.
Qed.

(** X1: every run prints a status line that starts with one of the four
    severity words and exits with the code of that word; at most one more
    item, the detail, is printed after it. *)
Theorem X1_run_reports_one_status (config : Namespace) :
  exists l text detail,
    printed (run config) = (level_word l ++ ": " ++ text) :: detail /\
    exit_code (run config) = level_code l /\
    (List.length detail <= 1)%nat.
Proof.
  assert (R : exists e, run config = handle interp_text (Raise e)).
  { unfold main. destruct (CheckEtcdCluster_init shutil_which) as [etcd|e]; simpl.
    - destruct (String.eqb (action config) "cluster_members").
      + destruct (check_never_returns etcd (warning config) (critical config)) as [e E].
        exists e. rewrite E. reflexivity.
      + exists (ValueError ("Unsupported action " ++ action config)). reflexivity.
    - exists e. reflexivity. }
  destruct R as [e ->].
  destruct (handle_status e) as [text [detail H]].
  exists (level e), text, detail. exact H.
Qed.

End MoreRun.

Lemma member_health_joined (members : list V3ClusterMember.t) (o : pyval)
      (r : V3ClusterMemberHealth.t) :
  member_health members o = Ok r <-> joined members o r.
Proof.
  unfold member_health, joined. split.
  - destruct (matchings members o) as [ms|e]; simpl; [|discriminate].
    destruct ms as [|m [|m' rest]]; simpl.
    + destruct (Py.getitem_key o "endpoint"); simpl; discriminate.
    + destruct (Py.getitem_key o "health") as [h|]; simpl; [|discriminate].
      destruct (Py.getitem_key o "took") as [t|]; simpl; [|discriminate].
      destruct (Py.dict_get o "error") as [e|]; simpl; [|discriminate].
      intros H. injection H as <-. exists m. simpl. repeat split; reflexivity.
    + destruct (Py.getitem_key o "endpoint"); simpl; discriminate.
  - intros [m [M [Hi [Hn [Hp [Hc [Hh [Ht He]]]]]]]].
    rewrite M. simpl. rewrite Hh, Ht, He. simpl.
    destruct r. simpl in *. subst. reflexivity.
Qed.

Lemma reconcile_loop_spec (members : list V3ClusterMember.t) (items : list pyval) :
  forall acc out,
    reconcile_loop members items acc = Ok out <->
    exists rs, out = (acc ++ rs)%list /\ Forall2 (joined members) items rs.
Proof.
  induction items as [|o rest IH]; intros acc out; simpl.
  - split.
    + intros H. injection H as <-. exists []. split; [symmetry; apply app_nil_r | constructor].
    + intros [rs [-> F]]. inversion F. rewrite app_nil_r. reflexivity.
  - split.
    + destruct (member_health members o) as [r|e] eqn:E; simpl; [|discriminate].
      intros H. apply IH in H as [rs [-> F]].
      exists (r :: rs). split.
      * rewrite <- app_assoc. reflexivity.
      * constructor; [apply member_health_joined; exact E | exact F].
    + intros [rs [-> F]]. inversion F as [|o' r rest' rs' J F' E1 E2]; subst.
      apply member_health_joined in J. rewrite J. simpl.
      apply IH. exists rs'. split; [rewrite <- app_assoc; reflexivity | exact F'].
Qed.

(** X2: reconciliation returns a record list exactly when every observation
    has one matching member and holds the keys [health] and [took]; the
    records then follow the order of the observations, one per observation,
    each made of the fields of the matching member and of the health, took
    and error (None when absent) of the observation. *)
Theorem X2_reconcile_joins_in_probe_order
  (members : list V3ClusterMember.t) (parsed : pyval) (items : list pyval)
  (records : list V3ClusterMemberHealth.t) :
  Py.iter parsed = Ok items ->
  (reconcile members parsed = Ok records <-> Forall2 (joined members) items records).
Proof.
  intros I. unfold reconcile. rewrite I. simpl.
  rewrite (reconcile_loop_spec members items [] records). simpl. split.
  - intros [rs [-> F]]. exact F.
  - intros F. exists records. split; [reflexivity | exact F].
Qed.

Lemma X2_witness :
  Forall2 (joined members_two)
    [PDict [("endpoint", PStr "http://10.0.0.1:2380"); ("health", PBool true);
            ("took", PStr "3ms")];
     PDict [("endpoint", PStr "http://10.0.0.2:2380"); ("health", PBool false);
            ("took", PStr "5s"); ("error", PStr "context deadline exceeded")]]
    [V3ClusterMemberHealth.make (PInt 11) (PStr "n1") (PList [PStr "http://10.0.0.1:2380"])
       (PList [PStr "http://10.0.0.1:2379"]) (PBool true) (PStr "3ms") PNone;
     V3ClusterMemberHealth.make (PInt 12) (PStr "n2") (PList [PStr "http://10.0.0.2:2380"])
       (PList [PStr "http://10.0.0.2:2379"]) (PBool false) (PStr "5s")
       (PStr "context deadline exceeded")].
Proof.
  apply (proj1 (X2_reconcile_joins_in_probe_order members_two parsed_one_dead _ _ eq_refl)).
  vm_compute. reflexivity.
Defined.

Section MoreProbe.

Variable json_loads : string -> option pyval.
Variable subprocess_run : list string -> CompletedProcess.
Variable shutil_which : string -> option string.
Variable interp_text : exn -> string.

Local Notation "'list_members'" := (get_v3_members_list json_loads subprocess_run).
Local Notation "'members_health'" := (get_v3_members_health json_loads subprocess_run).
Local Notation "'run'" := (main json_loads subprocess_run shutil_which interp_text).

(** X5: a probe that prints nothing on its standard output is read as an
    empty cluster: whatever the member list, the exit status and the
    standard error are, the run ends OK with [0/0 healthy nodes] and exit
    code 0, unless a threshold of zero or less is set. *)
Theorem X5_silent_probe_reports_ok
  (self : CheckEtcdCluster) (config : Namespace) (members : list V3ClusterMember.t)
  (cmd : list string) :
  shutil_which "etcdctl" = Some (etcdctl_path self) ->
  action config = "cluster_members" ->
  list_members self = Ok members ->
  health_cmd self members = Ok cmd ->
  stdout (subprocess_run cmd) = "" ->
  json_loads "" = None ->
  below (critical config) 0 ->
  below (warning config) 0 ->
  members_health self = Ok [] /\
  run config = {| exit_code := 0; printed := ["OK: 0/0 healthy nodes: "] |}.
Proof.
  intros W A L C S J Bc Bw.
  assert (H : members_health self = Ok []).
  { unfold get_v3_members_health. rewrite L. simpl.
    unfold probe. rewrite C. simpl. unfold probe_output. rewrite S, J. reflexivity. }
  split; [exact H|].
  rewrite (main_runs_check json_loads subprocess_run shutil_which interp_text self config W A).
  unfold check_cluster_members. rewrite H. simpl.
  apply at_least_false in Bc, Bw.
  unfold check_members. simpl. rewrite Bc, Bw. reflexivity.
Qed.

End MoreProbe.

Lemma X5_witness :
  get_v3_members_health
    Json.loads
    (world (exited 0 listing_two)
           {| returncode := 1; stdout := ""; stderr := "Error: context deadline exceeded" |})
    self_etcdctl = Ok [] /\
  main Json.loads
       (world (exited 0 listing_two)
              {| returncode := 1; stdout := ""; stderr := "Error: context deadline exceeded" |})
       which_etcdctl no_text (cluster_members (Some 1) (Some 2))
  = {| exit_code := 0; printed := ["OK: 0/0 healthy nodes: "] |}.
Proof.
  apply (X5_silent_probe_reports_ok
           Json.loads
           (world (exited 0 listing_two)
                  {| returncode := 1; stdout := ""; stderr := "Error: context deadline exceeded" |})
           which_etcdctl no_text self_etcdctl (cluster_members (Some 1) (Some 2))
           members_two health_cmd_two).
  - reflexivity.
  - reflexivity.
  - vm_compute. reflexivity.
  - vm_compute. reflexivity.
  - reflexivity.
  - reflexivity.
  - simpl. lia.
  - simpl. lia.
Defined.

Lemma mapM_stops {A B : Type} (f : A -> result B) (done : list A) (ys : list B)
      (x : A) (rest : list A) (e : exn) :
  mapM f done = Ok ys -> f x = Raise e -> mapM f (done ++ x :: rest) = Raise e.
Proof.
  revert ys. induction done as [|a done IH]; intros ys; simpl.
  - intros _ E. rewrite E. reflexivity.
  - destruct (f a) as [b|e']; simpl; [|discriminate].
    destruct (mapM f done) as [bs|e'] eqn:M; simpl; [|discriminate].
    intros _ E. rewrite (IH bs eq_refl E). reflexivity.
Qed.

Lemma member_of_first_missing (d : list (string * pyval)) (k : string) :
  first_missing d = Some k -> member_of (PDict d) = Raise (KeyError (PStr k)).
Proof.
  unfold first_missing, member_keys, member_of, Py.getitem_key, Py.has_key. simpl.
  destruct (Py.lookup "ID" d); simpl;
    [|intros H; injection H as <-; reflexivity].
  destruct (Py.lookup "name" d); simpl;
    [|intros H; injection H as <-; reflexivity].
  destruct (Py.lookup "peerURLs" d); simpl;
    [|intros H; injection H as <-; reflexivity].
  destruct (Py.lookup "clientURLs" d); simpl;
    [discriminate | intros H; injection H as <-; reflexivity].
Qed.

Section MoreListing.

Variable json_loads : string -> option pyval.
Variable subprocess_run : list string -> CompletedProcess.
Variable shutil_which : string -> option string.
Variable interp_text : exn -> string.

Local Notation "'list_members'" := (get_v3_members_list json_loads subprocess_run).
Local Notation "'members_health'" := (get_v3_members_health json_loads subprocess_run).
Local Notation "'run'" := (main json_loads subprocess_run shutil_which interp_text).

(** X6: a listing is accepted only whole: when the records before some
    record hold the four keys and that record is a dict lacking one of them,
    [get_v3_members_list] raises [KeyError] for the first key it misses, in
    the order ID, name, peerURLs, clientURLs, and the run ends UNKNOWN. *)
Theorem X6_incomplete_member_record
  (self : CheckEtcdCluster) (config : Namespace) (doc : pyval)
  (complete : list pyval) (members : list V3ClusterMember.t)
  (d : list (string * pyval)) (rest : list pyval) (k : string) :
  shutil_which "etcdctl" = Some (etcdctl_path self) ->
  action config = "cluster_members" ->
  returncode (subprocess_run (members_list_cmd self)) = 0 ->
  json_loads (stdout (subprocess_run (members_list_cmd self))) = Some doc ->
  Py.getitem_key doc "members" = Ok (PList (complete ++ PDict d :: rest)) ->
  Forall2 member_record complete members ->
  first_missing d = Some k ->
  list_members self = Raise (KeyError (PStr k)) /\
  run config = {| exit_code := 3; printed := ["UNKNOWN: KeyError. " ++ Py.repr_str k] |}.
Proof.
  intros W A R J M F K.
  assert (L : list_members self = Raise (KeyError (PStr k))).
  { unfold get_v3_members_list. rewrite R, J. simpl. rewrite M. simpl.
    apply (mapM_stops member_of complete members).
    - apply mapM_member_of. exact F.
    - apply member_of_first_missing. exact K. }
  split; [exact L|].
  rewrite (main_runs_check json_loads subprocess_run shutil_which interp_text self config W A).
  rewrite (check_stops_at_list json_loads subprocess_run self _ _ _ L). reflexivity.
Qed.

Lemma endpoints_index_error (members : list V3ClusterMember.t) :
  Forall (fun m => exists l, V3ClusterMember.peer_urls m = PList l) members ->
  Exists (fun m => V3ClusterMember.peer_urls m = PList []) members ->
  endpoint_all_members members = Raise IndexError.
Proof.
  unfold endpoint_all_members.
  induction members as [|m rest IH]; intros F E; [inversion E|].
  inversion F as [|m' rest' [l Hl] F']; subst. simpl. rewrite Hl.
  destruct l as [|u l'].
  - reflexivity.
  - simpl. inversion E as [m' rest' Hm | m' rest' E']; subst.
    + rewrite Hl in Hm. discriminate.
    + rewrite (IH F' E'). reflexivity.
Qed.

(** X7: a member that advertises no peer URL stops the run before the probe
    command is built: with every [peer_urls] a list and one of them empty,
    [get_v3_members_health] raises [IndexError] and the run ends UNKNOWN. *)
Theorem X7_member_without_peer_url
  (self : CheckEtcdCluster) (config : Namespace) (members : list V3ClusterMember.t) :
  shutil_which "etcdctl" = Some (etcdctl_path self) ->
  action config = "cluster_members" ->
  list_members self = Ok members ->
  Forall (fun m => exists l, V3ClusterMember.peer_urls m = PList l) members ->
  Exists (fun m => V3ClusterMember.peer_urls m = PList []) members ->
  health_cmd self members = Raise IndexError /\
  members_health self = Raise IndexError /\
  run config
  = {| exit_code := 3; printed := ["UNKNOWN: IndexError. " ++ interp_text IndexError] |}.
Proof.
  intros W A L F E.
  assert (C : health_cmd self members = Raise IndexError).
  { unfold health_cmd. rewrite (endpoints_index_error members F E). reflexivity. }
  assert (H : members_health self = Raise IndexError).
  { unfold get_v3_members_health. rewrite L. simpl. unfold probe. rewrite C. reflexivity. }
  repeat split; [exact C | exact H |].
  rewrite (main_runs_check json_loads subprocess_run shutil_which interp_text self config W A).
  rewrite (check_stops_at_health json_loads subprocess_run self _ _ _ H). reflexivity.
Qed.

(** X10: without [etcdctl] in the path no command is run: the run ends
    UNKNOWN on the assertion of [__init__], whatever the action, the
    thresholds and the outcome any command would have. *)
Theorem X10_no_etcdctl (config : Namespace) :
  shutil_which "etcdctl" = None ->
  run config
  = {| exit_code := 3;
       printed := ["UNKNOWN: AssertionError. Unable to find etcdctl command in path"] |}.
Proof. intros W. unfold main, CheckEtcdCluster_init. rewrite W. reflexivity. Qed.

End MoreListing.

Lemma X6_witness :
  get_v3_members_list Json.loads (world (exited 0 listing_unstarted) (exited 0 "")) self_etcdctl
  = Raise (KeyError (PStr "name")) /\
  main Json.loads (world (exited 0 listing_unstarted) (exited 0 "")) which_etcdctl no_text
       (cluster_members None None)
  = {| exit_code := 3; printed := ["UNKNOWN: KeyError. 'name'"] |}.
Proof.
  apply (X6_incomplete_member_record
           Json.loads (world (exited 0 listing_unstarted) (exited 0 "")) which_etcdctl no_text
           self_etcdctl (cluster_members None None)
           (PDict [("members",
                    PList [PDict [("ID", PInt 11); ("name", PStr "n1");
                                  ("peerURLs", PList [PStr "http://10.0.0.1:2380"]);
                                  ("clientURLs", PList [])];
                           PDict [("ID", PInt 12);
                                  ("peerURLs", PList [PStr "http://10.0.0.2:2380"])]])])
           [PDict [("ID", PInt 11); ("name", PStr "n1");
                   ("peerURLs", PList [PStr "http://10.0.0.1:2380"]);
                   ("clientURLs", PList [])]]
           [V3ClusterMember.make (PInt 11) (PStr "n1") (PList [PStr "http://10.0.0.1:2380"])
                                 (PList [])]
           [("ID", PInt 12); ("peerURLs", PList [PStr "http://10.0.0.2:2380"])]
           [] "name").
  - reflexivity.
  - reflexivity.
  - reflexivity.
  - vm_compute. reflexivity.
  - reflexivity.
  - repeat constructor.
  - reflexivity.
Defined.

Lemma X7_witness :
  health_cmd self_etcdctl members_no_peer = Raise IndexError /\
  get_v3_members_health Json.loads (world (exited 0 listing_no_peer) (exited 0 ""))
                        self_etcdctl = Raise IndexError /\
  main Json.loads (world (exited 0 listing_no_peer) (exited 0 "")) which_etcdctl no_text
       (cluster_members None None)
  = {| exit_code := 3; printed := ["UNKNOWN: IndexError. " ++ no_text IndexError] |}.
Proof.
  apply (X7_member_without_peer_url
           Json.loads (world (exited 0 listing_no_peer) (exited 0 "")) which_etcdctl no_text
           self_etcdctl (cluster_members None None) members_no_peer).
  - reflexivity.
  - reflexivity.
  - vm_compute. reflexivity.
  - repeat constructor; eexists; reflexivity.
  - right. left. reflexivity.
Defined.

Lemma X10_witness :
  main Json.loads (world (exited 0 listing_two) (exited 0 health_one_dead))
       (fun _ => None) no_text (cluster_members (Some 1) (Some 2))
  = {| exit_code := 3;
       printed := ["UNKNOWN: AssertionError. Unable to find etcdctl command in path"] |}.
Proof.
  apply (X10_no_etcdctl Json.loads (world (exited 0 listing_two) (exited 0 health_one_dead))
                        (fun _ => None) no_text (cluster_members (Some 1) (Some 2))).
  reflexivity.
Defined.

Lemma ok_branch_level {A : Type} (r : result string) (k : string -> exn) :
  unknown_only r -> (forall s, level (k s) = OK) ->
  raised_level (bind r (fun s => @Raise A (k s))) = Some OK \/
  raised_level (bind r (fun s => @Raise A (k s))) = Some UNKNOWN.
Proof.
  intros U K. destruct r as [s|e]; simpl.
  - left. rewrite K. reflexivity.
  - right. rewrite (U e eq_refl). reflexivity.
Qed.

(** X8: the thresholds are the only way to a WARNING or a CRITICAL: for
    every record set, CRITICAL is raised only when a critical threshold is
    set and the dead count reaches it, and WARNING only when a warning
    threshold is set and reached while the critical one is unset or not
    reached. *)
Theorem X8_levels_need_thresholds
  (members : list V3ClusterMemberHealth.t) (w c : option Z) :
  (raised_level (check_members members w c) = Some CRITICAL ->
   exists cv, c = Some cv /\ cv <= Z.of_nat (dead_count members)) /\
  (raised_level (check_members members w c) = Some WARNING ->
   (exists wv, w = Some wv /\ wv <= Z.of_nat (dead_count members)) /\
   below c (dead_count members)).
Proof.
  unfold check_members, dead_count.
  destruct (at_least c (List.length (dead_members members))) eqn:Ec.
  - apply at_least_true in Ec. split; [intros _; exact Ec | discriminate].
  - destruct (at_least w (List.length (dead_members members))) eqn:Ew.
    + apply at_least_true in Ew. apply at_least_false in Ec.
      split; [discriminate | intros _; split; assumption].
    + destruct (dead_members members) as [|x xs] eqn:D; [|split; discriminate].
      match goal with
      | |- context [raised_level (bind ?r (fun s => Raise (@?k s)))] =>
          destruct (@ok_branch_level unit r k (unknown_only_join _ _) (fun _ => eq_refl))
            as [H | H]
      end; rewrite H; split; discriminate.
Qed.

(** X9: [parse_args] refuses the thresholds exactly when both are set to
    something other than -1 and the warning one is the greater; what it
    accepts keeps the action and has every -1 replaced by an unset
    threshold. *)
Theorem X9_parse_args_thresholds (args : Namespace) :
  ((exists r, parse_args_thresholds args = inr r) <->
   (exists wv cv, warning args = Some wv /\ critical args = Some cv /\
                  wv <> -1 /\ cv <> -1 /\ cv < wv)) /\
  (forall r, parse_args_thresholds args = inr r -> exit_code r = 3) /\
  (forall config, parse_args_thresholds args = inl config ->
                  action config = action args /\
                  warning config = unset_sentinel (warning args) /\
                  critical config = unset_sentinel (critical args) /\
                  warning config <> Some (-1) /\ critical config <> Some (-1)).
Proof.
  unfold parse_args_thresholds, unset_sentinel.
  destruct (warning args) as [wv|], (critical args) as [cv|]; simpl.
  - destruct (Z.eqb_spec wv (-1)) as [Ew|Ew], (Z.eqb_spec cv (-1)) as [Ec|Ec];
      try (destruct (Z.gtb_spec wv cv) as [G|G]);
      (split; [split|split]);
      try (intros [r H]; discriminate H);
      try (intros [wv' [cv' [H1 [H2 [H3 [H4 H5]]]]]];
           injection H1 as <-; injection H2 as <-; lia);
      try (intros r H; injection H as <-; reflexivity);
      try (intros config H; try discriminate H; injection H as <-; simpl;
           repeat split; congruence);
      try (intros r H; discriminate H).
    + intros _. exists wv, cv. repeat split; try assumption; lia.
    + intros _. eexists. reflexivity.
  - destruct (Z.eqb_spec wv (-1)) as [Ew|Ew];
      (split; [split|split]);
      try (intros [r H]; discriminate H);
      try (intros [wv' [cv' [H1 [H2 _]]]]; discriminate H2);
      try (intros r H; discriminate H);
      intros config H; injection H as <-; simpl; repeat split; congruence.
  - destruct (Z.eqb_spec cv (-1)) as [Ec|Ec];
      (split; [split|split]);
      try (intros [r H]; discriminate H);
      try (intros [wv' [cv' [H1 _]]]; discriminate H1);
      try (intros r H; discriminate H);
      intros config H; injection H as <-; simpl; repeat split; congruence.
  - (split; [split|split]);
      try (intros [r H]; discriminate H);
      try (intros [wv' [cv' [H1 _]]]; discriminate H1);
      try (intros r H; discriminate H);
      intros config H; injection H as <-; simpl; repeat split; congruence.
Qed.

(** X11: the two legacy patterns exclude each other: a line of the healthy
    form is never of the unhealthy form, so the order of the tests of lines
    168 and 171 decides nothing. *)
Theorem X11_patterns_exclusive (entry : string) (d : list (string * pyval)) :
  Re.matcher_healthy entry = Some d -> Re.matcher_unhealthy entry = None.
Proof.
  unfold Re.matcher_healthy, Re.matcher_unhealthy.
  destruct (Re.span_nonspace entry) as [endpoint rest].
  destruct (PyStr.is_empty endpoint); [discriminate|].
  destruct (PyStr.strip_prefix " is healthy:" rest) as [r|] eqn:H; [|discriminate].
  intros _.
  destruct (PyStr.strip_prefix " is unhealthy: " rest) as [r'|] eqn:U; [|reflexivity].
  apply strip_prefix_spec in H, U. rewrite H in U. discriminate.
Qed.

Lemma X11_witness :
  Re.matcher_unhealthy "10.0.0.1:2380 is healthy: took = 3ms" = None.
Proof.
  apply (X11_patterns_exclusive
           "10.0.0.1:2380 is healthy: took = 3ms"
           [("endpoint", PStr "10.0.0.1:2380"); ("health", PStr "healthy");
            ("took", PStr "3ms")]).
  reflexivity.
Defined.

Lemma span_without_stop (stop : ascii) (s : string) :
  Py.has_char stop s = false -> Re.span_until stop s = (s, "").
Proof.
  intros H. apply span_until_spec. repeat split.
  - symmetry. apply append_nil_r.
  - exact H.
  - left. reflexivity.
Qed.

(** X12: a line of legacy output that holds no space, an empty line
    included, matches neither pattern; blank lines are not skipped, they
    fail the run with the assertion of line 175. *)
Theorem X12_line_without_space (entry : string) :
  Py.has_char PyStr.SP entry = false ->
  Re.matcher_healthy entry = None /\
  Re.matcher_unhealthy entry = None /\
  legacy_entry entry = Raise (AssertionError (unparsable_line entry)).
Proof.
  intros H.
  assert (Hh : Re.matcher_healthy entry = None).
  { unfold Re.matcher_healthy, Re.span_nonspace. rewrite (span_without_stop _ _ H).
    destruct (PyStr.is_empty entry); reflexivity. }
  assert (Hu : Re.matcher_unhealthy entry = None).
  { unfold Re.matcher_unhealthy, Re.span_nonspace. rewrite (span_without_stop _ _ H).
    destruct (PyStr.is_empty entry); reflexivity. }
  repeat split; [exact Hh | exact Hu |].
  apply legacy_entry_unmatched; assumption.
Qed.

Lemma X12_witness :
  Re.matcher_healthy "" = None /\
  Re.matcher_unhealthy "" = None /\
  legacy_entry "" = Raise (AssertionError (unparsable_line "")).
Proof. apply (X12_line_without_space ""). reflexivity. Defined.

(** X13: every verdict that [check_cluster_members] raises carries the same
    counts and the same detail: the message starts with the number of
    members whose health is True over the number of all records, and the
    detail lists the healthy members first and the dead ones after them.
    What follows the counts is the list of dead members with their errors,
    except for an OK without dead members, which lists the names. *)
Theorem X13_verdict_payload
  (members : list V3ClusterMemberHealth.t) (w c : option Z) (e : exn) :
  check_members members w c = Raise e ->
  level e <> UNKNOWN ->
  exists what,
    nagios_payload e
    = Some (healthy_nodes (List.length (healthy_members members)) (List.length members) what,
            Some (detail_body members)) /\
    (dead_members members <> [] \/ level e <> OK ->
     what = PyStr.join ", " (map name_error_pair (dead_members members))) /\
    (dead_members members = [] -> level e = OK ->
     Py.join ", " (map V3ClusterMemberHealth.name (healthy_members members)) = Ok what).
Proof.
  unfold check_members, detail_body.
  destruct (at_least c (List.length (dead_members members))).
  - intros H _. injection H as <-. eexists. split; [reflexivity|]. split.
    + intros _. reflexivity.
    + intros _ L. discriminate L.
  - destruct (at_least w (List.length (dead_members members))).
    + intros H _. injection H as <-. eexists. split; [reflexivity|]. split.
      * intros _. reflexivity.
      * intros _ L. discriminate L.
    + destruct (dead_members members) as [|x xs] eqn:D.
      * destruct (Py.join ", " (map V3ClusterMemberHealth.name (healthy_members members)))
          as [names|e'] eqn:J; simpl.
        -- intros H _. injection H as <-. exists names. split; [reflexivity|]. split.
           ++ intros [N | N]; [congruence | exfalso; apply N; reflexivity].
           ++ intros _ _. reflexivity.
        -- intros H U. injection H as <-. exfalso. apply U.
           apply (unknown_only_join _ _ _ J).
      * intros H _. injection H as <-. eexists. split; [reflexivity|]. split.
        -- intros _. reflexivity.
        -- intros N. discriminate N.
Qed.

Lemma X13_witness :
  exists what,
    nagios_payload verdict_two_of_three
    = Some (healthy_nodes (List.length (healthy_members two_of_three))
                          (List.length two_of_three) what,
            Some (detail_body two_of_three)) /\
    (dead_members two_of_three <> [] \/ level verdict_two_of_three <> OK ->
     what = PyStr.join ", " (map name_error_pair (dead_members two_of_three))) /\
    (dead_members two_of_three = [] -> level verdict_two_of_three = OK ->
     Py.join ", " (map V3ClusterMemberHealth.name (healthy_members two_of_three)) = Ok what).
Proof.
  apply (X13_verdict_payload two_of_three (Some 1) (Some 2) verdict_two_of_three).
  - vm_compute. reflexivity.
  - discriminate.
Defined.

Lemma existsb_eq_PStr (ep : string) (l : list string) :
  existsb (Py.eq (PStr ep)) (map PStr l) = existsb (String.eqb ep) l.
Proof.
  induction l as [|x r IH]; [reflexivity|].
  cbn [existsb map]. rewrite IH. reflexivity.
Qed.

(** X14: an observation is matched to the members that advertise its
    endpoint among any of their peer URLs, first or not, by equality of the
    whole string: for members whose [peer_urls] are lists of strings, the
    matches are the members one of whose peer URLs is the endpoint,
    character for character, in the order of the listing. *)
Theorem X14_matching_is_string_equality
  (rows : list (pyval * pyval * list string * list string))
  (d : list (string * pyval)) (endpoint : string) :
  Py.lookup "endpoint" d = Some (PStr endpoint) ->
  matchings (map member_of_row rows) (PDict d)
  = Ok (map member_of_row (filter (advertises endpoint) rows)).
Proof.
  intros E. unfold matchings.
  assert (G : Py.getitem_key (PDict d) "endpoint" = Ok (PStr endpoint))
    by (unfold Py.getitem_key; rewrite E; reflexivity).
  induction rows as [|[[[i n] peers] clients] rest IH]; [reflexivity|].
  cbn [map filterM filter]. rewrite IH, G.
  cbn [bind member_of_row typed_member V3ClusterMember.peer_urls Py.contains advertises].
  rewrite existsb_eq_PStr.
  destruct (existsb (String.eqb endpoint) peers); reflexivity.
Qed.

Lemma X14_witness :
  matchings
    (map member_of_row
         [(PInt 11, PStr "n1", ["http://10.0.0.1:2380"], []);
          (PInt 12, PStr "n2", ["http://10.0.0.2:2380"; "http://n2:2380"], [])])
    (PDict [("endpoint", PStr "http://n2:2380"); ("health", PBool true); ("took", PStr "3ms")])
  = Ok (map member_of_row
            (filter (advertises "http://n2:2380")
                    [(PInt 11, PStr "n1", ["http://10.0.0.1:2380"], []);
                     (PInt 12, PStr "n2", ["http://10.0.0.2:2380"; "http://n2:2380"], [])])).
Proof.
  apply (X14_matching_is_string_equality
           [(PInt 11, PStr "n1", ["http://10.0.0.1:2380"], []);
            (PInt 12, PStr "n2", ["http://10.0.0.2:2380"; "http://n2:2380"], [])]
           [("endpoint", PStr "http://n2:2380"); ("health", PBool true); ("took", PStr "3ms")]
           "http://n2:2380").
  reflexivity.
Defined.

(** X15: with the thresholds [parse_args] lets through, both set, the dead
    count falls in one of three bands: below the warning threshold the
    level is OK, from the warning threshold up to the critical one it is
    WARNING, and from the critical threshold on it is CRITICAL. *)
Theorem X15_validated_thresholds_give_bands
  (args config : Namespace) (w c : Z) (members : list V3ClusterMemberHealth.t) :
  parse_args_thresholds args = inl config ->
  warning config = Some w ->
  critical config = Some c ->
  names_are_str members = true ->
  raised_level (check_members members (warning config) (critical config))
  = Some (if Z.of_nat (dead_count members) <? w then OK
          else if Z.of_nat (dead_count members) <? c then WARNING
          else CRITICAL).
Proof.
  intros P Hw Hc T.
  destruct (parse_args_thresholds_ordered args config w c P Hw Hc) as [O _].
  rewrite check_members_level by (left; exact T).
  rewrite Hw, Hc. unfold policy, at_least.
  destruct (Z.geb_spec (Z.of_nat (dead_count members)) c) as [G1|G1];
    destruct (Z.geb_spec (Z.of_nat (dead_count members)) w) as [G2|G2];
    destruct (Z.ltb_spec (Z.of_nat (dead_count members)) w) as [L1|L1];
    destruct (Z.ltb_spec (Z.of_nat (dead_count members)) c) as [L2|L2];
    try reflexivity; lia.
Qed.

Lemma X15_witness :
  raised_level (check_members two_of_three
                              (warning (cluster_members (Some 1) (Some 2)))
                              (critical (cluster_members (Some 1) (Some 2))))
  = Some (if Z.of_nat (dead_count two_of_three) <? 1 then OK
          else if Z.of_nat (dead_count two_of_three) <? 2 then WARNING
          else CRITICAL).
Proof.
  apply (X15_validated_thresholds_give_bands
           (cluster_members (Some 1) (Some 2)) (cluster_members (Some 1) (Some 2))
           1 2 two_of_three); reflexivity.
Defined.

(** ** The run on the bytes of the commands *)

Section RawRun.

Variable json_loads : string -> Raw.loaded.
Variable utf8 : string -> option string.
Variable subprocess_run : list string -> Raw.CompletedProcess.
Variable shutil_which : string -> option string.
Variable interp_text : exn -> string.

Local Notation "'list_members'" := (Raw.get_v3_members_list json_loads utf8 subprocess_run).
Local Notation "'members_health'" := (Raw.get_v3_members_health json_loads utf8 subprocess_run).
Local Notation "'check'" := (Raw.check_cluster_members json_loads utf8 subprocess_run).
Local Notation "'probe_stage'" := (Raw.probe_output json_loads utf8).
Local Notation "'run'" :=
  (Raw.main json_loads utf8 subprocess_run shutil_which interp_text).

Lemma raw_main_runs_check (self : CheckEtcdCluster) (config : Namespace) :
  shutil_which "etcdctl" = Some (etcdctl_path self) ->
  action config = "cluster_members" ->
  run config = handle interp_text (check self (warning config) (critical config)).
Proof.
  intros W A. unfold Raw.main, CheckEtcdCluster_init. rewrite W, A. simpl.
  destruct self. reflexivity.
Qed.

Lemma raw_check_stops_at_list (self : CheckEtcdCluster) (w c : option Z) (e : exn) :
  list_members self = Raise e -> check self w c = Raise e.
Proof.
  intros H. unfold Raw.check_cluster_members, Raw.get_v3_members_health.
  rewrite H. reflexivity.
Qed.

Lemma raw_check_stops_at_health (self : CheckEtcdCluster) (w c : option Z) (e : exn) :
  members_health self = Raise e -> check self w c = Raise e.
Proof. intros H. unfold Raw.check_cluster_members. rewrite H. reflexivity. Qed.

(** Once the listing command has exited with status 0, whatever
    [get_v3_members_list] raises goes to the generic handler. *)
Lemma raw_list_members_unknown_only (self : CheckEtcdCluster) :
  Raw.returncode (subprocess_run (members_list_cmd self)) = 0 ->
  unknown_only (list_members self).
Proof.
  intros R. unfold Raw.get_v3_members_list. rewrite R. simpl.
  destruct (json_loads _).
  - apply unknown_only_bind; [apply unknown_only_getitem_key|]. intros ms.
    apply unknown_only_bind; [apply unknown_only_iter|]. intros items.
    apply unknown_only_mapM. exact unknown_only_member_of.
  - apply unknown_only_Raise. reflexivity.
  - apply unknown_only_Raise. reflexivity.
Qed.

(** C8, as the code has it: a listing command that exits non-zero and
    whose output decodes as UTF-8 ends the run CRITICAL with exit code 2;
    the message carries the first non-blank output line, stripped, and the
    detail is the non-blank output lines, stripped and joined by line
    feeds, or the message ends in [No output] with no detail when there is
    none.  When the output of a failed listing does not decode, line 132
    raises [UnicodeDecodeError] and the run ends UNKNOWN with exit code 3.
    A listing command that exits with status 0 and whose output is not
    text, not JSON, or not of the expected shape, ends the run UNKNOWN with
    exit code 3. *)
Theorem C8_list_members_failures (self : CheckEtcdCluster) (config : Namespace) :
  shutil_which "etcdctl" = Some (etcdctl_path self) ->
  action config = "cluster_members" ->
  (Raw.returncode (subprocess_run (members_list_cmd self)) <> 0 ->
   (forall text,
       utf8 (Raw.stdout (subprocess_run (members_list_cmd self))) = Some text ->
       run config =
         {| exit_code := 2;
            printed :=
              match PyStr.stripped_lines text with
              | first :: rest =>
                  [ "CRITICAL: "
                      ++ failed_with (members_list_cmd self)
                           (Raw.returncode (subprocess_run (members_list_cmd self))) first;
                    PyStr.join (String PyStr.LF "") (first :: rest) ]
              | [] =>
                  [ "CRITICAL: "
                      ++ failed_with (members_list_cmd self)
                           (Raw.returncode (subprocess_run (members_list_cmd self)))
                           "No output" ]
              end |}) /\
   (utf8 (Raw.stdout (subprocess_run (members_list_cmd self))) = None ->
    list_members self = Raise UnicodeDecodeError /\
    run config =
      {| exit_code := 3;
         printed := ["UNKNOWN: UnicodeDecodeError. " ++ interp_text UnicodeDecodeError] |}))
  /\
  (Raw.returncode (subprocess_run (members_list_cmd self)) = 0 ->
   (json_loads (Raw.stdout (subprocess_run (members_list_cmd self))) = Raw.NotJSON ->
    list_members self = Raise JSONDecodeError) /\
   (json_loads (Raw.stdout (subprocess_run (members_list_cmd self))) = Raw.NotText ->
    list_members self = Raise UnicodeDecodeError) /\
   forall e, list_members self = Raise e ->
             run config =
               {| exit_code := 3;
                  printed := ["UNKNOWN: " ++ class_name e ++ ". " ++ exn_str interp_text e] |}).
Proof.
  intros W A. rewrite (raw_main_runs_check self config W A). split.
  - intros R. apply Z.eqb_neq in R. split.
    + intros text U.
      assert (L : forall x, In x (PyStr.stripped_lines text) -> PyStr.is_empty x = false)
        by (intros x; apply stripped_lines_nonempty).
      unfold Raw.check_cluster_members, Raw.get_v3_members_health,
        Raw.get_v3_members_list, Raw.decode.
      rewrite R, U. cbn [bind].
      destruct (PyStr.stripped_lines text) as [|first rest]; cbn [bind handle];
        [reflexivity|].
      unfold print_multiline.
      rewrite (join_nonempty _ first rest (L first (or_introl eq_refl))).
      reflexivity.
    + intros U.
      assert (E : list_members self = Raise UnicodeDecodeError).
      { unfold Raw.get_v3_members_list, Raw.decode. rewrite R, U. reflexivity. }
      split; [exact E|].
      rewrite (raw_check_stops_at_list self _ _ _ E). reflexivity.
  - intros R. repeat split.
    + intros J. unfold Raw.get_v3_members_list. rewrite R, J. reflexivity.
    + intros J. unfold Raw.get_v3_members_list. rewrite R, J. reflexivity.
    + intros e E.
      rewrite (raw_check_stops_at_list self _ _ e E).
      apply handle_unknown.
      apply (raw_list_members_unknown_only self R). exact E.
Qed.

(** When [json.loads] reads the output, the handler of
    [CalledProcessError] has only its two decodes to fail on. *)
Lemma raw_probe_of_json (cmd : list string) (res : Raw.CompletedProcess) (parsed : pyval) :
  json_loads (Raw.stdout res) = Raw.Loaded parsed ->
  Raw.handler_decodes utf8 res ->
  probe_stage cmd res = Ok parsed.
Proof.
  intros J H. unfold Raw.probe_output. rewrite J.
  destruct (Raw.returncode res =? 0) eqn:R; [reflexivity|].
  destruct H as [H | [Ho He]]; [apply Z.eqb_neq in R; contradiction|].
  unfold Raw.on_called_process_error, Raw.decode.
  destruct (utf8 (Raw.stdout res)); [|contradiction].
  destruct (utf8 (Raw.stderr res)); [|contradiction].
  simpl. rewrite J. reflexivity.
Qed.

Lemma raw_probe_undecodable (cmd : list string) (res : Raw.CompletedProcess) (parsed : pyval) :
  json_loads (Raw.stdout res) = Raw.Loaded parsed ->
  Raw.returncode res <> 0 ->
  utf8 (Raw.stdout res) = None \/ utf8 (Raw.stderr res) = None ->
  probe_stage cmd res = Raise UnicodeDecodeError.
Proof.
  intros J R H. apply Z.eqb_neq in R. unfold Raw.probe_output. rewrite J, R.
  unfold Raw.on_called_process_error, Raw.decode.
  destruct (utf8 (Raw.stdout res)) as [out|]; [|reflexivity].
  destruct H as [H | H]; [discriminate|]. rewrite H. reflexivity.
Qed.

(** C2, as the code has it: when [json.loads] reads the probe output and
    the probe exited non-zero, [check_returncode] raises and the handler
    decodes both streams and parses the same output again.  When both
    streams decode as UTF-8 the run goes on to reconciliation and
    evaluation with the parsed records; when one of them does not, the
    check raises [UnicodeDecodeError], which the generic handler of the
    entry point reports as UNKNOWN with exit code 3. *)
Theorem C2_nonzero_exit_with_json_proceeds
  (self : CheckEtcdCluster) (members : list V3ClusterMember.t) (cmd : list string)
  (parsed : pyval) (w c : option Z) :
  list_members self = Ok members ->
  health_cmd self members = Ok cmd ->
  json_loads (Raw.stdout (subprocess_run cmd)) = Raw.Loaded parsed ->
  Raw.returncode (subprocess_run cmd) <> 0 ->
  (utf8 (Raw.stdout (subprocess_run cmd)) <> None ->
   utf8 (Raw.stderr (subprocess_run cmd)) <> None ->
   Raw.probe json_loads utf8 subprocess_run self members = Ok parsed /\
   members_health self = reconcile members parsed /\
   check self w c = (records <- reconcile members parsed ;; check_members records w c)) /\
  (utf8 (Raw.stdout (subprocess_run cmd)) = None \/
   utf8 (Raw.stderr (subprocess_run cmd)) = None ->
   Raw.probe json_loads utf8 subprocess_run self members = Raise UnicodeDecodeError /\
   members_health self = Raise UnicodeDecodeError /\
   check self w c = Raise UnicodeDecodeError /\
   handle interp_text (check self w c)
   = {| exit_code := 3;
        printed := ["UNKNOWN: UnicodeDecodeError. " ++ interp_text UnicodeDecodeError] |}).
Proof.
  intros L C J R. split.
  - intros Ho He.
    assert (P : Raw.probe json_loads utf8 subprocess_run self members = Ok parsed).
    { unfold Raw.probe. rewrite C. simpl. apply raw_probe_of_json; [exact J|].
      right. split; assumption. }
    repeat split.
    + exact P.
    + unfold Raw.get_v3_members_health. rewrite L. simpl. rewrite P. reflexivity.
    + unfold Raw.check_cluster_members, Raw.get_v3_members_health.
      rewrite L. simpl. rewrite P. reflexivity.
  - intros U.
    assert (P : Raw.probe json_loads utf8 subprocess_run self members
                = Raise UnicodeDecodeError).
    { unfold Raw.probe. rewrite C. simpl.
      apply (raw_probe_undecodable cmd _ parsed J R U). }
    assert (H : members_health self = Raise UnicodeDecodeError).
    { unfold Raw.get_v3_members_health. rewrite L. simpl. rewrite P. reflexivity. }
    assert (K : check self w c = Raise UnicodeDecodeError)
      by (apply raw_check_stops_at_health; exact H).
    repeat split; [exact P | exact H | exact K |].
    rewrite K. reflexivity.
Qed.

(** X3: as long as the handler of [CalledProcessError] can decode the two
    streams whenever it runs, what the probe stage yields is decided by
    the bytes of the standard output alone: the exit status, the content
    of the standard error and the command line play no part. *)
Theorem X3_probe_reads_stdout_when_streams_decode
  (cmd cmd' : list string) (res res' : Raw.CompletedProcess) :
  Raw.stdout res = Raw.stdout res' ->
  Raw.handler_decodes utf8 res ->
  Raw.handler_decodes utf8 res' ->
  probe_stage cmd res = probe_stage cmd' res'.
Proof.
  intros E H H'.
  destruct (json_loads (Raw.stdout res)) as [parsed| |] eqn:J.
  - rewrite (raw_probe_of_json cmd res parsed J H).
    rewrite E in J.
    rewrite (raw_probe_of_json cmd' res' parsed J H'). reflexivity.
  - unfold Raw.probe_output. rewrite <- E, J. reflexivity.
  - unfold Raw.probe_output. rewrite <- E, J. reflexivity.
Qed.

Lemma raw_legacy_parse_raises (output : string) (e : exn) :
  Raw.legacy_parse utf8 output = Raise e ->
  e = UnicodeDecodeError /\ utf8 output = None \/
  legacy_failure e /\ exists text, utf8 output = Some text /\ PyStr.splitlines text <> [].
Proof.
  unfold Raw.legacy_parse, Raw.decode.
  destruct (utf8 output) as [text|]; simpl.
  - intros H. right.
    destruct (PyStr.splitlines text) as [|first rest] eqn:S.
    + unfold legacy_parse in H. rewrite S in H. discriminate.
    + destruct (legacy_parse_raises text first) as [e' [E F]].
      { rewrite S. left. reflexivity. }
      rewrite E in H. injection H as <-.
      split; [exact F|]. exists text. split; [reflexivity|]. rewrite S. discriminate.
  - intros H. injection H as <-. left. split; reflexivity.
Qed.

(** X4: the probe stage never raises [NagiosCritical]: it fails either
    with [UnicodeDecodeError], on a stream that does not decode, or with
    the [NameError] or [AssertionError] of the legacy parser, and the
    latter only when the output is text that is not JSON and has at least
    one line.  The [NagiosCritical] of the handler of lines 197 to 207 is
    never reached. *)
Theorem X4_probe_never_critical (cmd : list string) (res : Raw.CompletedProcess) (e : exn) :
  probe_stage cmd res = Raise e ->
  level e = UNKNOWN /\
  (e = UnicodeDecodeError \/ legacy_failure e) /\
  (legacy_failure e ->
   json_loads (Raw.stdout res) = Raw.NotJSON /\
   exists text, utf8 (Raw.stdout res) = Some text /\ PyStr.splitlines text <> []).
Proof.
  assert (U : level UnicodeDecodeError = UNKNOWN /\
              (UnicodeDecodeError = UnicodeDecodeError \/ legacy_failure UnicodeDecodeError) /\
              (legacy_failure UnicodeDecodeError ->
               json_loads (Raw.stdout res) = Raw.NotJSON /\
               exists text, utf8 (Raw.stdout res) = Some text /\ PyStr.splitlines text <> [])).
  { split; [reflexivity|]. split; [left; reflexivity|].
    intros [F | [entry F]]; discriminate F. }
  unfold Raw.probe_output.
  destruct (json_loads (Raw.stdout res)) as [parsed| |] eqn:J.
  - destruct (Raw.returncode res =? 0); [discriminate|].
    unfold Raw.on_called_process_error, Raw.decode.
    destruct (utf8 (Raw.stdout res)); simpl.
    + destruct (utf8 (Raw.stderr res)); simpl.
      * rewrite J. discriminate.
      * intros H. injection H as <-. exact U.
    + intros H. injection H as <-. exact U.
  - intros H. destruct (raw_legacy_parse_raises _ _ H) as [[-> _] | [F [text [D S]]]].
    + exact U.
    + split; [exact (legacy_failure_unknown e F)|]. split; [right; exact F|].
      intros _. split; [reflexivity|]. exists text. split; assumption.
  - intros H. injection H as <-. exact U.
Qed.

End RawRun.

(** On output that decodes, the script on bytes runs as the script on
    text: the two runs print the same and exit with the same code. *)
Lemma raw_run_on_decoded_output
      (json_loads : string -> Raw.loaded) (utf8 : string -> option string)
      (subprocess_run : list string -> Raw.CompletedProcess)
      (json_text : string -> option pyval)
      (subprocess_text : list string -> CompletedProcess)
      (shutil_which : string -> option string) (interp_text : exn -> string)
      (config : Namespace) :
  decoded_as json_loads utf8 subprocess_run json_text subprocess_text ->
  Raw.main json_loads utf8 subprocess_run shutil_which interp_text config
  = main json_text subprocess_text shutil_which interp_text config.
Proof.
  intros D.
  assert (L : forall self, Raw.get_v3_members_list json_loads utf8 subprocess_run self
                           = get_v3_members_list json_text subprocess_text self).
  { intros self. unfold Raw.get_v3_members_list, get_v3_members_list, Raw.decode.
    destruct (D (members_list_cmd self)) as [R [O [_ J]]].
    rewrite R, O, J.
    destruct (returncode (subprocess_text (members_list_cmd self)) =? 0).
    - destruct (json_text (stdout (subprocess_text (members_list_cmd self)))); reflexivity.
    - reflexivity. }
  assert (P : forall cmd, Raw.probe_output json_loads utf8 cmd (subprocess_run cmd)
                          = probe_output json_text cmd (subprocess_text cmd)).
  { intros cmd. unfold Raw.probe_output, probe_output.
    destruct (D cmd) as [R [O [E J]]]. rewrite J.
    destruct (json_text (stdout (subprocess_text cmd))) as [parsed|] eqn:T.
    - rewrite R. destruct (returncode (subprocess_text cmd) =? 0); [reflexivity|].
      unfold Raw.on_called_process_error, on_called_process_error, Raw.decode.
      rewrite O, E, J, T. reflexivity.
    - unfold Raw.legacy_parse, Raw.decode. rewrite O. reflexivity. }
  assert (H : forall self, Raw.get_v3_members_health json_loads utf8 subprocess_run self
                           = get_v3_members_health json_text subprocess_text self).
  { intros self. unfold Raw.get_v3_members_health, get_v3_members_health.
    rewrite L. destruct (get_v3_members_list json_text subprocess_text self) as [ms|e];
      [|reflexivity].
    simpl. unfold Raw.probe, probe. destruct (health_cmd self ms) as [cmd|e]; [|reflexivity].
    simpl. rewrite P. reflexivity. }
  unfold Raw.main, main, Raw.check_cluster_members, check_cluster_members.
  destruct (CheckEtcdCluster_init shutil_which) as [etcd|e]; [|reflexivity].
  simpl. rewrite H. reflexivity.
Qed.

(** The script on text is the script on bytes that decode to themselves. *)
Lemma text_decoded_as_itself (json_text : string -> option pyval)
      (subprocess_text : list string -> CompletedProcess) :
  decoded_as (fun b => loaded_of (json_text b)) Some
             (fun cmd => bytes_of (subprocess_text cmd)) json_text subprocess_text.
Proof. intros cmd. repeat split. Qed.

(** ** Concrete runs on bytes *)

Example utf8_decode_ex :
  Utf8.decode "abc" = Some "abc" /\
  Utf8.decode (String (ascii_of_N 195) (String (ascii_of_N 169) "t"))
  = Some (String (ascii_of_N 233) "t") /\
  Utf8.decode not_utf8 = None /\
  Utf8.decode (String (ascii_of_N 195) "t") = None /\
  Utf8.loads not_utf8 = Raw.NotText /\
  Utf8.loads "boom" = Raw.NotJSON /\
  Utf8.loads "" = Raw.NotJSON.
Proof. repeat split; reflexivity. Qed.

(** C2, refuted as stated: the probe output is JSON and the probe exits with
    status 1, yet the run is not fatal; the records are reconciled and
    evaluated, and the run ends OK with exit code 0. *)
Lemma C2_counterexample :
  Raw.returncode (raw_exited 1 health_one_dead "") <> 0 /\
  Utf8.loads (Raw.stdout (raw_exited 1 health_one_dead "")) = Raw.Loaded parsed_one_dead /\
  Raw.get_v3_members_health
    Utf8.loads Utf8.decode
    (raw_world (raw_exited 0 listing_two "") (raw_exited 1 health_one_dead ""))
    self_etcdctl
  = Ok [V3ClusterMemberHealth.make (PInt 11) (PStr "n1") (PList [PStr "http://10.0.0.1:2380"])
          (PList [PStr "http://10.0.0.1:2379"]) (PBool true) (PStr "3ms") PNone;
        V3ClusterMemberHealth.make (PInt 12) (PStr "n2") (PList [PStr "http://10.0.0.2:2380"])
          (PList [PStr "http://10.0.0.2:2379"]) (PBool false) (PStr "5s")
          (PStr "context deadline exceeded")] /\
  Raw.main Utf8.loads Utf8.decode
           (raw_world (raw_exited 0 listing_two "") (raw_exited 1 health_one_dead ""))
           which_etcdctl no_text (cluster_members None None)
  = {| exit_code := 0;
       printed := ["OK: 1/2 healthy nodes: n2: context deadline exceeded";
                   "n1: healthy: took 3ms"
                     ++ String PyStr.LF "n2: dead: took 5s: context deadline exceeded"] |}.
Proof.
  split; [discriminate|]. repeat split; vm_compute; reflexivity.
Qed.

Lemma C2_witness :
  Raw.probe Utf8.loads Utf8.decode
            (raw_world (raw_exited 0 listing_two "") (raw_exited 1 health_one_dead ""))
            self_etcdctl members_two = Ok parsed_one_dead /\
  Raw.get_v3_members_health
    Utf8.loads Utf8.decode
    (raw_world (raw_exited 0 listing_two "") (raw_exited 1 health_one_dead ""))
    self_etcdctl
  = reconcile members_two parsed_one_dead /\
  Raw.check_cluster_members
    Utf8.loads Utf8.decode
    (raw_world (raw_exited 0 listing_two "") (raw_exited 1 health_one_dead ""))
    self_etcdctl (Some 1) (Some 2)
  = (records <- reconcile members_two parsed_one_dead ;; check_members records (Some 1) (Some 2)).
Proof.
  refine (proj1 (C2_nonzero_exit_with_json_proceeds
                   Utf8.loads Utf8.decode
                   (raw_world (raw_exited 0 listing_two "") (raw_exited 1 health_one_dead ""))
                   no_text self_etcdctl members_two health_cmd_two parsed_one_dead
                   (Some 1) (Some 2)
                   _ _ _ _) _ _).
  - vm_compute. reflexivity.
  - vm_compute. reflexivity.
  - vm_compute. reflexivity.
  - vm_compute. discriminate.
  - vm_compute. discriminate.
  - vm_compute. discriminate.
Defined.

(** The same probe output and exit status, with a standard error that is
    not UTF-8: line 193 raises, and the run ends UNKNOWN. *)
Example undecodable_stderr_run :
  Raw.main Utf8.loads Utf8.decode
           (raw_world (raw_exited 0 listing_two "") (raw_exited 1 health_one_dead not_utf8))
           which_etcdctl interp_wording (cluster_members None None)
  = {| exit_code := 3;
       printed := ["UNKNOWN: UnicodeDecodeError. 'utf-8' codec can't decode byte 0xff "
                     ++ "in position 0: invalid start byte"] |} /\
  Raw.main Utf8.loads Utf8.decode
           (raw_world (raw_exited 0 listing_two "") (raw_exited 0 health_one_dead not_utf8))
           which_etcdctl interp_wording (cluster_members None None)
  = {| exit_code := 0;
       printed := ["OK: 1/2 healthy nodes: n2: context deadline exceeded";
                   "n1: healthy: took 3ms"
                     ++ String PyStr.LF "n2: dead: took 5s: context deadline exceeded"] |}.
Proof. split; vm_compute; reflexivity. Qed.

(** C8, refuted as stated: a listing that exits with status 0 and is not
    JSON ends the run UNKNOWN with exit code 3, not CRITICAL; on a non-zero
    exit the detail is the stripped non-blank lines, not the full output;
    and a failed listing whose output is not UTF-8 ends the run UNKNOWN. *)
Lemma C8_counterexample :
  Raw.main Utf8.loads Utf8.decode
           (raw_world (raw_exited 0 "boom" "") (raw_exited 0 "" ""))
           which_etcdctl interp_wording (cluster_members None None)
  = {| exit_code := 3;
       printed := ["UNKNOWN: JSONDecodeError. Expecting value: line 1 column 1 (char 0)"] |} /\
  Raw.main Utf8.loads Utf8.decode
           (raw_world (raw_exited 1 ("  Error: context deadline exceeded"
                                       ++ String PyStr.LF (String PyStr.LF "  retry later  "))
                                  "")
                      (raw_exited 0 "" ""))
           which_etcdctl interp_wording (cluster_members None None)
  = {| exit_code := 2;
       printed := ["CRITICAL: Command ETCDCTL_API=3 /usr/bin/etcdctl member list -w json "
                     ++ "failed with code 1: Error: context deadline exceeded";
                   "Error: context deadline exceeded" ++ String PyStr.LF "retry later"] |} /\
  Raw.main Utf8.loads Utf8.decode
           (raw_world (raw_exited 1 not_utf8 "") (raw_exited 0 "" ""))
           which_etcdctl interp_wording (cluster_members None None)
  = {| exit_code := 3;
       printed := ["UNKNOWN: UnicodeDecodeError. 'utf-8' codec can't decode byte 0xff "
                     ++ "in position 0: invalid start byte"] |}.
Proof. repeat split; vm_compute; reflexivity. Qed.

(** Scenario E: the listing exits with status 1 and one line of output. *)
Lemma C8_witness :
  Raw.main Utf8.loads Utf8.decode
           (raw_world (raw_exited 1 "context deadline exceeded" "") (raw_exited 0 "" ""))
           which_etcdctl no_text (cluster_members None None)
  = {| exit_code := 2;
       printed := ["CRITICAL: Command ETCDCTL_API=3 /usr/bin/etcdctl member list -w json "
                     ++ "failed with code 1: context deadline exceeded";
                   "context deadline exceeded"] |}.
Proof.
  refine (proj1 (proj1 (C8_list_members_failures
                          Utf8.loads Utf8.decode
                          (raw_world (raw_exited 1 "context deadline exceeded" "")
                                     (raw_exited 0 "" ""))
                          which_etcdctl no_text self_etcdctl (cluster_members None None)
                          eq_refl eq_refl) _)
                "context deadline exceeded" eq_refl).
  vm_compute. discriminate.
Defined.

Lemma X3_witness :
  Raw.probe_output Utf8.loads Utf8.decode health_cmd_two
                   (raw_exited 1 health_one_dead "boom")
  = Raw.probe_output Utf8.loads Utf8.decode [] (raw_exited 0 health_one_dead not_utf8).
Proof.
  apply (X3_probe_reads_stdout_when_streams_decode Utf8.loads Utf8.decode).
  - reflexivity.
  - right. split; vm_compute; discriminate.
  - left. reflexivity.
Defined.

Lemma X4_witness :
  level (AssertionError (unparsable_line "Error: context deadline exceeded")) = UNKNOWN /\
  (AssertionError (unparsable_line "Error: context deadline exceeded") = UnicodeDecodeError \/
   legacy_failure (AssertionError (unparsable_line "Error: context deadline exceeded"))) /\
  (legacy_failure (AssertionError (unparsable_line "Error: context deadline exceeded")) ->
   Utf8.loads (Raw.stdout (raw_exited 1 "Error: context deadline exceeded" "")) = Raw.NotJSON /\
   exists text,
     Utf8.decode (Raw.stdout (raw_exited 1 "Error: context deadline exceeded" "")) = Some text /\
     PyStr.splitlines text <> []).
Proof.
  apply (X4_probe_never_critical Utf8.loads Utf8.decode health_cmd_two
           (raw_exited 1 "Error: context deadline exceeded" "")).
  vm_compute. reflexivity.
Defined.

(** ** The peers of the leader announcer *)

Lemma split_from_span (sep : ascii) (s cur : string) :
  Leader.split_from sep cur s
  = match Re.span_until sep s with
    | (a, String _ b) => (PyStr.rev cur ++ a) :: Leader.split sep b
    | (a, EmptyString) => [PyStr.rev cur ++ a]
    end.
Proof.
  revert cur. induction s as [|c s IH]; intros cur; simpl.
  - rewrite append_nil_r. reflexivity.
  - destruct (Ascii.eqb c sep).
    + rewrite append_nil_r. reflexivity.
    + rewrite IH. destruct (Re.span_until sep s) as [a b].
      rewrite rev_cons, append_assoc. simpl. reflexivity.
Qed.

Lemma split_span (sep : ascii) (s : string) :
  Leader.split sep s
  = match Re.span_until sep s with
    | (a, String _ b) => a :: Leader.split sep b
    | (a, EmptyString) => [a]
    end.
Proof. unfold Leader.split at 1. rewrite split_from_span. reflexivity. Qed.

Section PeersFacts.

Variable py_int : string -> option Z.

(** X16: a peer is read as host, colon, port: [host_of_peer] returns
    [(host, port)] exactly when the peer is the host, without a colon, then
    a colon, then a text without a colon that [int] reads as the port, and
    then nothing or a further colon and anything; what follows a second
    colon is ignored. *)
Theorem X16_peer_is_host_colon_port (x host : string) (port : Z) :
  Leader.host_of_peer py_int x = Ok (host, port) <->
  exists text rest,
    x = host ++ String Leader.COLON (text ++ rest) /\
    Py.has_char Leader.COLON host = false /\
    Py.has_char Leader.COLON text = false /\
    (rest = "" \/ exists r, rest = String Leader.COLON r) /\
    py_int text = Some port.
Proof.
  unfold Leader.host_of_peer. rewrite split_span.
  destruct (Re.span_until Leader.COLON x) as [h b] eqn:E.
  apply span_until_spec in E as [E [Hh Hb]]. split.
  - destruct b as [|c b]; [discriminate|].
    destruct Hb as [Hb | [b' Hb]]; [discriminate|]. injection Hb as -> ->.
    rewrite split_span.
    destruct (Re.span_until Leader.COLON b') as [t rest] eqn:E2.
    apply span_until_spec in E2 as [E2 [Ht Hrest]].
    assert (P : match py_int t with
                | Some p => Ok (h, p)
                | None => Raise (ValueError ("invalid literal for int() with base 10: "
                                               ++ Py.repr_str t))
                end = Ok (host, port) ->
                h = host /\ py_int t = Some port).
    { destruct (py_int t); [|discriminate]. intros H. injection H as <- <-. auto. }
    destruct rest as [|c rest]; intros H; apply P in H as [<- H];
      exists t; eexists; (split; [rewrite E, E2; reflexivity|]); repeat split; assumption.
  - intros [text [rest [X [Hhost [Htext [Hrest P]]]]]].
    assert (S1 : (h, b) = (host, String Leader.COLON (text ++ rest))).
    { assert (A : Re.span_until Leader.COLON x = (h, b))
        by (apply span_until_spec; repeat split; assumption).
      rewrite <- A. apply span_until_spec. repeat split; [exact X | exact Hhost |].
      right. eexists. reflexivity. }
    injection S1 as -> ->.
    rewrite split_span.
    assert (S2 : Re.span_until Leader.COLON (text ++ rest) = (text, rest))
      by (apply span_until_spec; repeat split; assumption).
    rewrite S2. destruct rest; rewrite P; reflexivity.
Qed.

(** X17: a peer without a colon has no port field: [host_of_peer] raises
    [IndexError] exactly for the peers that hold no colon. *)
Theorem X17_peer_without_colon (x : string) :
  Leader.host_of_peer py_int x = Raise IndexError <-> Py.has_char Leader.COLON x = false.
Proof.
  unfold Leader.host_of_peer. rewrite split_span.
  destruct (Re.span_until Leader.COLON x) as [h b] eqn:E.
  apply span_until_spec in E as [E [Hh Hb]]. split.
  - destruct b as [|c b].
    + intros _. rewrite E, append_nil_r. exact Hh.
    + rewrite split_span. destruct (Re.span_until Leader.COLON b) as [t rest].
      destruct rest; destruct (py_int t); discriminate.
  - intros H. destruct b as [|c b]; [reflexivity|].
    destruct Hb as [Hb | [b' Hb]]; [discriminate|]. injection Hb as -> ->.
    rewrite E, has_char_append in H. apply orb_false_iff in H as [_ H].
    unfold Py.has_char in H. simpl in H. discriminate.
Qed.

End PeersFacts.

(** ** One pass of the leader announcer *)

Section PollFacts.

Variable interp_text : exn -> string.

Local Notation "'body'" := (Leader.poll_body interp_text).
Local Notation "'pass'" := (Leader.poll_once interp_text).

Lemma read_or_none_returned (c : Leader.client) (key : string) (ev : list Leader.event)
      (v : pyval) :
  Leader.read_or_none c key = (ev, Leader.Returned v) -> ev = [] /\ current_value c key v.
Proof.
  unfold Leader.read_or_none, current_value.
  destruct (Leader.read_value c key) as [a|[text|cls text|]]; intros H;
    try discriminate; injection H as <- <-; split; auto.
  right. split; [reflexivity | exists text; reflexivity].
Qed.

Lemma update_events (c : Leader.client) (key : string) (cur new : pyval) (e : Leader.event) :
  In e (fst (Leader.update c key cur new)) ->
  Leader.is_sleep e = false /\
  (Leader.is_write e = true ->
   e = Leader.Write key new (Leader.guard_of cur) /\ Py.eq cur new = false).
Proof.
  unfold Leader.update. destruct (Py.eq cur new); simpl; [contradiction|].
  destruct (Leader.write c key new (Leader.guard_of cur)) as [[]|f]; simpl;
    intros H; repeat (destruct H as [<- | H]; [split; [reflexivity | intros W; try discriminate W; auto]|]);
    contradiction.
Qed.

Lemma body_events (c : Leader.client) (e : Leader.event) :
  In e (fst (body c)) ->
  Leader.is_sleep e = false /\
  (Leader.is_write e = true ->
   exists key cur l new,
     (key = Leader.KEY_ID \/ key = Leader.KEY_NAME) /\
     current_value c key cur /\
     Leader.leader c = Leader.Returned l /\
     Py.getitem_key l (announced key) = Ok new /\
     Py.eq cur new = false /\
     e = Leader.Write key new (Leader.guard_of cur)).
Proof.
  unfold Leader.poll_body.
  destruct (Leader.read_or_none c Leader.KEY_ID) as [ev1 [ci|f1]] eqn:R1;
    [apply read_or_none_returned in R1 as [-> C1] | ].
  2:{ unfold Leader.read_or_none in R1.
      destruct (Leader.read_value c Leader.KEY_ID) as [a|[text|cls text|]];
        try discriminate; injection R1 as <- _; simpl; contradiction. }
  simpl.
  destruct (Leader.read_or_none c Leader.KEY_NAME) as [ev2 [cn|f2]] eqn:R2;
    [apply read_or_none_returned in R2 as [-> C2] | ].
  2:{ unfold Leader.read_or_none in R2.
      destruct (Leader.read_value c Leader.KEY_NAME) as [a|[text|cls text|]];
        try discriminate; injection R2 as <- _; simpl; contradiction. }
  simpl.
  destruct (Leader.leader c) as [l|f] eqn:L; simpl; [|contradiction].
  destruct (Py.getitem_key l "id") as [li|e1] eqn:G1; simpl; [|contradiction].
  destruct (Py.getitem_key l "name") as [ln|e2] eqn:G2; simpl; [|contradiction].
  destruct (Leader.update c Leader.KEY_ID ci li) as [ev3 [[]|f3]] eqn:U1; simpl.
  - destruct (Leader.update c Leader.KEY_NAME cn ln) as [ev4 o4] eqn:U2; simpl.
    intros H. apply in_app_or in H as [H | H].
    + pose proof (update_events c Leader.KEY_ID ci li e) as P. rewrite U1 in P.
      destruct (P H) as [S W]. split; [exact S|]. intros X. destruct (W X) as [-> N].
      exists Leader.KEY_ID, ci, l, li. repeat split; auto.
    + pose proof (update_events c Leader.KEY_NAME cn ln e) as P. rewrite U2 in P.
      destruct (P H) as [S W]. split; [exact S|]. intros X. destruct (W X) as [-> N].
      exists Leader.KEY_NAME, cn, l, ln. repeat split; auto.
  - intros H.
    pose proof (update_events c Leader.KEY_ID ci li e) as P. rewrite U1 in P.
    destruct (P H) as [S W]. split; [exact S|]. intros X. destruct (W X) as [-> N].
    exists Leader.KEY_ID, ci, l, li. repeat split; auto.
Qed.

(** X18: every write of a pass is a conditional write of what the leader
    reports: it sets one of the two keys to the matching field of
    [client.leader], only when that differs from the value the pass has
    just read from the key, and it is guarded by that value, or by
    [prevExist=False] when the key was not found or held None. *)
Theorem X18_writes_are_guarded
  (c : Leader.client) (delay : Z) (interrupted : bool)
  (key : string) (value : pyval) (g : Leader.guard) :
  In (Leader.Write key value g) (fst (pass c delay interrupted)) ->
  (key = Leader.KEY_ID \/ key = Leader.KEY_NAME) /\
  exists cur l,
    current_value c key cur /\
    Leader.leader c = Leader.Returned l /\
    Py.getitem_key l (announced key) = Ok value /\
    Py.eq cur value = false /\
    g = Leader.guard_of cur.
Proof.
  unfold Leader.poll_once. intros H.
  assert (B : In (Leader.Write key value g) (fst (body c))).
  { destruct (body c) as [ev out]. simpl.
    destruct (delay <? 0); [|destruct interrupted]; simpl in H;
      apply in_app_or in H as [H | H];
      try (destruct H as [H | H]; [discriminate H|]);
      try (destruct H as [H | H]; [discriminate H|]);
      try contradiction;
      destruct out as [[]|[text|cls text|]]; simpl in H; try exact H;
      apply in_app_or in H as [H | [H | H]]; try exact H; try discriminate H; contradiction. }
  destruct (body_events c _ B) as [_ W].
  destruct (W eq_refl) as [key' [cur [l [new [K [C [L [G [N E]]]]]]]]].
  injection E as -> -> ->.
  split; [exact K|]. exists cur, l. repeat split; assumption.
Qed.

(** X19: a pass that finds both keys equal to what the leader reports
    writes nothing and logs nothing: it only sleeps, and the loop goes on. *)
Theorem X19_up_to_date_pass_is_silent
  (c : Leader.client) (delay : Z) (ci cn l li ln : pyval) :
  current_value c Leader.KEY_ID ci ->
  current_value c Leader.KEY_NAME cn ->
  Leader.leader c = Leader.Returned l ->
  Py.getitem_key l "id" = Ok li ->
  Py.getitem_key l "name" = Ok ln ->
  Py.eq ci li = true ->
  Py.eq cn ln = true ->
  0 <= delay ->
  pass c delay false = ([Leader.Sleep delay], Leader.Continue).
Proof.
  intros C1 C2 L G1 G2 E1 E2 D.
  assert (R : forall key v, current_value c key v ->
                            Leader.read_or_none c key = ([], Leader.Returned v)).
  { intros key v [H | [-> [text H]]]; unfold Leader.read_or_none; rewrite H; reflexivity. }
  unfold Leader.poll_once, Leader.poll_body.
  rewrite (R _ _ C1). simpl. rewrite (R _ _ C2). simpl.
  rewrite L. simpl. rewrite G1, G2. simpl.
  unfold Leader.update. rewrite E1, E2. simpl.
  apply Z.ltb_ge in D. rewrite D. reflexivity.
Qed.

(** X20: when the write of the id key fails, the pass stops there: the name
    key is not written even when it differs, one error record names the
    class and the text of the failure, and after the sleep the loop goes
    on. *)
Theorem X20_failed_id_write_skips_name
  (c : Leader.client) (delay : Z) (ci cn l li ln : pyval) (cls text : string) :
  current_value c Leader.KEY_ID ci ->
  current_value c Leader.KEY_NAME cn ->
  Leader.leader c = Leader.Returned l ->
  Py.getitem_key l "id" = Ok li ->
  Py.getitem_key l "name" = Ok ln ->
  Py.eq ci li = false ->
  Leader.write c Leader.KEY_ID li (Leader.guard_of ci) = Leader.Thrown (Leader.Failed cls text) ->
  0 <= delay ->
  pass c delay false
  = ([Leader.Info ("Updating " ++ Leader.KEY_ID ++ " from " ++ Py.str ci ++ " to " ++ Py.str li);
      Leader.Write Leader.KEY_ID li (Leader.guard_of ci);
      Leader.Error ("Unable to refresh current etcd leader: " ++ cls ++ ": " ++ text);
      Leader.Sleep delay],
     Leader.Continue).
Proof.
  intros C1 C2 L G1 G2 E1 W D.
  assert (R : forall key v, current_value c key v ->
                            Leader.read_or_none c key = ([], Leader.Returned v)).
  { intros key v [H | [-> [t H]]]; unfold Leader.read_or_none; rewrite H; reflexivity. }
  unfold Leader.poll_once, Leader.poll_body.
  rewrite (R _ _ C1). simpl. rewrite (R _ _ C2). simpl.
  rewrite L. simpl. rewrite G1, G2. simpl.
  unfold Leader.update at 1. rewrite E1. simpl. rewrite W. simpl.
  apply Z.ltb_ge in D. rewrite D. reflexivity.
Qed.

Lemma update_not_interrupted (c : Leader.client) (key : string) (cur new : pyval) :
  Leader.quiet c ->
  Leader.is_interrupt (snd (Leader.update c key cur new)) = false.
Proof.
  intros [_ [_ Q]]. unfold Leader.update. destruct (Py.eq cur new); simpl; [reflexivity|].
  destruct (Leader.write c key new (Leader.guard_of cur)) as [[]|[t|cls t|]] eqn:W; simpl;
    try reflexivity.
  exfalso. apply (Q _ _ _ W).
Qed.

Lemma body_not_interrupted (c : Leader.client) :
  Leader.quiet c -> Leader.is_interrupt (snd (body c)) = false.
Proof.
  intros Q. pose proof Q as [Qr [Ql Qw]].
  assert (R : forall key, Leader.is_interrupt (snd (Leader.read_or_none c key)) = false).
  { intros key. unfold Leader.read_or_none.
    destruct (Leader.read_value c key) as [a|[t|cls t|]] eqn:E; simpl; try reflexivity.
    exfalso. apply (Qr key E). }
  unfold Leader.poll_body.
  pose proof (R Leader.KEY_ID) as R1.
  destruct (Leader.read_or_none c Leader.KEY_ID) as [ev1 [ci|f1]]; simpl in *; [|exact R1].
  pose proof (R Leader.KEY_NAME) as R2.
  destruct (Leader.read_or_none c Leader.KEY_NAME) as [ev2 [cn|f2]]; simpl in *; [|exact R2].
  destruct (Leader.leader c) as [l|[t|cls t|]] eqn:L; simpl; try reflexivity;
    [|exfalso; apply Ql; reflexivity].
  destruct (Py.getitem_key l "id") as [li|e1]; simpl; [|reflexivity].
  destruct (Py.getitem_key l "name") as [ln|e2]; simpl; [|reflexivity].
  pose proof (update_not_interrupted c Leader.KEY_ID ci li Q) as U1.
  destruct (Leader.update c Leader.KEY_ID ci li) as [ev3 [[]|f3]]; simpl in *; [|exact U1].
  pose proof (update_not_interrupted c Leader.KEY_NAME cn ln Q) as U2.
  destruct (Leader.update c Leader.KEY_NAME cn ln) as [ev4 o4]; simpl in *. exact U2.
Qed.

Lemma pass_sleeps_once (c : Leader.client) (delay : Z) (interrupted : bool) :
  List.length (filter Leader.is_sleep (fst (pass c delay interrupted))) = 1%nat.
Proof.
  assert (B : filter Leader.is_sleep (fst (body c)) = []).
  { pose proof (body_events c) as P.
    induction (fst (body c)) as [|e ev IH]; [reflexivity|].
    simpl. destruct (P e (or_introl eq_refl)) as [-> _].
    apply IH. intros e' H. apply P. right. exact H. }
  unfold Leader.poll_once. destruct (body c) as [ev out]. simpl in B.
  destruct (delay <? 0); [|destruct interrupted];
    destruct out as [[]|[t|cls t|]]; simpl;
    rewrite ?filter_app, ?B; simpl; rewrite ?B; reflexivity.
Qed.

Lemma quiet_pass_next (c : Leader.client) (delay : Z) (interrupted : bool) :
  Leader.quiet c ->
  0 <= delay ->
  snd (pass c delay interrupted) = (if interrupted then Leader.Break else Leader.Continue).
Proof.
  intros Q D.
  pose proof (body_not_interrupted c Q) as B.
  unfold Leader.poll_once. destruct (body c) as [ev out]. simpl in B.
  apply Z.ltb_ge in D. rewrite D.
  destruct interrupted; [reflexivity|].
  destruct out as [[]|[t|cls t|]]; simpl; try reflexivity.
  discriminate B.
Qed.

(** X21: only an interrupt ends the loop: with a delay that is not negative
    and no call of the client interrupted, a pass ends the loop exactly
    when its sleep is interrupted, whatever else the client answers or
    raises; and every pass sleeps exactly once. *)
Theorem X21_only_interrupt_ends_loop (c : Leader.client) (delay : Z) (interrupted : bool) :
  Leader.quiet c ->
  0 <= delay ->
  snd (pass c delay interrupted) = (if interrupted then Leader.Break else Leader.Continue) /\
  List.length (filter Leader.is_sleep (fst (pass c delay interrupted))) = 1%nat.
Proof.
  intros Q D. split; [apply quiet_pass_next; assumption | apply pass_sleeps_once].
Qed.

(** X22: an interrupt during the calls of a pass does not skip the sleep:
    the pass logs that it exits, sleeps once more, and then leaves the
    loop. *)
Theorem X22_interrupted_pass_still_sleeps (c : Leader.client) (delay : Z) (ev : list Leader.event) :
  body c = (ev, Leader.Thrown Leader.KeyboardInterrupt) ->
  0 <= delay ->
  pass c delay false
  = ((ev ++ [Leader.Warning Leader.exiting; Leader.Sleep delay])%list, Leader.Break).
Proof.
  intros B D. unfold Leader.poll_once. rewrite B. simpl.
  apply Z.ltb_ge in D. rewrite D. simpl. rewrite <- app_assoc. reflexivity.
Qed.

(** X23: a negative delay is fatal: the first pass polls as usual, then
    [time.sleep] refuses the delay and the [ValueError] leaves the loop,
    whatever the client answered. *)
Theorem X23_negative_delay_crashes (c : Leader.client) (delay : Z) (interrupted : bool) :
  delay < 0 ->
  snd (pass c delay interrupted)
  = Leader.Crash "ValueError" "sleep length must be non-negative" /\
  forall world fuel,
    snd (Leader.poll_loop interp_text (S fuel) world delay 0)
    = Some (Leader.Crash "ValueError" "sleep length must be non-negative").
Proof.
  intros D. apply Z.ltb_lt in D.
  assert (P : forall c' i, snd (pass c' delay i)
                           = Leader.Crash "ValueError" "sleep length must be non-negative").
  { intros c' i. unfold Leader.poll_once. destruct (body c') as [ev out].
    rewrite D. reflexivity. }
  split; [apply P|].
  intros world fuel. simpl.
  pose proof (P (fst (world 0%nat)) (snd (world 0%nat))) as H.
  destruct (pass (fst (world 0%nat)) delay (snd (world 0%nat))) as [ev nx]. simpl in H.
  rewrite H. reflexivity.
Qed.

(** X24: left alone, the loop never stops: with a delay that is not
    negative, when no call and no sleep is ever interrupted, the loop is
    still running after any number of passes, and has slept once per pass,
    whatever etcd answers or refuses. *)
Theorem X24_loop_runs_forever (world : nat -> Leader.client * bool) (delay : Z) :
  (forall n, Leader.quiet (fst (world n)) /\ snd (world n) = false) ->
  0 <= delay ->
  forall fuel n,
    snd (Leader.poll_loop interp_text fuel world delay n) = None /\
    List.length (filter Leader.is_sleep
                        (fst (Leader.poll_loop interp_text fuel world delay n))) = fuel.
Proof.
  intros Q D. induction fuel as [|fuel IH]; intros n; simpl; [split; reflexivity|].
  destruct (Q n) as [Qn Sn].
  destruct (world n) as [c i]. simpl in Qn, Sn |- *. subst i.
  pose proof (quiet_pass_next c delay false Qn D) as N.
  pose proof (pass_sleeps_once c delay false) as Sl.
  destruct (pass c delay false) as [ev nx]. simpl in N, Sl. subst nx.
  destruct (IH (S n)) as [R L].
  destruct (Leader.poll_loop interp_text fuel world delay (S n)) as [ev' r]. simpl in *.
  split; [exact R|]. rewrite filter_app, length_app, Sl, L. reflexivity.
Qed.

End PollFacts.

(** ** Concrete passes of the leader announcer *)

Example peers_ex :
  Leader.hosts int_of_digits ["127.0.0.1:2379"; "etcd2:2379:ignored"]
  = Ok [("127.0.0.1", 2379); ("etcd2", 2379)] /\
  Leader.hosts int_of_digits ["127.0.0.1:2379"; "etcd2"] = Raise IndexError /\
  Leader.host_of_peer int_of_digits "[::1]:2379"
  = Raise (ValueError "invalid literal for int() with base 10: ''") /\
  Leader.split Leader.COLON "" = [""] /\
  Leader.split Leader.COLON "a::b:" = ["a"; ""; "b"; ""].
Proof. repeat split; reflexivity. Qed.

(** Both keys are stale and the writes succeed. *)
Example stale_pass :
  Leader.poll_once no_text (store_client (Some "a1") None "b2" "n2" (Leader.Returned tt)) 10 false
  = ([Leader.Info "Updating /services/etcd/leader/id from a1 to b2";
      Leader.Write Leader.KEY_ID (PStr "b2") (Leader.PrevValue (PStr "a1"));
      Leader.Info "Updated /services/etcd/leader/id from a1 to b2";
      Leader.Info "Updating /services/etcd/leader/name from None to n2";
      Leader.Write Leader.KEY_NAME (PStr "n2") Leader.PrevExistFalse;
      Leader.Info "Updated /services/etcd/leader/name from None to n2";
      Leader.Sleep 10],
     Leader.Continue).
Proof. reflexivity. Qed.

Lemma X18_witness :
  (Leader.KEY_NAME = Leader.KEY_ID \/ Leader.KEY_NAME = Leader.KEY_NAME) /\
  exists cur l,
    current_value (store_client (Some "a1") None "b2" "n2" (Leader.Returned tt))
                  Leader.KEY_NAME cur /\
    Leader.leader (store_client (Some "a1") None "b2" "n2" (Leader.Returned tt))
    = Leader.Returned l /\
    Py.getitem_key l (announced Leader.KEY_NAME) = Ok (PStr "n2") /\
    Py.eq cur (PStr "n2") = false /\
    Leader.PrevExistFalse = Leader.guard_of cur.
Proof.
  apply (X18_writes_are_guarded
           no_text (store_client (Some "a1") None "b2" "n2" (Leader.Returned tt)) 10 false
           Leader.KEY_NAME (PStr "n2") Leader.PrevExistFalse).
  vm_compute. do 4 right. left. reflexivity.
Defined.

Lemma X19_witness :
  Leader.poll_once no_text (store_client (Some "b2") (Some "n2") "b2" "n2" (Leader.Returned tt))
                   10 false
  = ([Leader.Sleep 10], Leader.Continue).
Proof.
  apply (X19_up_to_date_pass_is_silent
           no_text (store_client (Some "b2") (Some "n2") "b2" "n2" (Leader.Returned tt)) 10
           (PStr "b2") (PStr "n2")
           (PDict [("id", PStr "b2"); ("name", PStr "n2")]) (PStr "b2") (PStr "n2")).
  - left. reflexivity.
  - left. reflexivity.
  - reflexivity.
  - reflexivity.
  - reflexivity.
  - reflexivity.
  - reflexivity.
  - lia.
Defined.

Lemma X20_witness :
  Leader.poll_once
    no_text
    (store_client (Some "a1") (Some "n1") "b2" "n2"
                  (Leader.Thrown (Leader.Failed "EtcdCompareFailed" "Compare failed")))
    10 false
  = ([Leader.Info ("Updating " ++ Leader.KEY_ID ++ " from " ++ Py.str (PStr "a1") ++ " to "
                     ++ Py.str (PStr "b2"));
      Leader.Write Leader.KEY_ID (PStr "b2") (Leader.guard_of (PStr "a1"));
      Leader.Error ("Unable to refresh current etcd leader: " ++ "EtcdCompareFailed" ++ ": "
                      ++ "Compare failed");
      Leader.Sleep 10],
     Leader.Continue).
Proof.
  apply (X20_failed_id_write_skips_name
           no_text
           (store_client (Some "a1") (Some "n1") "b2" "n2"
                         (Leader.Thrown (Leader.Failed "EtcdCompareFailed" "Compare failed")))
           10 (PStr "a1") (PStr "n1")
           (PDict [("id", PStr "b2"); ("name", PStr "n2")]) (PStr "b2") (PStr "n2")
           "EtcdCompareFailed" "Compare failed").
  - left. reflexivity.
  - left. reflexivity.
  - reflexivity.
  - reflexivity.
  - reflexivity.
  - reflexivity.
  - reflexivity.
  - lia.
Defined.

Lemma store_client_quiet (id name : option string) (li ln cls text : string) :
  Leader.quiet (store_client id name li ln (Leader.Thrown (Leader.Failed cls text))).
Proof.
  repeat split; simpl.
  - intros key. destruct (if String.eqb key Leader.KEY_ID then id else name); discriminate.
  - discriminate.
  - intros _ _ _. discriminate.
Qed.

Lemma X21_witness :
  snd (Leader.poll_once
         no_text
         (store_client None None "b2" "n2"
                       (Leader.Thrown (Leader.Failed "EtcdException" "Raft Internal Error")))
         10 true)
  = Leader.Break /\
  List.length
    (filter Leader.is_sleep
            (fst (Leader.poll_once
                    no_text
                    (store_client None None "b2" "n2"
                                  (Leader.Thrown (Leader.Failed "EtcdException"
                                                                "Raft Internal Error")))
                    10 true))) = 1%nat.
Proof.
  apply (X21_only_interrupt_ends_loop
           no_text
           (store_client None None "b2" "n2"
                         (Leader.Thrown (Leader.Failed "EtcdException" "Raft Internal Error")))
           10 true).
  - apply store_client_quiet.
  - lia.
Defined.

Lemma X22_witness :
  Leader.poll_once no_text interrupted_client 10 false
  = (([] ++ [Leader.Warning Leader.exiting; Leader.Sleep 10])%list, Leader.Break).
Proof.
  apply (X22_interrupted_pass_still_sleeps no_text interrupted_client 10 []).
  - reflexivity.
  - lia.
Defined.

Lemma X23_witness :
  snd (Leader.poll_once no_text (store_client None None "b2" "n2" (Leader.Returned tt))
                        (-1) false)
  = Leader.Crash "ValueError" "sleep length must be non-negative" /\
  forall world fuel,
    snd (Leader.poll_loop no_text (S fuel) world (-1) 0)
    = Some (Leader.Crash "ValueError" "sleep length must be non-negative").
Proof.
  apply (X23_negative_delay_crashes
           no_text (store_client None None "b2" "n2" (Leader.Returned tt)) (-1) false).
  lia.
Defined.

Lemma X24_witness :
  snd (Leader.poll_loop
         no_text 3
         (fun _ => (store_client (Some "a1") None "b2" "n2"
                                 (Leader.Thrown (Leader.Failed "EtcdCompareFailed"
                                                               "Compare failed")),
                    false))
         10 0) = None /\
  List.length
    (filter Leader.is_sleep
            (fst (Leader.poll_loop
                    no_text 3
                    (fun _ => (store_client (Some "a1") None "b2" "n2"
                                            (Leader.Thrown (Leader.Failed "EtcdCompareFailed"
                                                                          "Compare failed")),
                               false))
                    10 0))) = 3%nat.
Proof.
  apply (X24_loop_runs_forever
           no_text
           (fun _ => (store_client (Some "a1") None "b2" "n2"
                                   (Leader.Thrown (Leader.Failed "EtcdCompareFailed"
                                                                 "Compare failed")),
                      false))
           10).
  - intros n. split; [apply store_client_quiet | reflexivity].
  - lia.
Defined.
